(** * aurum-server: the synchronization server, embedded and verified

    The development follows the TypeScript sources:
    - [src/client.ts]  : class [Client] and class [AurumServer] (the revision
      with per-operation authenticators and duplex sources);
    - [src/router.ts]  : class [Router];
    - an earlier revision of [AurumServer] (no authenticator call, explicit
      [LISTEN_DATASOURCE_OK] acknowledgment), kept in module [Legacy].

    JavaScript objects that the server shares by reference (clients, data
    sources, cancellation tokens) live in an explicit heap; every method is a
    state transformer on [State]. *)

From Stdlib Require Import ZArith Ascii.
From stdpp Require Import base option list strings gmap pretty.

Local Set Warnings "-register-all".

(** ** JavaScript values *)

(** The values that [JSON.parse] can produce, plus [undefined].  Numbers are
    the integers (fractional numbers play no role in the server). *)
Inductive value : Type :=
| VUndefined
| VNull
| VBool (b : bool)
| VNum (n : Z)
| VStr (s : string)
| VArr (items : list value)
| VObj (fields : list (string * value)).

(** A plain object: its own enumerable properties, in insertion order, under
    distinct names. *)
Abbreviation obj := (list (string * value)).

Fixpoint obj_get (o : obj) (k : string) : value :=
  match o with
  | [] => VUndefined
  | (k', v) :: o' => if String.eqb k' k then v else obj_get o' k
  end.

Definition obj_has (o : obj) (k : string) : bool :=
  existsb (fun kv => String.eqb kv.1 k) o.

(** [delete o.k] *)
Definition obj_delete (k : string) (o : obj) : obj :=
  List.filter (fun kv => negb (String.eqb kv.1 k)) o.

(** Member access [v.k]: a [TypeError] ([None]) on [null] and [undefined],
    [undefined] on a missing property and on primitives and arrays (none of
    the names read by the server is a built-in property of those). *)
Definition member (v : value) (k : string) : option value :=
  match v with
  | VUndefined | VNull => None
  | VObj o => Some (obj_get o k)
  | _ => Some VUndefined
  end.

(** Member access on a value already known not to be [null]/[undefined]. *)
Definition prop (v : value) (k : string) : value :=
  default VUndefined (member v k).

Fixpoint chars (s : string) : list value :=
  match s with
  | EmptyString => []
  | String a s' => VStr (String a EmptyString) :: chars s'
  end.

Definition indexed (l : list value) : obj :=
  imap (fun i v => (pretty i, v)) l.

(** [Object.assign({}, v)]: a shallow copy of the own enumerable properties. *)
Definition Object_assign_empty (v : value) : obj :=
  match v with
  | VObj o => o
  | VArr l => indexed l
  | VStr s => indexed (chars s)
  | _ => []
  end.

(** [v !== "merge"] negated: strict equality with the string [merge]. *)
Definition is_merge (v : value) : bool :=
  match v with
  | VStr s => String.eqb s "merge"
  | _ => false
  end.

(** ** Protocol *)

(** Modelled from the spec: the message kinds of the wire protocol (section
    6).  They are the members of aurumjs's [RemoteProtocol] enumeration that
    the server names; the enumeration is declared in aurumjs, and the numeric
    values of its members are a parameter of the dispatch below. *)
Inductive RemoteProtocol : Type :=
| HEARTBEAT
| LISTEN_DATASOURCE
| LISTEN_DATASOURCE_OK
| LISTEN_DATASOURCE_ERR
| UPDATE_DATASOURCE
| LISTEN_DUPLEX_DATASOURCE
| LISTEN_DUPLEX_DATASOURCE_ERR
| UPDATE_DUPLEX_DATASOURCE
| UPDATE_DUPLEX_DATASOURCE_ERR
| LISTEN_ARRAY_DATASOURCE
| LISTEN_ARRAY_DATASOURCE_ERR
| UPDATE_ARRAY_DATASOURCE.

(** The object [{ type: messageType, ...payload }] handed to
    [connection.send] (before [JSON.stringify]). *)
Record Frame : Type := {
  frame_type : RemoteProtocol;
  frame_payload : obj;
}.

(** [ws.Data]: a text frame or binary data. *)
Inductive Data : Type :=
| DataString (text : string)
| DataBinary (octets : list Byte.byte).

Inductive Operation : Type := Read | Write.

(** [authenticator(token, operation): boolean]; the token is whatever the
    message carried in its [token] member. *)
Abbreviation Authenticator := (value -> Operation -> bool).

(** ** The heap: clients, sources, cancellation tokens *)

Abbreviation ClientRef := nat.
Abbreviation SourceRef := nat.
Abbreviation Token := nat.

(** The arrow functions passed to [listen]/[listenAndRepeat], as closures over
    [sender] and [id]. *)
Inductive Callback : Type :=
| OnValue (sender : ClientRef) (id : value)
| OnDuplexValue (sender : ClientRef) (id : value)
| OnChange (sender : ClientRef) (id : value)
| OnChangeKeepMerge (sender : ClientRef) (id : value).

Definition cb_sender (cb : Callback) : ClientRef :=
  match cb with
  | OnValue s _ | OnDuplexValue s _ | OnChange s _ | OnChangeKeepMerge s _ => s
  end.

Record Listener : Type := {
  callback : Callback;
  token : Token;
}.

(** Modelled from the spec: the state primitives (section 6, collaborator
    contract), which are aurumjs's and not part of this repository.
    [DataSource], [DuplexDataSource] and [ArrayDataSource] are seen through the
    members the server touches: the current value ([value], or the array
    returned by [getData()] as a [VArr]; [undefined] until one is set), the
    listeners in registration order, and the values handed to
    [updateUpstream]. *)
Record Source : Type := {
  src_value : value;
  listeners : list Listener;
  upstream : list value;
}.

(** class [Client]: [connection] is the log of frames handed to
    [connection.send]. *)
Record Client : Type := {
  subscriptions : gmap string Token;
  timeSinceLastMessage : option Z;
  connection : list Frame;
}.

(** [new Client(ws)] *)
Definition new_Client : Client :=
  {| subscriptions := ∅; timeSinceLastMessage := None; connection := [] |}.

Definition new_Source : Source :=
  {| src_value := VUndefined; listeners := []; upstream := [] |}.

(** interface [AurumServerConfig]; a hook is [true] when the embedding
    application supplied it. *)
Record AurumServerConfig : Type := {
  reuseServer : bool;
  port : option Z;
  maxMessageSize : option Z;
  onClientConnected : bool;
  onClientDisconnected : bool;
  onError : bool;
}.

Record Endpoint : Type := {
  source : SourceRef;
  authenticator : Authenticator;
}.

(** The fields of class [AurumServer]. *)
Record AurumServer : Type := {
  config : AurumServerConfig;
  exposedDataSources : gmap string Endpoint;
  exposedDuplexDataSources : gmap string Endpoint;
  exposedArrayDataSources : gmap string Endpoint;
  wsServerClients : list ClientRef;
}.

(** What the embedding application and the console observe. *)
Inductive LogEntry : Type :=
| HookClientConnected (client : ClientRef)
| HookClientDisconnected (client : ClientRef)
| HookError (client : ClientRef) (error : string)
| ConsoleError (text : string).

Record State : Type := {
  server : AurumServer;
  create_config : AurumServerConfig;
  clients : gmap ClientRef Client;
  sources : gmap SourceRef Source;
  tokens : gmap Token bool;
  nextToken : Token;
  nextClient : ClientRef;
  log : list LogEntry;
}.

Definition with_server (s : AurumServer) (st : State) : State :=
  {| server := s; create_config := create_config st; clients := clients st;
     sources := sources st; tokens := tokens st; nextToken := nextToken st;
     nextClient := nextClient st; log := log st |}.

Definition with_clients (c : gmap ClientRef Client) (st : State) : State :=
  {| server := server st; create_config := create_config st; clients := c;
     sources := sources st; tokens := tokens st; nextToken := nextToken st;
     nextClient := nextClient st; log := log st |}.

Definition with_sources (s : gmap SourceRef Source) (st : State) : State :=
  {| server := server st; create_config := create_config st; clients := clients st;
     sources := s; tokens := tokens st; nextToken := nextToken st;
     nextClient := nextClient st; log := log st |}.

Definition with_tokens (t : gmap Token bool) (n : Token) (st : State) : State :=
  {| server := server st; create_config := create_config st; clients := clients st;
     sources := sources st; tokens := t; nextToken := n;
     nextClient := nextClient st; log := log st |}.

Definition with_log (l : list LogEntry) (st : State) : State :=
  {| server := server st; create_config := create_config st; clients := clients st;
     sources := sources st; tokens := tokens st; nextToken := nextToken st;
     nextClient := nextClient st; log := l |}.

Definition client (st : State) (c : ClientRef) : Client :=
  default new_Client (clients st !! c).

Definition the_source (st : State) (r : SourceRef) : Source :=
  default new_Source (sources st !! r).

Definition update_client (c : ClientRef) (f : Client -> Client) (st : State) : State :=
  with_clients (<[c := f (client st c)]> (clients st)) st.

Definition update_source (r : SourceRef) (f : Source -> Source) (st : State) : State :=
  with_sources (<[r := f (the_source st r)]> (sources st)) st.

Definition is_cancelled (st : State) (t : Token) : bool :=
  bool_decide (tokens st !! t = Some true).

(** ** Collaborators and [Client]

    The cancellation tokens and the data sources are aurumjs's; the server
    only consumes their listen, cancel, read and push operations. *)

(** Modelled from the spec: aurumjs's [CancellationToken], the cancellation
    handle of section 3.  [new CancellationToken()] allocates a fresh token,
    not cancelled. *)
Definition new_CancellationToken (st : State) : Token * State :=
  let t := nextToken st in
  (t, with_tokens (<[t := false]> (tokens st)) (S t) st).

(** Modelled from the spec: [token.cancel()], idempotent (section 3). *)
Definition CancellationToken_cancel (t : Token) (st : State) : State :=
  with_tokens (<[t := true]> (tokens st)) (nextToken st) st.

(** class [Client], [sendMessage]:
    [this.connection.send(JSON.stringify({ type: messageType, ...payload }))]. *)
Definition sendMessage (this : ClientRef) (messageType : RemoteProtocol)
    (payload : obj) (st : State) : State :=
  update_client this (fun c =>
    {| subscriptions := subscriptions c;
       timeSinceLastMessage := timeSinceLastMessage c;
       connection := connection c ++ [{| frame_type := messageType; frame_payload := payload |}] |}) st.

(** [sender.subscriptions.set(id, token)] *)
Definition subscriptions_set (sender : ClientRef) (id : string) (t : Token)
    (st : State) : State :=
  update_client sender (fun c =>
    {| subscriptions := <[id := t]> (subscriptions c);
       timeSinceLastMessage := timeSinceLastMessage c;
       connection := connection c |}) st.

(** [sender.timeSinceLastMessage = Date.now()] *)
Definition set_timeSinceLastMessage (sender : ClientRef) (now : Z) (st : State) : State :=
  update_client sender (fun c =>
    {| subscriptions := subscriptions c;
       timeSinceLastMessage := Some now;
       connection := connection c |}) st.

(** The wire diff of the current revision (client.ts, listenArrayDataSource):
    a copy of the change without [operation], [previousState], [newState]. *)
Definition strip_change (change : value) : obj :=
  let change := Object_assign_empty change in
  let change := obj_delete "operation" change in
  let change := obj_delete "previousState" change in
  obj_delete "newState" change.

(** The wire diff of the earlier revision: the snapshots are deleted unless
    [change.operation] is [merge]. *)
Definition strip_change_keep_merge (change : value) : obj :=
  let change := Object_assign_empty change in
  if is_merge (obj_get change "operation") then change
  else obj_delete "newState" (obj_delete "previousState" change).

(** Running one of the listener closures on an emitted value: the arrow
    functions of [listenDataSource], [listenDuplexDataSource] and
    [listenArrayDataSource] in client.ts, and the one of the earlier
    revision's [listenArrayDataSource]. *)
Definition run_callback (cb : Callback) (arg : value) (st : State) : State :=
  match cb with
  | OnValue sender id =>
      sendMessage sender UPDATE_DATASOURCE [("id", id); ("value", arg)] st
  | OnDuplexValue sender id =>
      sendMessage sender UPDATE_DUPLEX_DATASOURCE [("id", id); ("value", arg)] st
  | OnChange sender id =>
      sendMessage sender UPDATE_ARRAY_DATASOURCE
        [("id", id); ("change", VObj (strip_change arg))] st
  | OnChangeKeepMerge sender id =>
      sendMessage sender UPDATE_DATASOURCE
        [("id", id); ("change", VObj (strip_change_keep_merge arg))] st
  end.

(** Modelled from the spec: [source.listen(callback, token)], the subscribe
    operation of section 6.  The listener is appended: a source tells its
    listeners in the order in which they registered (section 5). *)
Definition listen (r : SourceRef) (cb : Callback) (t : Token) (st : State) : State :=
  update_source r (fun s =>
    {| src_value := src_value s;
       listeners := listeners s ++ [{| callback := cb; token := t |}];
       upstream := upstream s |}) st.

(** Modelled from the spec: [listenAndRepeat] of [DataSource] and
    [DuplexDataSource] is [listen] (section 6) preceded by one call of the
    callback on the current value: the current value is delivered at every
    successful subscribe (section 4.3), whatever it is. *)
Definition listenAndRepeat (r : SourceRef) (cb : Callback) (t : Token) (st : State) : State :=
  let st := run_callback cb (src_value (the_source st r)) st in
  listen r cb t st.

(** Modelled from the spec: [ArrayDataSource.getData()], the snapshot read of
    section 6. *)
Definition getData (st : State) (r : SourceRef) : list value :=
  match src_value (the_source st r) with
  | VArr l => l
  | _ => []
  end.

(** Modelled from the spec: [ArrayDataSource.listenAndRepeat] is [listen]
    (section 6) preceded, for a non-empty collection, by one call of the
    callback on a change event that appends all the current items. *)
Definition ArrayDataSource_listenAndRepeat (r : SourceRef) (cb : Callback) (t : Token)
    (st : State) : State :=
  let data := getData st r in
  let st := match data with
            | [] => st
            | _ => run_callback cb
                     (VObj [("operation", VStr "add"); ("operationDetailed", VStr "append");
                            ("index", VNum 0); ("items", VArr data);
                            ("newState", VArr data);
                            ("count", VNum (Z.of_nat (length data)))]) st
            end in
  listen r cb t st.

(** Modelled from the spec: the delivery of one emission to one listener; a
    cancelled token suppresses the call at delivery time (sections 3 and
    5). *)
Definition deliver (arg : value) (st : State) (l : Listener) : State :=
  if is_cancelled st (token l) then st else run_callback (callback l) arg st.

(** Modelled from the spec: a source tells every listener, synchronously and
    in registration order (section 5). *)
Definition emit (r : SourceRef) (arg : value) (st : State) : State :=
  foldl (deliver arg) st (listeners (the_source st r)).

(** Modelled from the spec: [DataSource.update(v)] (and
    [DuplexDataSource.updateDownstream(v)]): the embedding application changes
    the value and the listeners are told the new value (section 6). *)
Definition update (r : SourceRef) (v : value) (st : State) : State :=
  let st := update_source r (fun s =>
    {| src_value := v; listeners := listeners s; upstream := upstream s |}) st in
  emit r v st.

(** Modelled from the spec: a mutation of an [ArrayDataSource]; the new
    contents are stored and the listeners are told the structured change event
    that describes the mutation (section 6). *)
Definition ArrayDataSource_change (r : SourceRef) (newData : list value) (change : obj)
    (st : State) : State :=
  let st := update_source r (fun s =>
    {| src_value := VArr newData; listeners := listeners s;
       upstream := upstream s |}) st in
  emit r (VObj change) st.

(** Modelled from the spec: [DuplexDataSource.updateUpstream(v)], the push of
    section 6 for client-originated writes: the value becomes the source's
    value and is handed to the upstream side, the embedding application.  A
    duplex source keeps the scalar contract (section 6): the pushed value is
    a subsequent value of the source, so the listeners attached with [listen]
    are told it like any other, in registration order. *)
Definition updateUpstream (r : SourceRef) (v : value) (st : State) : State :=
  let st := update_source r (fun s =>
    {| src_value := v; listeners := listeners s;
       upstream := upstream s ++ [v] |}) st in
  emit r v st.

(** [Map.prototype.get] on a registry keyed by strings: only a string key can
    hit; the key found is returned with the entry. *)
Definition Map_get {V : Type} (m : gmap string V) (key : value) : option (string * V) :=
  match key with
  | VStr s => (fun e => (s, e)) <$> m !! s
  | _ => None
  end.

(** ** class [AurumServer] (client.ts) *)

Definition error_payload (id : value) (code : Z) (error : string) : obj :=
  [("id", id); ("errorCode", VNum code); ("error", VStr error)].

Definition listenDataSource (message : value) (sender : ClientRef) (st : State) : State :=
  let id := prop message "id" in
  match Map_get (exposedDataSources (server st)) id with
  | Some (key, endpoint) =>
      let (token, st) := new_CancellationToken st in
      let st := subscriptions_set sender key token st in
      if authenticator endpoint (prop message "token") Read then
        listenAndRepeat (source endpoint) (OnValue sender id) token st
      else
        sendMessage sender LISTEN_DATASOURCE_ERR (error_payload id 401 "Unauthorized") st
  | None =>
      sendMessage sender LISTEN_DATASOURCE_ERR (error_payload id 404 "No such datasource") st
  end.

Definition listenArrayDataSource (message : value) (sender : ClientRef) (st : State) : State :=
  let id := prop message "id" in
  match Map_get (exposedArrayDataSources (server st)) id with
  | Some (key, endpoint) =>
      let (token, st) := new_CancellationToken st in
      let st := subscriptions_set sender key token st in
      if authenticator endpoint (prop message "token") Read then
        ArrayDataSource_listenAndRepeat (source endpoint) (OnChange sender id) token st
      else
        sendMessage sender LISTEN_ARRAY_DATASOURCE_ERR (error_payload id 401 "Unauthorized") st
  | None =>
      sendMessage sender LISTEN_ARRAY_DATASOURCE_ERR
        (error_payload id 404 "No such array datasource") st
  end.

Definition listenDuplexDataSource (message : value) (sender : ClientRef) (st : State) : State :=
  let id := prop message "id" in
  match Map_get (exposedDuplexDataSources (server st)) id with
  | Some (key, endpoint) =>
      let (token, st) := new_CancellationToken st in
      let st := subscriptions_set sender key token st in
      if authenticator endpoint (prop message "token") Read then
        listenAndRepeat (source endpoint) (OnDuplexValue sender id) token st
      else
        sendMessage sender LISTEN_DUPLEX_DATASOURCE_ERR (error_payload id 401 "Unauthorized") st
  | None =>
      sendMessage sender LISTEN_DUPLEX_DATASOURCE_ERR
        (error_payload id 404 "No such duplex datasource") st
  end.

Definition updateDuplexDataSource (message : value) (sender : ClientRef) (st : State) : State :=
  let id := prop message "id" in
  match Map_get (exposedDuplexDataSources (server st)) id with
  | Some (_, endpoint) =>
      if authenticator endpoint (prop message "token") Write then
        updateUpstream (source endpoint) (prop message "value") st
      else
        sendMessage sender UPDATE_DUPLEX_DATASOURCE_ERR (error_payload id 401 "Unauthorized") st
  | None =>
      sendMessage sender UPDATE_DUPLEX_DATASOURCE_ERR
        (error_payload id 404 "No such duplex datasource") st
  end.

(** [cancelSubscriptionToExposedSource]: never called by the server. *)
Definition cancelSubscriptionToExposedSource (sender : ClientRef) (message : value)
    (st : State) : State :=
  match Map_get (subscriptions (client st sender)) (prop message "url") with
  | Some (url, sub) =>
      let st := CancellationToken_cancel sub st in
      update_client sender (fun c =>
        {| subscriptions := delete url (subscriptions c);
           timeSinceLastMessage := timeSinceLastMessage c;
           connection := connection c |}) st
  | None => st
  end.

Definition allow_all : Authenticator := fun _ _ => true.

Definition with_exposedDataSources (m : gmap string Endpoint) (s : AurumServer) : AurumServer :=
  {| config := config s; exposedDataSources := m;
     exposedDuplexDataSources := exposedDuplexDataSources s;
     exposedArrayDataSources := exposedArrayDataSources s;
     wsServerClients := wsServerClients s |}.

Definition with_exposedDuplexDataSources (m : gmap string Endpoint) (s : AurumServer) : AurumServer :=
  {| config := config s; exposedDataSources := exposedDataSources s;
     exposedDuplexDataSources := m;
     exposedArrayDataSources := exposedArrayDataSources s;
     wsServerClients := wsServerClients s |}.

Definition with_exposedArrayDataSources (m : gmap string Endpoint) (s : AurumServer) : AurumServer :=
  {| config := config s; exposedDataSources := exposedDataSources s;
     exposedDuplexDataSources := exposedDuplexDataSources s;
     exposedArrayDataSources := m;
     wsServerClients := wsServerClients s |}.

Definition with_wsServerClients (l : list ClientRef) (s : AurumServer) : AurumServer :=
  {| config := config s; exposedDataSources := exposedDataSources s;
     exposedDuplexDataSources := exposedDuplexDataSources s;
     exposedArrayDataSources := exposedArrayDataSources s;
     wsServerClients := l |}.

(** The three [expose...] methods; [authenticate] is [None] when the caller
    omits the argument, and the default parameter value [() => true] then
    applies. *)
Definition exposeDataSource (id : string) (src : SourceRef)
    (authenticate : option Authenticator) (st : State) : State :=
  with_server (with_exposedDataSources
    (<[id := {| authenticator := default allow_all authenticate; source := src |}]>
       (exposedDataSources (server st))) (server st)) st.

Definition exposeArrayDataSource (id : string) (src : SourceRef)
    (authenticate : option Authenticator) (st : State) : State :=
  with_server (with_exposedArrayDataSources
    (<[id := {| authenticator := default allow_all authenticate; source := src |}]>
       (exposedArrayDataSources (server st))) (server st)) st.

Definition exposeDuplexDataSource (id : string) (src : SourceRef)
    (authenticate : option Authenticator) (st : State) : State :=
  with_server (with_exposedDuplexDataSources
    (<[id := {| authenticator := default allow_all authenticate; source := src |}]>
       (exposedDuplexDataSources (server st))) (server st)) st.

(** [AurumServer.create(config)]: the server keeps its own configuration
    object, built from the caller's; the connection handlers close over the
    caller's. *)
Definition create (cfg : AurumServerConfig) : State :=
  {| server :=
       {| config :=
            {| onClientConnected := onClientConnected cfg;
               onClientDisconnected := onClientDisconnected cfg;
               reuseServer := reuseServer cfg;
               maxMessageSize :=
                 Some (match maxMessageSize cfg with
                       | Some n => if (n =? 0)%Z then 1048576%Z else n
                       | None => 1048576%Z
                       end);
               port := Some (default 8080%Z (port cfg));
               onError := false |};
          exposedDataSources := ∅;
          exposedDuplexDataSources := ∅;
          exposedArrayDataSources := ∅;
          wsServerClients := [] |};
     create_config := cfg;
     clients := ∅; sources := ∅; tokens := ∅;
     nextToken := 0; nextClient := 0; log := [] |}.

Definition log_entry (e : LogEntry) (st : State) : State :=
  with_log (log st ++ [e]) st.

(** [data.length >= this.config.maxMessageSize]; a comparison with
    [undefined] is false. *)
Definition length_ge (text : string) (max : option Z) : bool :=
  match max with
  | Some m => (m <=? Z.of_nat (String.length text))%Z
  | None => false
  end.

Definition size_error (text : string) (max : option Z) : string :=
  "Received message with size " +:+ pretty (String.length text) +:+
  " max allowed is " +:+ from_option pretty "undefined" max.

Definition failed_to_parse (e : string) (st : State) : State :=
  log_entry (ConsoleError e) (log_entry (ConsoleError "Failed to parse message") st).

(** [Array.prototype.indexOf] *)
Fixpoint indexOf (l : list ClientRef) (c : ClientRef) : option nat :=
  match l with
  | [] => None
  | x :: l' => if decide (x = c) then Some 0 else S <$> indexOf l' c
  end.

(** [l.splice(l.indexOf(c), 1)]; an index of -1 removes the last element. *)
Definition splice_indexOf (l : list ClientRef) (c : ClientRef) : list ClientRef :=
  match indexOf l c with
  | Some i => delete i l
  | None => removelast l
  end.

(** Modelled from the spec: [Client.dispose], which the close handler calls
    and whose body is not among the sources.  Section 4.2: on close, for every
    entry in [subscriptions], cancel the handle, then clear the map. *)
Definition dispose (this : ClientRef) (st : State) : State :=
  let st := foldr CancellationToken_cancel st
              ((map_to_list (subscriptions (client st this))).*2) in
  update_client this (fun c =>
    {| subscriptions := ∅; timeSinceLastMessage := timeSinceLastMessage c;
       connection := connection c |}) st.

(** The handler of the server's [connection] event. *)
Definition on_connection (st : State) : State :=
  let c := nextClient st in
  let st := {| server := with_wsServerClients (wsServerClients (server st) ++ [c]) (server st);
               create_config := create_config st;
               clients := <[c := new_Client]> (clients st);
               sources := sources st; tokens := tokens st; nextToken := nextToken st;
               nextClient := S c; log := log st |} in
  if onClientConnected (create_config st) then log_entry (HookClientConnected c) st else st.

(** The handler of a connection's [close] event. *)
Definition on_close (c : ClientRef) (st : State) : State :=
  let st := with_server
              (with_wsServerClients (splice_indexOf (wsServerClients (server st)) c) (server st))
              st in
  let st := dispose c st in
  if onClientDisconnected (create_config st)
  then log_entry (HookClientDisconnected c) st else st.

Section Dispatch.

(** [JSON.parse]; [None] is a [SyntaxError]. *)
Variable JSON_parse : string -> option value.

(** The numeric values of the [RemoteProtocol] members (declared in
    aurumjs). *)
Variable code : RemoteProtocol -> Z.

(** [type === RemoteProtocol.X] *)
Definition is_case (type : value) (p : RemoteProtocol) : bool :=
  match type with
  | VNum n => (n =? code p)%Z
  | _ => false
  end.

Definition processMessage (sender : ClientRef) (data : Data) (now : Z) (st : State) : State :=
  match data with
  | DataString text =>
      if length_ge text (maxMessageSize (config (server st))) then
        if onError (config (server st))
        then log_entry (HookError sender (size_error text (maxMessageSize (config (server st))))) st
        else st
      else
        match JSON_parse text with
        | None => failed_to_parse "SyntaxError" st
        | Some message =>
            match member message "type" with
            | None => failed_to_parse "TypeError" st
            | Some type =>
                let st := set_timeSinceLastMessage sender now st in
                if is_case type LISTEN_DATASOURCE then listenDataSource message sender st
                else if is_case type LISTEN_DUPLEX_DATASOURCE then listenDuplexDataSource message sender st
                else if is_case type LISTEN_ARRAY_DATASOURCE then listenArrayDataSource message sender st
                else if is_case type UPDATE_DUPLEX_DATASOURCE then updateDuplexDataSource message sender st
                else st
            end
        end
  | DataBinary _ => st
  end.

End Dispatch.

(** ** class [Router] (router.ts) *)

Module Router.

(** interface [Endpoint]; the stored [authenticator] is whatever the caller
    passed, hence possibly [undefined] ([None]). *)
Record Endpoint : Type := {
  source : SourceRef;
  authenticator : option Authenticator;
}.

Record Router : Type := {
  exposedDataSources : gmap string Endpoint;
  exposedDuplexDataSources : gmap string Endpoint;
  exposedArrayDataSources : gmap string Endpoint;
}.

(** [new Router()] *)
Definition new_Router : Router :=
  {| exposedDataSources := ∅; exposedDuplexDataSources := ∅;
     exposedArrayDataSources := ∅ |}.

Definition getExposedDataSource (this : Router) (id : string) : option Endpoint :=
  exposedDataSources this !! id.

Definition getExposedArrayDataSource (this : Router) (id : string) : option Endpoint :=
  exposedArrayDataSources this !! id.

Definition getExposedDuplexDataSource (this : Router) (id : string) : option Endpoint :=
  exposedDuplexDataSources this !! id.

(** [authenticate] has the default value [() => true]. *)
Definition exposeDataSource (id : string) (src : SourceRef)
    (authenticate : option Authenticator) (this : Router) : Router :=
  {| exposedDataSources :=
       <[id := {| authenticator := Some (default allow_all authenticate); source := src |}]>
         (exposedDataSources this);
     exposedDuplexDataSources := exposedDuplexDataSources this;
     exposedArrayDataSources := exposedArrayDataSources this |}.

(** [authenticate?] is optional and has no default value. *)
Definition exposeArrayDataSource (id : string) (src : SourceRef)
    (authenticate : option Authenticator) (this : Router) : Router :=
  {| exposedDataSources := exposedDataSources this;
     exposedDuplexDataSources := exposedDuplexDataSources this;
     exposedArrayDataSources :=
       <[id := {| authenticator := authenticate; source := src |}]>
         (exposedArrayDataSources this) |}.

Definition exposeDuplexDataSource (id : string) (src : SourceRef)
    (authenticate : option Authenticator) (this : Router) : Router :=
  {| exposedDataSources := exposedDataSources this;
     exposedDuplexDataSources :=
       <[id := {| authenticator := authenticate; source := src |}]>
         (exposedDuplexDataSources this);
     exposedArrayDataSources := exposedArrayDataSources this |}.

(** The call [endpoint.authenticator(token, operation)]; calling
    [undefined] is a [TypeError] ([None]). *)
Definition call_authenticator (endpoint : Endpoint) (tok : value) (op : Operation)
    : option bool :=
  (fun f : Authenticator => f tok op) <$> authenticator endpoint.

End Router.

(** ** The earlier revision of [AurumServer] *)

Module Legacy.

(** How a method call ended: normally, or with an exception thrown in the
    state reached so far. *)
Inductive Completion : Type :=
| Returned (st : State)
| Thrown (error : string) (st : State).

(** No authenticator is consulted; the listener is attached with [listen]
    and the current value travels in a [LISTEN_DATASOURCE_OK] frame. *)
Definition listenDataSource (message : value) (sender : ClientRef) (st : State) : State :=
  let id := prop message "id" in
  match Map_get (exposedDataSources (server st)) id with
  | Some (key, endpoint) =>
      let (token, st) := new_CancellationToken st in
      let st := subscriptions_set sender key token st in
      let st := listen (source endpoint) (OnValue sender id) token st in
      sendMessage sender LISTEN_DATASOURCE_OK
        [("id", id); ("value", src_value (the_source st (source endpoint)))] st
  | None =>
      sendMessage sender LISTEN_DATASOURCE_ERR (error_payload id 0 "No such datasource") st
  end.

(** Takes the id itself; the registry is read without a [has] test, so a
    missing entry throws when its [source] is read. *)
Definition listenArrayDataSource (id : string) (sender : ClientRef) (st : State) : Completion :=
  let endpoint := exposedArrayDataSources (server st) !! id in
  let (token, st) := new_CancellationToken st in
  let st := subscriptions_set sender id token st in
  match endpoint with
  | Some endpoint =>
      let st := listen (source endpoint) (OnChangeKeepMerge sender (VStr id)) token st in
      Returned (sendMessage sender LISTEN_DATASOURCE_OK
        [("id", VStr id); ("value", VArr (getData st (source endpoint)))] st)
  | None => Thrown "TypeError" st
  end.

(** [authenticate] is a required parameter here. *)
Definition exposeDataSource (id : string) (src : SourceRef)
    (authenticate : Authenticator) (st : State) : State :=
  with_server (with_exposedDataSources
    (<[id := {| authenticator := authenticate; source := src |}]>
       (exposedDataSources (server st))) (server st)) st.

(** The close handler of this revision: nothing is cancelled. *)
Definition on_close (c : ClientRef) (st : State) : State :=
  let st := with_server
              (with_wsServerClients (splice_indexOf (wsServerClients (server st)) c) (server st))
              st in
  if onClientDisconnected (create_config st)
  then log_entry (HookClientDisconnected c) st else st.

Section LegacyDispatch.

Variable JSON_parse : string -> option value.
Variable code : RemoteProtocol -> Z.

Definition processMessage (sender : ClientRef) (data : Data) (now : Z) (st : State) : State :=
  match data with
  | DataString text =>
      if length_ge text (maxMessageSize (config (server st))) then
        log_entry (ConsoleError (size_error text (maxMessageSize (config (server st))))) st
      else
        match JSON_parse text with
        | None => failed_to_parse "SyntaxError" st
        | Some message =>
            match member message "type" with
            | None => failed_to_parse "TypeError" st
            | Some type =>
                let st := set_timeSinceLastMessage sender now st in
                if is_case code type LISTEN_DATASOURCE then listenDataSource message sender st
                else st
            end
        end
  | DataBinary _ => st
  end.

End LegacyDispatch.

End Legacy.

(** ** Observations on a transition *)

(** From [st] to [st'] nothing happened except that [frames] were sent to
    [sender]: registries, sources, tokens, hooks and console, every
    subscription map and every timestamp are as before. *)
Definition sent_only (sender : ClientRef) (frames : list Frame) (st st' : State) : Prop :=
  server st' = server st /\
  sources st' = sources st /\
  tokens st' = tokens st /\
  nextToken st' = nextToken st /\
  log st' = log st /\
  (forall c, subscriptions (client st' c) = subscriptions (client st c)) /\
  (forall c, timeSinceLastMessage (client st' c) = timeSinceLastMessage (client st c)) /\
  connection (client st' sender) = connection (client st sender) ++ frames /\
  (forall c, c <> sender -> connection (client st' c) = connection (client st c)).

(** The listeners of a source that are still live (token not cancelled). *)
Definition live_listeners (st : State) (r : SourceRef) : list Listener :=
  List.filter (fun l => negb (is_cancelled st (token l))) (listeners (the_source st r)).

(** Whether some entry of a subscription map holds the token. *)
Definition holds_token (m : gmap string Token) (t : Token) : bool :=
  bool_decide (t ∈ (map_to_list m).*2).

(** A run of [DataSource.update] calls on one source. *)
Definition updates (r : SourceRef) (vs : list value) (st : State) : State :=
  foldl (fun st v => update r v st) st vs.

Definition update_frame (id v : value) : Frame :=
  {| frame_type := UPDATE_DATASOURCE; frame_payload := [("id", id); ("value", v)] |}.

Definition ack_frame (id v : value) : Frame :=
  {| frame_type := LISTEN_DATASOURCE_OK; frame_payload := [("id", id); ("value", v)] |}.

(** The two snapshot fields of a change event, and the three fields that the
    current revision removes from it. *)
Definition snapshot_field (k : string) : bool :=
  String.eqb "previousState" k || String.eqb "newState" k.

Definition stripped_field (k : string) : bool :=
  String.eqb "operation" k || snapshot_field k.

(** The situation right after a scalar subscribe: the session's listener is
    the last one on the source, its token is live, and no other listener on
    the source sends to this session. *)
Definition subscribed (sender : ClientRef) (id : value) (t : Token) (r : SourceRef)
    (st : State) : Prop :=
  exists others,
    listeners (the_source st r) = others ++ [{| callback := OnValue sender id; token := t |}] /\
    Forall (fun l => cb_sender (callback l) <> sender \/ is_cancelled st (token l) = true) others /\
    is_cancelled st t = false.

(** No emission can reach client [c] any more: each listener that sends to
    [c] has a cancelled token. *)
Definition silenced (c : ClientRef) (st : State) : Prop :=
  forall r, Forall (fun l => cb_sender (callback l) <> c \/ is_cancelled st (token l) = true)
                   (listeners (the_source st r)).

(** Each live listener that sends to [c] has its token in [c]'s subscription
    map. *)
Definition covered (c : ClientRef) (st : State) : Prop :=
  forall r l, l ∈ listeners (the_source st r) -> cb_sender (callback l) = c ->
    is_cancelled st (token l) = true \/
    exists id, subscriptions (client st c) !! id = Some (token l).

(** A run of updates on arbitrary sources. *)
Definition run_updates (us : list (SourceRef * value)) (st : State) : State :=
  foldl (fun st u => update u.1 u.2 st) st us.

(** ** The server as a transition system *)

(** What can happen to a running server: calls of the embedding application
    (expose, source mutations) and connection events. *)
Inductive Event : Type :=
| ExposeDataSource (id : string) (src : SourceRef) (authenticate : option Authenticator)
| ExposeArrayDataSource (id : string) (src : SourceRef) (authenticate : option Authenticator)
| ExposeDuplexDataSource (id : string) (src : SourceRef) (authenticate : option Authenticator)
| SourceUpdate (src : SourceRef) (v : value)
| ArrayChange (src : SourceRef) (newData : list value) (change : obj)
| Connection
| Message (sender : ClientRef) (data : Data) (now : Z)
| Close (c : ClientRef).

Definition step (JSON_parse : string -> option value) (code : RemoteProtocol -> Z)
    (st : State) (e : Event) : State :=
  match e with
  | ExposeDataSource id src a => exposeDataSource id src a st
  | ExposeArrayDataSource id src a => exposeArrayDataSource id src a st
  | ExposeDuplexDataSource id src a => exposeDuplexDataSource id src a st
  | SourceUpdate src v => update src v st
  | ArrayChange src newData change => ArrayDataSource_change src newData change st
  | Connection => on_connection st
  | Message sender data now => processMessage JSON_parse code sender data now st
  | Close c => on_close c st
  end.

(** The state reached from [create cfg] by a sequence of events. *)
Definition run (JSON_parse : string -> option value) (code : RemoteProtocol -> Z)
    (cfg : AurumServerConfig) (es : list Event) : State :=
  foldl (step JSON_parse code) (create cfg) es.

(** ** Sample inputs *)

Definition digit (a : Ascii.ascii) : option Z :=
  let n := Z.of_nat (Ascii.nat_of_ascii a) in
  if ((48 <=? n) && (n <=? 57))%Z then Some (n - 48)%Z else None.

Fixpoint digits (acc : Z) (s : string) : option Z :=
  match s with
  | EmptyString => Some acc
  | String a s' =>
      match digit a with
      | Some d => digits (10 * acc + d)%Z s'
      | None => None
      end
  end.

(** [JSON.parse] restricted to the texts [null], [true], [false] and the
    unsigned decimal integers; every other text is refused here. *)
Definition JSON_parse_atoms (text : string) : option value :=
  if String.eqb text "null" then Some VNull
  else if String.eqb text "true" then Some (VBool true)
  else if String.eqb text "false" then Some (VBool false)
  else match text with
       | EmptyString => None
       | String "0"%char (String _ _) => None
       | _ => VNum <$> digits 0 text
       end.

(** A numbering of the protocol members, in declaration order. *)
Definition sample_code (p : RemoteProtocol) : Z :=
  match p with
  | HEARTBEAT => 0
  | LISTEN_DATASOURCE => 1
  | LISTEN_DATASOURCE_OK => 2
  | LISTEN_DATASOURCE_ERR => 3
  | UPDATE_DATASOURCE => 4
  | LISTEN_DUPLEX_DATASOURCE => 5
  | LISTEN_DUPLEX_DATASOURCE_ERR => 6
  | UPDATE_DUPLEX_DATASOURCE => 7
  | UPDATE_DUPLEX_DATASOURCE_ERR => 8
  | LISTEN_ARRAY_DATASOURCE => 9
  | LISTEN_ARRAY_DATASOURCE_ERR => 10
  | UPDATE_ARRAY_DATASOURCE => 11
  end%Z.

Definition sample_config : AurumServerConfig :=
  {| reuseServer := false; port := None; maxMessageSize := Some 8%Z;
     onClientConnected := true; onClientDisconnected := true; onError := true |}.

Definition deny_all : Authenticator := fun _ _ => false.

(** A request object [{ id, token }] and a write [{ id, token, value }]. *)
Definition request (id token : string) : value :=
  VObj [("id", VStr id); ("token", VStr token)].

Definition write_request (id token : string) (v : value) : value :=
  VObj [("id", VStr id); ("token", VStr token); ("value", v)].

(** An append of the items 1, 2, 3 to an empty collection. *)
Definition initial_append_event : obj :=
  [("operation", VStr "add"); ("operationDetailed", VStr "append");
   ("count", VNum 3); ("index", VNum 0);
   ("items", VArr [VNum 1; VNum 2; VNum 3]);
   ("newState", VArr [VNum 1; VNum 2; VNum 3])].

(** The embedding application exposes the scalar [temperature] (source 0,
    default authenticator), the scalar [secret] (source 1, nobody may read),
    the collection [items] (source 2), the collection [vault] (source 3,
    nobody may read), the duplex [knob] (source 4, default authenticator) and
    the duplex [lock] (source 5, nobody may read or write); it sets
    [temperature] to 20, [secret] to 7, [items] to 1, 2, 3, [knob] to 5 and
    [lock] to 0; then one client connects (reference 0). *)
Definition sample_events : list Event :=
  [ExposeDataSource "temperature" 0 None;
   ExposeDataSource "secret" 1 (Some deny_all);
   ExposeArrayDataSource "items" 2 None;
   ExposeArrayDataSource "vault" 3 (Some deny_all);
   ExposeDuplexDataSource "knob" 4 None;
   ExposeDuplexDataSource "lock" 5 (Some deny_all);
   SourceUpdate 0 (VNum 20);
   SourceUpdate 1 (VNum 7);
   ArrayChange 2 [VNum 1; VNum 2; VNum 3] initial_append_event;
   SourceUpdate 4 (VNum 5);
   SourceUpdate 5 (VNum 0);
   Connection].

Definition sample_state : State :=
  run JSON_parse_atoms sample_code sample_config sample_events.

(** The sample session after it has subscribed to [temperature] once, and
    twice. *)
Definition once_subscribed : State :=
  listenDataSource (request "temperature" "t") 0 sample_state.

Definition twice_subscribed : State :=
  listenDataSource (request "temperature" "t") 0 once_subscribed.

(** A merge event as a collection source emits it. *)
Definition merge_event : obj :=
  [("operation", VStr "merge"); ("operationDetailed", VStr "merge");
   ("previousState", VArr [VNum 1; VNum 2; VNum 3]);
   ("index", VNum 0);
   ("newState", VArr [VNum 3; VNum 4]);
   ("items", VArr [VNum 3; VNum 4])].

(** An append of the item 4. *)
Definition append_event : obj :=
  [("operation", VStr "add"); ("operationDetailed", VStr "append");
   ("count", VNum 1); ("index", VNum 3);
   ("items", VArr [VNum 4]);
   ("newState", VArr [VNum 1; VNum 2; VNum 3; VNum 4])].

(** ** Sample frames *)

(** The double quote character. *)
Definition dquote : string := String (Ascii.ascii_of_nat 34) EmptyString.

Definition quoted (s : string) : string := dquote +:+ s +:+ dquote.

(** The text of a heartbeat: an object whose only member, type, is 0. *)
Definition heartbeat_text : string :=
  "{" +:+ quoted "type" +:+ ":0}".

(** The text of a scalar subscribe to temperature with token t: an object
    with the members type (1), id and token. *)
Definition subscribe_text : string :=
  "{" +:+ quoted "type" +:+ ":1," +:+ quoted "id" +:+ ":" +:+ quoted "temperature" +:+ ","
      +:+ quoted "token" +:+ ":" +:+ quoted "t" +:+ "}".

(** The text of a write of 9 to the duplex knob with token t: an object with
    the members type (7), id, token and value. *)
Definition write_text : string :=
  "{" +:+ quoted "type" +:+ ":7," +:+ quoted "id" +:+ ":" +:+ quoted "knob" +:+ ","
      +:+ quoted "token" +:+ ":" +:+ quoted "t" +:+ "," +:+ quoted "value" +:+ ":9}".

(** [JSON.parse] on these three texts and on the atoms. *)
Definition JSON_parse_sample (text : string) : option value :=
  if String.eqb text heartbeat_text then Some (VObj [("type", VNum 0)])
  else if String.eqb text subscribe_text then
    Some (VObj [("type", VNum 1); ("id", VStr "temperature"); ("token", VStr "t")])
  else if String.eqb text write_text then
    Some (VObj [("type", VNum 7); ("id", VStr "knob"); ("token", VStr "t");
                ("value", VNum 9)])
  else JSON_parse_atoms text.

(** A configuration that leaves every default in place. *)
Definition default_config : AurumServerConfig :=
  {| reuseServer := false; port := None; maxMessageSize := None;
     onClientConnected := false; onClientDisconnected := false; onError := false |}.

(** The sample exposures and values, then a second client (reference 1), and
    both clients subscribe to temperature. *)
Definition two_sessions : list Event :=
  sample_events ++
  [Connection;
   Message 0 (DataString subscribe_text) 100;
   Message 1 (DataString subscribe_text) 101].

Definition two_sessions_state : State :=
  run JSON_parse_sample sample_code default_config two_sessions.

(** An unsubscribe message: an object whose only member is [url]. *)
Definition unsubscribe_request (url : string) : value :=
  VObj [("url", VStr url)].

(** The sample exposures and values with every default of the configuration
    in place (limit 1048576), one client connected. *)
Definition default_state : State :=
  run JSON_parse_sample sample_code default_config sample_events.

(** An authenticator that lets everybody read and nobody write, and one that
    lets everybody write and nobody read. *)
Definition read_only : Authenticator :=
  fun _ op => match op with Read => true | Write => false end.

Definition write_only : Authenticator :=
  fun _ op => match op with Read => false | Write => true end.

(** The sample session after it has subscribed to the duplex [knob]. *)
Definition knob_subscribed : State :=
  listenDuplexDataSource (request "knob" "t") 0 sample_state.

(** The sample state with two more duplex sources: [dial] (source 6, read
    only) and [inbox] (source 7, write only). *)
Definition gated_state : State :=
  exposeDuplexDataSource "inbox" 7 (Some write_only)
    (exposeDuplexDataSource "dial" 6 (Some read_only) sample_state).

(** ** Further observations *)

(** [getClients()] *)
Definition getClients (st : State) : list ClientRef :=
  wsServerClients (server st).

(** The frame that a listener closure hands to [sendMessage]. *)
Definition frame_of (cb : Callback) (arg : value) : Frame :=
  match cb with
  | OnValue _ id =>
      {| frame_type := UPDATE_DATASOURCE; frame_payload := [("id", id); ("value", arg)] |}
  | OnDuplexValue _ id =>
      {| frame_type := UPDATE_DUPLEX_DATASOURCE;
         frame_payload := [("id", id); ("value", arg)] |}
  | OnChange _ id =>
      {| frame_type := UPDATE_ARRAY_DATASOURCE;
         frame_payload := [("id", id); ("change", VObj (strip_change arg))] |}
  | OnChangeKeepMerge _ id =>
      {| frame_type := UPDATE_DATASOURCE;
         frame_payload := [("id", id); ("change", VObj (strip_change_keep_merge arg))] |}
  end.

(** The message kinds of the update stream of a subscription, as opposed to
    the answers to a request. *)
Definition is_update (p : RemoteProtocol) : bool :=
  match p with
  | UPDATE_DATASOURCE | UPDATE_DUPLEX_DATASOURCE | UPDATE_ARRAY_DATASOURCE => true
  | _ => false
  end.

(** The frames that one emission of [arg] to the listeners [ls] sends to
    client [c]: one per listener of [c] whose token is not cancelled, in the
    order of the listeners. *)
Definition delivered_to (c : ClientRef) (arg : value) (st : State) (ls : list Listener)
    : list Frame :=
  flat_map (fun l =>
    if is_cancelled st (token l) then []
    else if decide (cb_sender (callback l) = c) then [frame_of (callback l) arg]
    else []) ls.

(** The footprint of a client request of [sender], from [st] to [st'], when
    it is not a granted write: the registries and the configuration are as
    before, no other client record is touched, at most one frame is sent to
    [sender], and either no token was created - then subscription map, tokens
    and listeners are as before - or exactly one was, stored in [sender]'s
    map under some id, live, and carried by at most one new listener, which
    sends to [sender] and is the last one on its source. *)
Definition answered (sender : ClientRef) (st st' : State) : Prop :=
  server st' = server st /\
  create_config st' = create_config st /\
  nextClient st' = nextClient st /\
  (forall c, c <> sender -> client st' c = client st c) /\
  (exists fs, length fs <= 1 /\
     connection (client st' sender) = connection (client st sender) ++ fs) /\
  ((nextToken st' = nextToken st /\
    tokens st' = tokens st /\
    subscriptions (client st' sender) = subscriptions (client st sender) /\
    forall r, listeners (the_source st' r) = listeners (the_source st r))
   \/
   (nextToken st' = S (nextToken st) /\
    tokens st' = <[nextToken st := false]> (tokens st) /\
    (exists key, subscriptions (client st' sender) =
                 <[key := nextToken st]> (subscriptions (client st sender))) /\
    exists r0 news,
      (news = [] \/
       exists cb, cb_sender cb = sender /\
                  news = [{| callback := cb; token := nextToken st |}]) /\
      forall r, listeners (the_source st' r) =
                if decide (r = r0) then listeners (the_source st r) ++ news
                else listeners (the_source st r))).

(** The footprint of a granted write of [v] to the duplex source [r],
    requested by [sender]: the registries, the configuration, the tokens,
    every subscription map, the timestamp of every other session and the
    listeners of every source are as before; each session is sent exactly the
    frames that its own live listeners on [r] produce for [v], in
    registration order, and nothing else. *)
Definition pushed (sender : ClientRef) (r : SourceRef) (v : value) (st st' : State) : Prop :=
  server st' = server st /\
  create_config st' = create_config st /\
  nextClient st' = nextClient st /\
  nextToken st' = nextToken st /\
  tokens st' = tokens st /\
  (forall c, subscriptions (client st' c) = subscriptions (client st c)) /\
  (forall c, c <> sender ->
     timeSinceLastMessage (client st' c) = timeSinceLastMessage (client st c)) /\
  (forall c, connection (client st' c) =
     connection (client st c) ++ delivered_to c v st (listeners (the_source st r))) /\
  (forall r', listeners (the_source st' r') = listeners (the_source st r')).

(** The footprint of one client request handled for [sender]. *)
Definition handled (sender : ClientRef) (st st' : State) : Prop :=
  answered sender st st' \/ exists r v, pushed sender r v st st'.

(** Tokens are owned: every token stored in a subscription map or carried by
    a listener was created before, and a token that a session's map holds is
    carried only by listeners that send to that session. *)
Definition tokens_owned (st : State) : Prop :=
  (forall c id t, subscriptions (client st c) !! id = Some t -> t < nextToken st) /\
  (forall r l, l ∈ listeners (the_source st r) -> token l < nextToken st) /\
  (forall r l c id, l ∈ listeners (the_source st r) ->
     subscriptions (client st c) !! id = Some (token l) -> cb_sender (callback l) = c).

(** The live list names no client twice and only clients that connected. *)
Definition clients_fresh (st : State) : Prop :=
  NoDup (getClients st) /\ Forall (fun c => c < nextClient st) (getClients st).

(** * Properties *)

(** ** The heap accessors *)

(** Unfolds an allocation [let (token, st) := new_CancellationToken st]. *)
Ltac new_token_step :=
  unfold new_CancellationToken; cbv beta iota zeta.

Lemma client_update_client_eq c f st :
  client (update_client c f st) c = f (client st c).
Proof. unfold client at 1, update_client. cbn. by rewrite lookup_insert_eq. Qed.

Lemma client_update_client_ne c c' f st :
  c <> c' -> client (update_client c f st) c' = client st c'.
Proof. intros Hne. unfold client, update_client. cbn. by rewrite lookup_insert_ne. Qed.

Lemma the_source_update_source_eq r f st :
  the_source (update_source r f st) r = f (the_source st r).
Proof. unfold the_source at 1, update_source. cbn. by rewrite lookup_insert_eq. Qed.

Lemma the_source_update_source_ne r r' f st :
  r <> r' -> the_source (update_source r f st) r' = the_source st r'.
Proof. intros Hne. unfold the_source, update_source. cbn. by rewrite lookup_insert_ne. Qed.

Lemma Map_get_Some {V : Type} (m : gmap string V) key s e :
  Map_get m key = Some (s, e) -> key = VStr s /\ m !! s = Some e.
Proof.
  destruct key; cbn; try discriminate.
  destruct (m !! s0) eqn:E; cbn; intros [= <- <-]. auto.
Qed.

Lemma sendMessage_sent_only sender type payload st :
  sent_only sender [{| frame_type := type; frame_payload := payload |}] st
    (sendMessage sender type payload st).
Proof.
  unfold sent_only, sendMessage. repeat split; try reflexivity.
  - intros c. destruct (decide (sender = c)) as [->|Hne];
      [ by rewrite client_update_client_eq | by rewrite client_update_client_ne ].
  - intros c. destruct (decide (sender = c)) as [->|Hne];
      [ by rewrite client_update_client_eq | by rewrite client_update_client_ne ].
  - by rewrite client_update_client_eq.
  - intros c Hne. by rewrite client_update_client_ne.
Qed.

Lemma sent_only_refl sender st : sent_only sender [] st st.
Proof. unfold sent_only. rewrite app_nil_r. repeat split; reflexivity. Qed.

(** The frame of an error answer. *)
Lemma error_answer sender type id code error st :
  sent_only sender
    [{| frame_type := type; frame_payload := error_payload id code error |}] st
    (sendMessage sender type (error_payload id code error) st).
Proof. apply sendMessage_sent_only. Qed.

(** ** Lookup failures *)

(** C6, as amended.  A request whose id misses the registry of its kind is
    answered by exactly one error frame and changes nothing else: no
    subscription map, no registry, no source, no token.  The error code is 404
    in the four handlers of the authorizing revision (scalar, collection and
    duplex subscribe, duplex write); the scalar subscribe of the earlier
    revision answers with code 0. *)
Theorem absent_id_is_answered_without_change
    (message : value) (sender : ClientRef) (st : State) :
  (Map_get (exposedDataSources (server st)) (prop message "id") = None ->
     sent_only sender
       [{| frame_type := LISTEN_DATASOURCE_ERR;
           frame_payload := [("id", prop message "id"); ("errorCode", VNum 404);
                             ("error", VStr "No such datasource")] |}]
       st (listenDataSource message sender st) /\
     sent_only sender
       [{| frame_type := LISTEN_DATASOURCE_ERR;
           frame_payload := [("id", prop message "id"); ("errorCode", VNum 0);
                             ("error", VStr "No such datasource")] |}]
       st (Legacy.listenDataSource message sender st)) /\
  (Map_get (exposedArrayDataSources (server st)) (prop message "id") = None ->
     sent_only sender
       [{| frame_type := LISTEN_ARRAY_DATASOURCE_ERR;
           frame_payload := [("id", prop message "id"); ("errorCode", VNum 404);
                             ("error", VStr "No such array datasource")] |}]
       st (listenArrayDataSource message sender st)) /\
  (Map_get (exposedDuplexDataSources (server st)) (prop message "id") = None ->
     sent_only sender
       [{| frame_type := LISTEN_DUPLEX_DATASOURCE_ERR;
           frame_payload := [("id", prop message "id"); ("errorCode", VNum 404);
                             ("error", VStr "No such duplex datasource")] |}]
       st (listenDuplexDataSource message sender st) /\
     sent_only sender
       [{| frame_type := UPDATE_DUPLEX_DATASOURCE_ERR;
           frame_payload := [("id", prop message "id"); ("errorCode", VNum 404);
                             ("error", VStr "No such duplex datasource")] |}]
       st (updateDuplexDataSource message sender st)).
Proof.
  split; [|split]; intros Hmiss; try split;
    unfold listenDataSource, Legacy.listenDataSource, listenArrayDataSource,
           listenDuplexDataSource, updateDuplexDataSource;
    rewrite Hmiss; apply error_answer.
Qed.

Lemma absent_id_is_answered_without_change_witness :
  Map_get (exposedDataSources (server sample_state)) (prop (request "missing" "t") "id") = None /\
  Map_get (exposedArrayDataSources (server sample_state)) (prop (request "missing" "t") "id") = None /\
  Map_get (exposedDuplexDataSources (server sample_state)) (prop (request "missing" "t") "id") = None /\
  sent_only 0
    [{| frame_type := LISTEN_DATASOURCE_ERR;
        frame_payload := [("id", VStr "missing"); ("errorCode", VNum 404);
                          ("error", VStr "No such datasource")] |}]
    sample_state (listenDataSource (request "missing" "t") 0 sample_state) /\
  sent_only 0
    [{| frame_type := LISTEN_DATASOURCE_ERR;
        frame_payload := [("id", VStr "missing"); ("errorCode", VNum 0);
                          ("error", VStr "No such datasource")] |}]
    sample_state (Legacy.listenDataSource (request "missing" "t") 0 sample_state) /\
  sent_only 0
    [{| frame_type := LISTEN_ARRAY_DATASOURCE_ERR;
        frame_payload := [("id", VStr "missing"); ("errorCode", VNum 404);
                          ("error", VStr "No such array datasource")] |}]
    sample_state (listenArrayDataSource (request "missing" "t") 0 sample_state) /\
  sent_only 0
    [{| frame_type := LISTEN_DUPLEX_DATASOURCE_ERR;
        frame_payload := [("id", VStr "missing"); ("errorCode", VNum 404);
                          ("error", VStr "No such duplex datasource")] |}]
    sample_state (listenDuplexDataSource (request "missing" "t") 0 sample_state) /\
  sent_only 0
    [{| frame_type := UPDATE_DUPLEX_DATASOURCE_ERR;
        frame_payload := [("id", VStr "missing"); ("errorCode", VNum 404);
                          ("error", VStr "No such duplex datasource")] |}]
    sample_state (updateDuplexDataSource (request "missing" "t") 0 sample_state).
Proof.
  destruct (absent_id_is_answered_without_change (request "missing" "t") 0 sample_state)
    as (Hscalar & Harray & Hduplex).
  assert (H1 : Map_get (exposedDataSources (server sample_state))
                 (prop (request "missing" "t") "id") = None) by (vm_compute; reflexivity).
  assert (H2 : Map_get (exposedArrayDataSources (server sample_state))
                 (prop (request "missing" "t") "id") = None) by (vm_compute; reflexivity).
  assert (H3 : Map_get (exposedDuplexDataSources (server sample_state))
                 (prop (request "missing" "t") "id") = None) by (vm_compute; reflexivity).
  split; [exact H1|]. split; [exact H2|]. split; [exact H3|].
  split; [exact (proj1 (Hscalar H1))|]. split; [exact (proj2 (Hscalar H1))|].
  split; [exact (Harray H2)|].
  split; [exact (proj1 (Hduplex H3)) | exact (proj2 (Hduplex H3))].
Defined.

(** C6, the claim as written fails: in the earlier revision the scalar
    subscribe answers an absent id with error code 0, not 404. *)
Lemma absent_id_legacy_code_counterexample :
  Map_get (exposedDataSources (server sample_state)) (prop (request "missing" "t") "id") = None /\
  connection (client (Legacy.listenDataSource (request "missing" "t") 0 sample_state) 0) =
    [{| frame_type := LISTEN_DATASOURCE_ERR;
        frame_payload := [("id", VStr "missing"); ("errorCode", VNum 0);
                          ("error", VStr "No such datasource")] |}] /\
  ~ (exists f, f ∈ connection (client (Legacy.listenDataSource (request "missing" "t") 0 sample_state) 0)
               /\ obj_get (frame_payload f) "errorCode" = VNum 404).
Proof.
  assert (E : connection (client (Legacy.listenDataSource (request "missing" "t") 0 sample_state) 0) =
    [{| frame_type := LISTEN_DATASOURCE_ERR;
        frame_payload := [("id", VStr "missing"); ("errorCode", VNum 0);
                          ("error", VStr "No such datasource")] |}]) by (vm_compute; reflexivity).
  split; [vm_compute; reflexivity|]. split; [exact E|].
  intros (f & Hin & Hcode). rewrite E in Hin.
  apply list_elem_of_singleton in Hin. subst f. cbn in Hcode. discriminate.
Qed.

(** ** Dispatch *)

(** A text frame below the limit that parses to a message whose [type] is
    the number of a protocol member sets the timestamp and then runs the
    handler of that member, if it has one. *)
Lemma processMessage_dispatch JSON_parse code sender text now st message kind :
  (forall p q, code p = code q -> p = q) ->
  length_ge text (maxMessageSize (config (server st))) = false ->
  JSON_parse text = Some message ->
  member message "type" = Some (VNum (code kind)) ->
  processMessage JSON_parse code sender (DataString text) now st =
    match kind with
    | LISTEN_DATASOURCE =>
        listenDataSource message sender (set_timeSinceLastMessage sender now st)
    | LISTEN_DUPLEX_DATASOURCE =>
        listenDuplexDataSource message sender (set_timeSinceLastMessage sender now st)
    | LISTEN_ARRAY_DATASOURCE =>
        listenArrayDataSource message sender (set_timeSinceLastMessage sender now st)
    | UPDATE_DUPLEX_DATASOURCE =>
        updateDuplexDataSource message sender (set_timeSinceLastMessage sender now st)
    | _ => set_timeSinceLastMessage sender now st
    end.
Proof.
  intros Hinj Hsize Hparse Htype.
  unfold processMessage. rewrite Hsize, Hparse, Htype. unfold is_case.
  destruct kind;
    repeat match goal with
           | |- context [(code ?p =? code ?p)%Z] => rewrite (Z.eqb_refl (code p))
           | |- context [(code ?p =? code ?q)%Z] =>
               destruct (Z.eqb_spec (code p) (code q)) as [E|_];
               [apply Hinj in E; discriminate E|]
           end;
    reflexivity.
Qed.

(** ** The activity timestamp *)

Lemma update_client_time c f st c' :
  (forall cl, timeSinceLastMessage (f cl) = timeSinceLastMessage cl) ->
  timeSinceLastMessage (client (update_client c f st) c') =
  timeSinceLastMessage (client st c').
Proof.
  intros Hf. destruct (decide (c = c')) as [->|Hne].
  - by rewrite client_update_client_eq.
  - by rewrite client_update_client_ne.
Qed.

Lemma time_sendMessage s t p st c :
  timeSinceLastMessage (client (sendMessage s t p st) c) = timeSinceLastMessage (client st c).
Proof. by apply update_client_time. Qed.

Lemma time_subscriptions_set s k t st c :
  timeSinceLastMessage (client (subscriptions_set s k t st) c) =
  timeSinceLastMessage (client st c).
Proof. by apply update_client_time. Qed.

Lemma time_run_callback cb arg st c :
  timeSinceLastMessage (client (run_callback cb arg st) c) = timeSinceLastMessage (client st c).
Proof. destruct cb; apply time_sendMessage. Qed.

Lemma time_listenAndRepeat r cb t st c :
  timeSinceLastMessage (client (listenAndRepeat r cb t st) c) =
  timeSinceLastMessage (client st c).
Proof.
  unfold listenAndRepeat, listen.
  change (client (update_source ?r ?f ?s) c) with (client s c).
  apply time_run_callback.
Qed.

Lemma time_ArrayDataSource_listenAndRepeat r cb t st c :
  timeSinceLastMessage (client (ArrayDataSource_listenAndRepeat r cb t st) c) =
  timeSinceLastMessage (client st c).
Proof.
  unfold ArrayDataSource_listenAndRepeat, listen.
  change (client (update_source ?r ?f ?s) c) with (client s c).
  destruct (getData st r); [reflexivity | apply time_run_callback].
Qed.

Lemma time_listenDataSource message sender st c :
  timeSinceLastMessage (client (listenDataSource message sender st) c) =
  timeSinceLastMessage (client st c).
Proof.
  unfold listenDataSource.
  destruct (Map_get _ _) as [[key endpoint]|]; [|apply time_sendMessage].
  new_token_step. destruct (authenticator _ _ _).
  - rewrite time_listenAndRepeat, time_subscriptions_set. reflexivity.
  - rewrite time_sendMessage, time_subscriptions_set. reflexivity.
Qed.

Lemma time_listenDuplexDataSource message sender st c :
  timeSinceLastMessage (client (listenDuplexDataSource message sender st) c) =
  timeSinceLastMessage (client st c).
Proof.
  unfold listenDuplexDataSource.
  destruct (Map_get _ _) as [[key endpoint]|]; [|apply time_sendMessage].
  new_token_step. destruct (authenticator _ _ _).
  - rewrite time_listenAndRepeat, time_subscriptions_set. reflexivity.
  - rewrite time_sendMessage, time_subscriptions_set. reflexivity.
Qed.

Lemma time_listenArrayDataSource message sender st c :
  timeSinceLastMessage (client (listenArrayDataSource message sender st) c) =
  timeSinceLastMessage (client st c).
Proof.
  unfold listenArrayDataSource.
  destruct (Map_get _ _) as [[key endpoint]|]; [|apply time_sendMessage].
  new_token_step. destruct (authenticator _ _ _).
  - rewrite time_ArrayDataSource_listenAndRepeat, time_subscriptions_set. reflexivity.
  - rewrite time_sendMessage, time_subscriptions_set. reflexivity.
Qed.

Lemma foldl_deliver_times arg (ls : list Listener) : forall st c,
  timeSinceLastMessage (client (foldl (deliver arg) st ls) c) =
  timeSinceLastMessage (client st c).
Proof.
  induction ls as [|l ls IH]; intros st c; cbn [foldl]; [reflexivity|].
  rewrite IH. unfold deliver. destruct (is_cancelled st (token l)); [reflexivity|].
  apply time_run_callback.
Qed.

Lemma time_updateUpstream r v st c :
  timeSinceLastMessage (client (updateUpstream r v st) c) =
  timeSinceLastMessage (client st c).
Proof. unfold updateUpstream, emit. by rewrite foldl_deliver_times. Qed.

Lemma time_updateDuplexDataSource message sender st c :
  timeSinceLastMessage (client (updateDuplexDataSource message sender st) c) =
  timeSinceLastMessage (client st c).
Proof.
  unfold updateDuplexDataSource.
  destruct (Map_get _ _) as [[key endpoint]|]; [|apply time_sendMessage].
  destruct (authenticator _ _ _); [apply time_updateUpstream | apply time_sendMessage].
Qed.

Lemma member_not_nullish (v : value) (k : string) :
  v <> VNull -> v <> VUndefined -> exists x, member v k = Some x.
Proof. destruct v; cbn; intros; eauto; congruence. Qed.

(** C10, as amended.  A frame that is not a string is ignored: the whole
    state, the timestamp included, is as before, so nothing is answered and
    nothing is logged.  A string frame below the size limit that parses to a
    value other than [null] updates the sender's [timeSinceLastMessage] to
    the current time, whatever its [type] member is (a known kind, an unknown
    one, or none at all). *)
Theorem frame_ignored_or_timestamped
    (JSON_parse : string -> option value) (code : RemoteProtocol -> Z)
    (sender : ClientRef) (now : Z) (st : State) :
  (forall octets,
     processMessage JSON_parse code sender (DataBinary octets) now st = st) /\
  (forall text message,
     length_ge text (maxMessageSize (config (server st))) = false ->
     JSON_parse text = Some message ->
     message <> VNull -> message <> VUndefined ->
     timeSinceLastMessage
       (client (processMessage JSON_parse code sender (DataString text) now st) sender)
     = Some now).
Proof.
  split; [reflexivity|].
  intros text message Hsize Hparse Hnull Hundef.
  unfold processMessage. rewrite Hsize, Hparse.
  destruct (member_not_nullish message "type" Hnull Hundef) as [type ->].
  assert (Hnow : timeSinceLastMessage
            (client (set_timeSinceLastMessage sender now st) sender) = Some now)
    by (unfold set_timeSinceLastMessage; by rewrite client_update_client_eq).
  repeat case_match;
    rewrite ?time_listenDataSource, ?time_listenDuplexDataSource,
            ?time_listenArrayDataSource, ?time_updateDuplexDataSource;
    exact Hnow.
Qed.

Lemma frame_ignored_or_timestamped_witness :
  processMessage JSON_parse_atoms sample_code 0 (DataBinary [Byte.x41; Byte.x42]) 99 sample_state
    = sample_state /\
  length_ge "1234567" (maxMessageSize (config (server sample_state))) = false /\
  JSON_parse_atoms "1234567" = Some (VNum 1234567) /\
  VNum 1234567 <> VNull /\ VNum 1234567 <> VUndefined /\
  timeSinceLastMessage
    (client (processMessage JSON_parse_atoms sample_code 0 (DataString "1234567") 99 sample_state) 0)
  = Some 99%Z.
Proof.
  destruct (frame_ignored_or_timestamped JSON_parse_atoms sample_code 0 99%Z sample_state)
    as [Hbinary Htext].
  assert (H1 : length_ge "1234567" (maxMessageSize (config (server sample_state))) = false)
    by (vm_compute; reflexivity).
  assert (H2 : JSON_parse_atoms "1234567" = Some (VNum 1234567))
    by (vm_compute; reflexivity).
  assert (H3 : VNum 1234567 <> VNull) by discriminate.
  assert (H4 : VNum 1234567 <> VUndefined) by discriminate.
  split; [apply Hbinary|].
  split; [exact H1|]. split; [exact H2|]. split; [exact H3|]. split; [exact H4|].
  exact (Htext "1234567" (VNum 1234567) H1 H2 H3 H4).
Defined.

(** C10, the claim as written fails: the text [null] parses, yet reading
    [message.type] throws, the catch block logs, and the timestamp is never
    set. *)
Lemma null_frame_counterexample :
  length_ge "null" (maxMessageSize (config (server sample_state))) = false /\
  JSON_parse_atoms "null" = Some VNull /\
  timeSinceLastMessage (client sample_state 0) = None /\
  timeSinceLastMessage
    (client (processMessage JSON_parse_atoms sample_code 0 (DataString "null") 99 sample_state) 0)
  = None /\
  log (processMessage JSON_parse_atoms sample_code 0 (DataString "null") 99 sample_state) =
    log sample_state ++ [ConsoleError "Failed to parse message"; ConsoleError "TypeError"].
Proof.
  split; [vm_compute; reflexivity|]. split; [vm_compute; reflexivity|].
  split; [vm_compute; reflexivity|]. split; vm_compute; reflexivity.
Qed.

(** ** The wire diff of a collection change *)

Lemma obj_has_delete k k' (o : obj) :
  obj_has (obj_delete k o) k' = obj_has o k' && negb (String.eqb k k').
Proof.
  unfold obj_has, obj_delete.
  induction o as [|[k0 v] o IH]; [reflexivity|].
  cbn [List.filter existsb fst]. destruct (String.eqb_spec k0 k) as [->|Hk]; cbn [negb existsb fst].
  - rewrite IH. destruct (String.eqb_spec k k') as [->|Hk']; cbn.
    + by rewrite andb_false_r.
    + by rewrite andb_true_r.
  - rewrite IH. destruct (String.eqb_spec k0 k') as [->|Hk']; cbn; [|reflexivity].
    destruct (String.eqb_spec k k') as [->|]; [congruence | reflexivity].
Qed.

Lemma obj_get_delete k k' (o : obj) :
  obj_get (obj_delete k o) k' = if String.eqb k k' then VUndefined else obj_get o k'.
Proof.
  unfold obj_delete.
  induction o as [|[k0 v] o IH]; [cbn; by destruct (String.eqb k k')|].
  cbn [List.filter obj_get fst]. destruct (String.eqb_spec k0 k) as [->|Hk]; cbn [negb obj_get].
  - rewrite IH. by destruct (String.eqb_spec k k').
  - rewrite IH. destruct (String.eqb_spec k0 k') as [->|Hk']; [|reflexivity].
    destruct (String.eqb_spec k k') as [->|]; [congruence | reflexivity].
Qed.

(** The listener that a granted collection subscribe attaches, in the current
    revision and in the earlier one. *)
Lemma listenArrayDataSource_attaches message sender st key endpoint :
  Map_get (exposedArrayDataSources (server st)) (prop message "id") = Some (key, endpoint) ->
  authenticator endpoint (prop message "token") Read = true ->
  listeners (the_source (listenArrayDataSource message sender st) (source endpoint)) =
    listeners (the_source st (source endpoint)) ++
      [{| callback := OnChange sender (prop message "id"); token := nextToken st |}].
Proof.
  intros Hhit Hauth. unfold listenArrayDataSource. rewrite Hhit. new_token_step.
  rewrite Hauth. unfold ArrayDataSource_listenAndRepeat, listen.
  rewrite the_source_update_source_eq. cbn [listeners].
  destruct (getData _ _); reflexivity.
Qed.

Lemma Legacy_listenArrayDataSource_attaches id sender st endpoint :
  exposedArrayDataSources (server st) !! id = Some endpoint ->
  exists st',
    Legacy.listenArrayDataSource id sender st = Legacy.Returned st' /\
    listeners (the_source st' (source endpoint)) =
      listeners (the_source st (source endpoint)) ++
        [{| callback := OnChangeKeepMerge sender (VStr id); token := nextToken st |}].
Proof.
  intros Hhit. unfold Legacy.listenArrayDataSource. rewrite Hhit. new_token_step.
  eexists. split; [reflexivity|].
  unfold sendMessage, listen.
  change (the_source (update_client ?c ?f ?s) ?r) with (the_source s r).
  by rewrite the_source_update_source_eq.
Qed.

(** C2, as amended.  What a subscribed client receives for a collection
    change is the change object without three fields.  In the current
    revision (client.ts) the fields [operation], [previousState] and
    [newState] are removed from every event, merge events included, and every
    other field (the detailed kind tag, positions, items) is retained with
    its value.  In the earlier revision the two snapshot fields are retained
    exactly when [operation] is [merge], and every other field is always
    retained. *)
Theorem wire_diff_fields
    (sender : ClientRef) (id : value) (change : obj) (st : State) (k : string) :
  run_callback (OnChange sender id) (VObj change) st =
    sendMessage sender UPDATE_ARRAY_DATASOURCE
      [("id", id); ("change", VObj (strip_change (VObj change)))] st /\
  obj_has (strip_change (VObj change)) k = obj_has change k && negb (stripped_field k) /\
  obj_get (strip_change (VObj change)) k =
    (if stripped_field k then VUndefined else obj_get change k) /\
  run_callback (OnChangeKeepMerge sender id) (VObj change) st =
    sendMessage sender UPDATE_DATASOURCE
      [("id", id); ("change", VObj (strip_change_keep_merge (VObj change)))] st /\
  obj_has (strip_change_keep_merge (VObj change)) k =
    obj_has change k && (negb (snapshot_field k) || is_merge (obj_get change "operation")) /\
  obj_get (strip_change_keep_merge (VObj change)) k =
    (if snapshot_field k && negb (is_merge (obj_get change "operation"))
     then VUndefined else obj_get change k).
Proof.
  split; [reflexivity|]. split; [|split; [|split; [reflexivity|split]]].
  - unfold strip_change, stripped_field, snapshot_field. cbn [Object_assign_empty].
    rewrite !obj_has_delete.
    destruct (obj_has change k), (String.eqb "operation" k),
      (String.eqb "previousState" k), (String.eqb "newState" k); reflexivity.
  - unfold strip_change, stripped_field, snapshot_field. cbn [Object_assign_empty].
    rewrite !obj_get_delete.
    destruct (String.eqb "operation" k), (String.eqb "previousState" k),
      (String.eqb "newState" k); reflexivity.
  - unfold strip_change_keep_merge, snapshot_field. cbn [Object_assign_empty].
    destruct (is_merge (obj_get change "operation")).
    + by rewrite orb_true_r, andb_true_r.
    + rewrite !obj_has_delete, orb_false_r.
      destruct (obj_has change k), (String.eqb "previousState" k),
        (String.eqb "newState" k); reflexivity.
  - unfold strip_change_keep_merge, snapshot_field. cbn [Object_assign_empty].
    destruct (is_merge (obj_get change "operation")).
    + by rewrite andb_false_r.
    + rewrite !obj_get_delete, andb_true_r.
      destruct (String.eqb "previousState" k), (String.eqb "newState" k); reflexivity.
Qed.

(** C2, the claim as written fails in the current revision: a merge event
    reaches the subscribed client without its two snapshot fields. *)
Lemma merge_snapshots_counterexample :
  obj_get merge_event "operation" = VStr "merge" /\
  obj_has merge_event "previousState" = true /\
  obj_has merge_event "newState" = true /\
  last (connection (client
          (ArrayDataSource_change 2 [VNum 3; VNum 4] merge_event
             (listenArrayDataSource (request "items" "t") 0 sample_state)) 0)) =
    Some {| frame_type := UPDATE_ARRAY_DATASOURCE;
            frame_payload :=
              [("id", VStr "items");
               ("change", VObj [("operationDetailed", VStr "merge"); ("index", VNum 0);
                                ("items", VArr [VNum 3; VNum 4])])] |} /\
  obj_has (strip_change (VObj merge_event)) "previousState" = false /\
  obj_has (strip_change (VObj merge_event)) "newState" = false.
Proof.
  split; [reflexivity|]. split; [reflexivity|]. split; [reflexivity|].
  split; [vm_compute; reflexivity|]. split; reflexivity.
Qed.

(** The append scenario: the collection [items] is 1, 2, 3 and a subscribed
    client sees the append of 4 as a diff without snapshot fields (and
    without the coarse [operation] tag). *)
Example append_reaches_client_without_snapshots :
  last (connection (client
          (ArrayDataSource_change 2 [VNum 1; VNum 2; VNum 3; VNum 4] append_event
             (listenArrayDataSource (request "items" "t") 0 sample_state)) 0)) =
    Some {| frame_type := UPDATE_ARRAY_DATASOURCE;
            frame_payload :=
              [("id", VStr "items");
               ("change", VObj [("operationDetailed", VStr "append"); ("count", VNum 1);
                                ("index", VNum 3); ("items", VArr [VNum 4])])] |}.
Proof. vm_compute. reflexivity. Qed.

(** ** Emission *)

Lemma run_callback_sent_only cb arg st :
  exists f, sent_only (cb_sender cb) [f] st (run_callback cb arg st).
Proof. destruct cb; eexists; apply sendMessage_sent_only. Qed.

Lemma is_cancelled_tokens st st' t :
  tokens st' = tokens st -> is_cancelled st' t = is_cancelled st t.
Proof. unfold is_cancelled. by intros ->. Qed.

Lemma the_source_sources st st' r :
  sources st' = sources st -> the_source st' r = the_source st r.
Proof. unfold the_source. by intros ->. Qed.

(** A delivery to a listener of another client leaves this client's
    connection alone; no delivery touches sources or tokens. *)
Lemma deliver_frame arg st l :
  sources (deliver arg st l) = sources st /\
  tokens (deliver arg st l) = tokens st /\
  (forall c, subscriptions (client (deliver arg st l) c) = subscriptions (client st c)) /\
  (forall c, c <> cb_sender (callback l) ->
     connection (client (deliver arg st l) c) = connection (client st c)).
Proof.
  unfold deliver. destruct (is_cancelled st (token l)); [done|].
  destruct (run_callback_sent_only (callback l) arg st)
    as (f & _ & Hsrc & Htok & _ & _ & Hsubs & _ & _ & Hothers).
  auto.
Qed.

Lemma foldl_deliver_frame arg (ls : list Listener) : forall st,
  sources (foldl (deliver arg) st ls) = sources st /\
  tokens (foldl (deliver arg) st ls) = tokens st /\
  (forall c, subscriptions (client (foldl (deliver arg) st ls) c) = subscriptions (client st c)) /\
  (forall c, Forall (fun l => cb_sender (callback l) <> c \/ is_cancelled st (token l) = true) ls ->
     connection (client (foldl (deliver arg) st ls) c) = connection (client st c)).
Proof.
  induction ls as [|l ls IH]; intros st; [done|].
  cbn [foldl].
  destruct (IH (deliver arg st l)) as (Hsrc & Htok & Hsubs & Hconn).
  destruct (deliver_frame arg st l) as (Hsrc1 & Htok1 & Hsubs1 & Hconn1).
  split; [congruence|]. split; [congruence|].
  split; [intros c; by rewrite Hsubs|].
  intros c Hall. apply Forall_cons in Hall as [Hl Hall].
  rewrite Hconn.
  - destruct Hl as [Hne|Hcancelled]; [apply Hconn1; congruence|].
    unfold deliver. by rewrite Hcancelled.
  - eapply Forall_impl; [exact Hall|]. intros l' [?|Hc]; [by left|right].
    by rewrite (is_cancelled_tokens st (deliver arg st l)).
Qed.

Lemma update_subscribed sender id t r v st :
  subscribed sender id t r st ->
  subscribed sender id t r (update r v st) /\
  connection (client (update r v st) sender) =
    connection (client st sender) ++ [update_frame id v].
Proof.
  intros (others & Hls & Hothers & Hlive).
  unfold update, emit.
  set (st0 := update_source r _ st).
  assert (Hls0 : listeners (the_source st0 r) =
                 others ++ [{| callback := OnValue sender id; token := t |}])
    by (unfold st0; by rewrite the_source_update_source_eq).
  rewrite Hls0, foldl_app. cbn [foldl].
  set (st1 := foldl (deliver v) st0 others).
  destruct (foldl_deliver_frame v others st0) as (Hsrc & Htok & _ & Hconn).
  fold st1 in Hsrc, Htok, Hconn.
  assert (Hlive1 : is_cancelled st1 t = false)
    by (rewrite (is_cancelled_tokens st0 st1 t Htok); exact Hlive).
  unfold deliver. cbn [token callback]. rewrite Hlive1. cbn [run_callback].
  destruct (sendMessage_sent_only sender UPDATE_DATASOURCE [("id", id); ("value", v)] st1)
    as (_ & Hsrc2 & Htok2 & _ & _ & _ & _ & Hconn2 & _).
  assert (Htok_all : tokens (sendMessage sender UPDATE_DATASOURCE
                                [("id", id); ("value", v)] st1) = tokens st)
    by (rewrite Htok2, Htok; reflexivity).
  split.
  - exists others. split; [|split].
    + rewrite (the_source_sources st1 _ r Hsrc2), (the_source_sources st0 st1 r Hsrc).
      exact Hls0.
    + eapply Forall_impl; [exact Hothers|]. intros l [?|Hc]; [by left|right].
      by rewrite (is_cancelled_tokens st _ _ Htok_all).
    + by rewrite (is_cancelled_tokens st _ _ Htok_all).
  - rewrite Hconn2, Hconn; [reflexivity|exact Hothers].
Qed.

Lemma updates_subscribed sender id t r (vs : list value) : forall st,
  subscribed sender id t r st ->
  connection (client (updates r vs st) sender) =
    connection (client st sender) ++ map (update_frame id) vs.
Proof.
  unfold updates. induction vs as [|v vs IH]; intros st Hsub; cbn [foldl map].
  - by rewrite app_nil_r.
  - destruct (update_subscribed sender id t r v st Hsub) as [Hsub' Hconn].
    rewrite (IH _ Hsub'), Hconn, <- app_assoc. reflexivity.
Qed.

(** ** A successful scalar subscribe *)

Lemma fresh_token_live (st st' : State) t :
  tokens st' = <[t := false]> (tokens st) -> is_cancelled st' t = false.
Proof.
  intros Htok. unfold is_cancelled. rewrite Htok, lookup_insert_eq.
  apply bool_decide_eq_false_2. discriminate.
Qed.

Lemma no_listener_yet sender (st : State) (ls : list Listener) :
  Forall (fun l => cb_sender (callback l) <> sender) ls ->
  Forall (fun l => cb_sender (callback l) <> sender \/ is_cancelled st (token l) = true) ls.
Proof. intros H. eapply Forall_impl; [exact H|]. intros l ?. by left. Qed.

(** The first frame of a granted scalar subscribe, the handle it stores and
    the listener it appends, whatever the source's listeners are. *)
Lemma listenDataSource_first_frame message sender st key endpoint :
  Map_get (exposedDataSources (server st)) (prop message "id") = Some (key, endpoint) ->
  authenticator endpoint (prop message "token") Read = true ->
  connection (client (listenDataSource message sender st) sender) =
    connection (client st sender) ++
      [update_frame (prop message "id") (src_value (the_source st (source endpoint)))] /\
  subscriptions (client (listenDataSource message sender st) sender) =
    <[key := nextToken st]> (subscriptions (client st sender)) /\
  listeners (the_source (listenDataSource message sender st) (source endpoint)) =
    listeners (the_source st (source endpoint)) ++
      [{| callback := OnValue sender (prop message "id"); token := nextToken st |}] /\
  is_cancelled (listenDataSource message sender st) (nextToken st) = false.
Proof.
  intros Hhit Hauth.
  unfold listenDataSource. rewrite Hhit. new_token_step. rewrite Hauth.
  unfold listenAndRepeat.
  set (stS := subscriptions_set sender key (nextToken st) _).
  change (the_source stS (source endpoint)) with (the_source st (source endpoint)).
  cbn [run_callback]. unfold listen.
  set (st1 := update_source _ _ _).
  assert (Hclient : client st1 sender =
    {| subscriptions := <[key := nextToken st]> (subscriptions (client st sender));
       timeSinceLastMessage := timeSinceLastMessage (client st sender);
       connection := connection (client st sender) ++
         [update_frame (prop message "id") (src_value (the_source st (source endpoint)))] |}).
  { unfold st1.
    change (client (update_source ?r ?f ?s) sender) with (client s sender).
    unfold sendMessage. rewrite client_update_client_eq.
    unfold stS, subscriptions_set. rewrite client_update_client_eq. reflexivity. }
  rewrite Hclient. split; [reflexivity|]. split; [reflexivity|]. split.
  - unfold st1. rewrite the_source_update_source_eq. reflexivity.
  - by apply (fresh_token_live st).
Qed.

Lemma listenDataSource_granted message sender st key endpoint :
  Map_get (exposedDataSources (server st)) (prop message "id") = Some (key, endpoint) ->
  authenticator endpoint (prop message "token") Read = true ->
  Forall (fun l => cb_sender (callback l) <> sender)
         (listeners (the_source st (source endpoint))) ->
  subscribed sender (prop message "id") (nextToken st) (source endpoint)
    (listenDataSource message sender st) /\
  connection (client (listenDataSource message sender st) sender) =
    connection (client st sender) ++
      [update_frame (prop message "id") (src_value (the_source st (source endpoint)))] /\
  subscriptions (client (listenDataSource message sender st) sender) =
    <[key := nextToken st]> (subscriptions (client st sender)).
Proof.
  intros Hhit Hauth Hnone.
  destruct (listenDataSource_first_frame message sender st key endpoint Hhit Hauth)
    as (Hconn & Hsubs & Hls & Hlive).
  split; [|by split].
  exists (listeners (the_source st (source endpoint))). split; [exact Hls|].
  split; [by apply no_listener_yet | exact Hlive].
Qed.

(** The acknowledgment of the earlier revision's scalar subscribe, the
    handle it stores and the listener it appends. *)
Lemma Legacy_listenDataSource_first_frame message sender st key endpoint :
  Map_get (exposedDataSources (server st)) (prop message "id") = Some (key, endpoint) ->
  connection (client (Legacy.listenDataSource message sender st) sender) =
    connection (client st sender) ++
      [ack_frame (prop message "id") (src_value (the_source st (source endpoint)))] /\
  subscriptions (client (Legacy.listenDataSource message sender st) sender) =
    <[key := nextToken st]> (subscriptions (client st sender)) /\
  listeners (the_source (Legacy.listenDataSource message sender st) (source endpoint)) =
    listeners (the_source st (source endpoint)) ++
      [{| callback := OnValue sender (prop message "id"); token := nextToken st |}] /\
  is_cancelled (Legacy.listenDataSource message sender st) (nextToken st) = false.
Proof.
  intros Hhit.
  unfold Legacy.listenDataSource. rewrite Hhit. new_token_step.
  set (stS := subscriptions_set sender key (nextToken st) _).
  set (stL := listen _ _ _ stS).
  assert (Hsrc : the_source stL (source endpoint) =
    {| src_value := src_value (the_source st (source endpoint));
       listeners := listeners (the_source st (source endpoint)) ++
         [{| callback := OnValue sender (prop message "id"); token := nextToken st |}];
       upstream := upstream (the_source st (source endpoint)) |})
    by (unfold stL, listen; by rewrite the_source_update_source_eq).
  rewrite Hsrc. cbn [src_value].
  set (st1 := sendMessage _ _ _ stL).
  assert (Hclient : client st1 sender =
    {| subscriptions := <[key := nextToken st]> (subscriptions (client st sender));
       timeSinceLastMessage := timeSinceLastMessage (client st sender);
       connection := connection (client st sender) ++
         [ack_frame (prop message "id") (src_value (the_source st (source endpoint)))] |}).
  { unfold st1, sendMessage. rewrite client_update_client_eq.
    change (client stL sender) with (client stS sender).
    unfold stS, subscriptions_set. rewrite client_update_client_eq. reflexivity. }
  rewrite Hclient. split; [reflexivity|]. split; [reflexivity|]. split.
  - change (the_source st1 (source endpoint)) with (the_source stL (source endpoint)).
    by rewrite Hsrc.
  - by apply (fresh_token_live st).
Qed.

Lemma Legacy_listenDataSource_hit message sender st key endpoint :
  Map_get (exposedDataSources (server st)) (prop message "id") = Some (key, endpoint) ->
  Forall (fun l => cb_sender (callback l) <> sender)
         (listeners (the_source st (source endpoint))) ->
  subscribed sender (prop message "id") (nextToken st) (source endpoint)
    (Legacy.listenDataSource message sender st) /\
  connection (client (Legacy.listenDataSource message sender st) sender) =
    connection (client st sender) ++
      [ack_frame (prop message "id") (src_value (the_source st (source endpoint)))].
Proof.
  intros Hhit Hnone.
  destruct (Legacy_listenDataSource_first_frame message sender st key endpoint Hhit)
    as (Hconn & _ & Hls & Hlive).
  split; [|exact Hconn].
  exists (listeners (the_source st (source endpoint))). split; [exact Hls|].
  split; [by apply no_listener_yet | exact Hlive].
Qed.

(** C4, as amended.  A scalar subscribe that hits the registry.  In the
    current revision, whenever the authenticator grants (token, read), the
    session is sent no separate acknowledgment: the frame the subscribe
    sends is an [UPDATE_DATASOURCE] carrying the source's current value
    (whatever it is, [undefined] for a source never set).  In the earlier
    revision the frame is the acknowledgment [LISTEN_DATASOURCE_OK] carrying
    the current value.  In both, when the session had no listener on that
    source before, any run [vs] of later source updates follows as exactly
    one [UPDATE_DATASOURCE] frame each, in emission order. *)
Theorem scalar_subscription_stream
    (message : value) (sender : ClientRef) (st : State)
    (key : string) (endpoint : Endpoint) (vs : list value) :
  Map_get (exposedDataSources (server st)) (prop message "id") = Some (key, endpoint) ->
  (authenticator endpoint (prop message "token") Read = true ->
   connection (client (listenDataSource message sender st) sender) =
     connection (client st sender) ++
       [update_frame (prop message "id") (src_value (the_source st (source endpoint)))]) /\
  connection (client (Legacy.listenDataSource message sender st) sender) =
    connection (client st sender) ++
      [ack_frame (prop message "id") (src_value (the_source st (source endpoint)))] /\
  (Forall (fun l => cb_sender (callback l) <> sender)
          (listeners (the_source st (source endpoint))) ->
   (authenticator endpoint (prop message "token") Read = true ->
    connection (client (updates (source endpoint) vs (listenDataSource message sender st))
                  sender) =
      connection (client st sender) ++
        update_frame (prop message "id") (src_value (the_source st (source endpoint)))
          :: map (update_frame (prop message "id")) vs) /\
   connection (client (updates (source endpoint) vs (Legacy.listenDataSource message sender st))
                 sender) =
     connection (client st sender) ++
       ack_frame (prop message "id") (src_value (the_source st (source endpoint)))
         :: map (update_frame (prop message "id")) vs).
Proof.
  intros Hhit. split; [|split].
  - intros Hauth.
    by destruct (listenDataSource_first_frame message sender st key endpoint Hhit Hauth).
  - by destruct (Legacy_listenDataSource_first_frame message sender st key endpoint Hhit).
  - intros Hnone. split.
    + intros Hauth.
      destruct (listenDataSource_granted message sender st key endpoint Hhit Hauth Hnone)
        as (Hsub & Hconn & _).
      rewrite (updates_subscribed _ _ _ _ vs _ Hsub), Hconn, <- app_assoc. reflexivity.
    + destruct (Legacy_listenDataSource_hit message sender st key endpoint Hhit Hnone)
        as (Hsub & Hconn).
      rewrite (updates_subscribed _ _ _ _ vs _ Hsub), Hconn, <- app_assoc. reflexivity.
Qed.

Lemma scalar_subscription_stream_witness :
  Map_get (exposedDataSources (server sample_state)) (prop (request "temperature" "t") "id") =
    Some ("temperature", {| source := 0; authenticator := allow_all |}) /\
  listeners (the_source sample_state 0) = [] /\
  allow_all (prop (request "temperature" "t") "token") Read = true /\
  connection (client (listenDataSource (request "temperature" "t") 0 sample_state) 0) =
    connection (client sample_state 0) ++
      [update_frame (VStr "temperature") (src_value (the_source sample_state 0))] /\
  connection (client (Legacy.listenDataSource (request "temperature" "t") 0 sample_state) 0) =
    connection (client sample_state 0) ++
      [ack_frame (VStr "temperature") (src_value (the_source sample_state 0))] /\
  connection (client (updates 0 [VNum 21; VNum 22]
                        (listenDataSource (request "temperature" "t") 0 sample_state)) 0) =
    connection (client sample_state 0) ++
      update_frame (VStr "temperature") (src_value (the_source sample_state 0))
        :: [update_frame (VStr "temperature") (VNum 21);
            update_frame (VStr "temperature") (VNum 22)] /\
  connection (client (updates 0 [VNum 21; VNum 22]
                        (Legacy.listenDataSource (request "temperature" "t") 0 sample_state)) 0) =
    connection (client sample_state 0) ++
      ack_frame (VStr "temperature") (src_value (the_source sample_state 0))
        :: [update_frame (VStr "temperature") (VNum 21);
            update_frame (VStr "temperature") (VNum 22)].
Proof.
  pose (temp := {| source := 0; authenticator := allow_all |}).
  assert (Hhit : Map_get (exposedDataSources (server sample_state))
            (prop (request "temperature" "t") "id") = Some ("temperature", temp))
    by (vm_compute; reflexivity).
  assert (Hempty : listeners (the_source sample_state 0) = [])
    by (vm_compute; reflexivity).
  assert (Hnone : Forall (fun l => cb_sender (callback l) <> 0)
                    (listeners (the_source sample_state (source temp))))
    by (cbn [source temp]; rewrite Hempty; constructor).
  destruct (scalar_subscription_stream (request "temperature" "t") 0 sample_state
              "temperature" temp [VNum 21; VNum 22] Hhit) as (Hfirst & Hack & Hstream).
  destruct (Hstream Hnone) as [Hnow Hlegacy].
  split; [exact Hhit|]. split; [exact Hempty|]. split; [reflexivity|].
  split; [exact (Hfirst eq_refl)|]. split; [exact Hack|].
  split; [exact (Hnow eq_refl) | exact Hlegacy].
Defined.

(** C4, the claim as written fails in the current revision: the first frame
    of a granted scalar subscribe is an update frame, not an
    acknowledgment. *)
Lemma first_frame_counterexample :
  Map_get (exposedDataSources (server sample_state)) (prop (request "temperature" "t") "id") =
    Some ("temperature", {| source := 0; authenticator := allow_all |}) /\
  allow_all (prop (request "temperature" "t") "token") Read = true /\
  connection (client sample_state 0) = [] /\
  connection (client (listenDataSource (request "temperature" "t") 0 sample_state) 0) =
    [{| frame_type := UPDATE_DATASOURCE;
        frame_payload := [("id", VStr "temperature"); ("value", VNum 20)] |}] /\
  UPDATE_DATASOURCE <> LISTEN_DATASOURCE_OK.
Proof.
  split; [vm_compute; reflexivity|]. split; [reflexivity|].
  split; [vm_compute; reflexivity|]. split; [vm_compute; reflexivity|]. discriminate.
Qed.

(** ** Refused subscriptions *)

Lemma listenDataSource_denied message sender st key endpoint :
  Map_get (exposedDataSources (server st)) (prop message "id") = Some (key, endpoint) ->
  authenticator endpoint (prop message "token") Read = false ->
  connection (client (listenDataSource message sender st) sender) =
    connection (client st sender) ++
      [{| frame_type := LISTEN_DATASOURCE_ERR;
          frame_payload := error_payload (prop message "id") 401 "Unauthorized" |}] /\
  sources (listenDataSource message sender st) = sources st /\
  server (listenDataSource message sender st) = server st /\
  subscriptions (client (listenDataSource message sender st) sender) =
    <[key := nextToken st]> (subscriptions (client st sender)).
Proof.
  intros Hhit Hauth. unfold listenDataSource. rewrite Hhit. new_token_step. rewrite Hauth.
  unfold sendMessage, subscriptions_set. rewrite !client_update_client_eq.
  repeat split.
Qed.

Lemma listenArrayDataSource_denied message sender st key endpoint :
  Map_get (exposedArrayDataSources (server st)) (prop message "id") = Some (key, endpoint) ->
  authenticator endpoint (prop message "token") Read = false ->
  connection (client (listenArrayDataSource message sender st) sender) =
    connection (client st sender) ++
      [{| frame_type := LISTEN_ARRAY_DATASOURCE_ERR;
          frame_payload := error_payload (prop message "id") 401 "Unauthorized" |}] /\
  sources (listenArrayDataSource message sender st) = sources st /\
  server (listenArrayDataSource message sender st) = server st /\
  subscriptions (client (listenArrayDataSource message sender st) sender) =
    <[key := nextToken st]> (subscriptions (client st sender)).
Proof.
  intros Hhit Hauth. unfold listenArrayDataSource. rewrite Hhit. new_token_step. rewrite Hauth.
  unfold sendMessage, subscriptions_set. rewrite !client_update_client_eq.
  repeat split.
Qed.

Lemma listenDuplexDataSource_denied message sender st key endpoint :
  Map_get (exposedDuplexDataSources (server st)) (prop message "id") = Some (key, endpoint) ->
  authenticator endpoint (prop message "token") Read = false ->
  connection (client (listenDuplexDataSource message sender st) sender) =
    connection (client st sender) ++
      [{| frame_type := LISTEN_DUPLEX_DATASOURCE_ERR;
          frame_payload := error_payload (prop message "id") 401 "Unauthorized" |}] /\
  sources (listenDuplexDataSource message sender st) = sources st /\
  server (listenDuplexDataSource message sender st) = server st /\
  subscriptions (client (listenDuplexDataSource message sender st) sender) =
    <[key := nextToken st]> (subscriptions (client st sender)).
Proof.
  intros Hhit Hauth. unfold listenDuplexDataSource. rewrite Hhit. new_token_step. rewrite Hauth.
  unfold sendMessage, subscriptions_set. rewrite !client_update_client_eq.
  repeat split.
Qed.

(** C1, the code at a refused subscribe of each kind.  The 401 answer is sent
    and no listener reaches the source, but the session's subscription map,
    empty before, now holds a handle under the refused id: the token is
    stored before the authenticator is asked. *)
Theorem refused_subscribe_stores_handle :
  subscriptions (client sample_state 0) = ∅ /\
  (connection (client (listenDataSource (request "secret" "t") 0 sample_state) 0) =
     [{| frame_type := LISTEN_DATASOURCE_ERR;
         frame_payload := [("id", VStr "secret"); ("errorCode", VNum 401);
                           ("error", VStr "Unauthorized")] |}] /\
   listeners (the_source (listenDataSource (request "secret" "t") 0 sample_state) 1) = [] /\
   subscriptions (client (listenDataSource (request "secret" "t") 0 sample_state) 0) =
     {[ "secret" := 0 ]}) /\
  (connection (client (listenArrayDataSource (request "vault" "t") 0 sample_state) 0) =
     [{| frame_type := LISTEN_ARRAY_DATASOURCE_ERR;
         frame_payload := [("id", VStr "vault"); ("errorCode", VNum 401);
                           ("error", VStr "Unauthorized")] |}] /\
   listeners (the_source (listenArrayDataSource (request "vault" "t") 0 sample_state) 3) = [] /\
   subscriptions (client (listenArrayDataSource (request "vault" "t") 0 sample_state) 0) =
     {[ "vault" := 0 ]}) /\
  (connection (client (listenDuplexDataSource (request "lock" "t") 0 sample_state) 0) =
     [{| frame_type := LISTEN_DUPLEX_DATASOURCE_ERR;
         frame_payload := [("id", VStr "lock"); ("errorCode", VNum 401);
                           ("error", VStr "Unauthorized")] |}] /\
   listeners (the_source (listenDuplexDataSource (request "lock" "t") 0 sample_state) 5) = [] /\
   subscriptions (client (listenDuplexDataSource (request "lock" "t") 0 sample_state) 0) =
     {[ "lock" := 0 ]}).
Proof.
  split; [vm_compute; reflexivity|].
  split; [|split];
    (split; [vm_compute; reflexivity|]; split; vm_compute; reflexivity).
Qed.

(** ** Resubscription *)

(** What a granted scalar subscribe does to the source, the tokens and the
    session, whatever listeners the source already has. *)
Lemma listenDataSource_granted_state message sender st key endpoint :
  Map_get (exposedDataSources (server st)) (prop message "id") = Some (key, endpoint) ->
  authenticator endpoint (prop message "token") Read = true ->
  listeners (the_source (listenDataSource message sender st) (source endpoint)) =
    listeners (the_source st (source endpoint)) ++
      [{| callback := OnValue sender (prop message "id"); token := nextToken st |}] /\
  tokens (listenDataSource message sender st) = <[nextToken st := false]> (tokens st) /\
  subscriptions (client (listenDataSource message sender st) sender) =
    <[key := nextToken st]> (subscriptions (client st sender)).
Proof.
  intros Hhit Hauth. unfold listenDataSource. rewrite Hhit. new_token_step. rewrite Hauth.
  unfold listenAndRepeat, listen.
  set (stS := subscriptions_set sender key (nextToken st) _).
  change (the_source stS (source endpoint)) with (the_source st (source endpoint)).
  rewrite the_source_update_source_eq. cbn [listeners].
  change (client (update_source ?r ?f ?s) sender) with (client s sender).
  cbn [run_callback]. split; [reflexivity|]. split; [reflexivity|].
  unfold sendMessage. rewrite client_update_client_eq. cbn [subscriptions].
  unfold stS, subscriptions_set. by rewrite client_update_client_eq.
Qed.

(** A granted subscribe never cancels anything: a listener that was live on
    the source stays on it and stays live, while the session's map now holds
    the fresh token under the id - also when the listener is the session's
    own, stored under that same id a moment before. *)
Lemma resubscribe_leaves_listener message sender st key endpoint l :
  Map_get (exposedDataSources (server st)) (prop message "id") = Some (key, endpoint) ->
  authenticator endpoint (prop message "token") Read = true ->
  l ∈ listeners (the_source st (source endpoint)) ->
  is_cancelled st (token l) = false ->
  token l <> nextToken st ->
  l ∈ listeners (the_source (listenDataSource message sender st) (source endpoint)) /\
  is_cancelled (listenDataSource message sender st) (token l) = false /\
  subscriptions (client (listenDataSource message sender st) sender) !! key =
    Some (nextToken st).
Proof.
  intros Hhit Hauth Hl Hlive Hfresh.
  destruct (listenDataSource_granted_state message sender st key endpoint Hhit Hauth)
    as (Hls & Htok & Hsubs).
  split; [rewrite Hls; apply elem_of_app; by left|].
  split; [|by rewrite Hsubs, lookup_insert_eq].
  unfold is_cancelled in *. rewrite Htok, lookup_insert_ne by done. exact Hlive.
Qed.

(** C8, the code after two subscribes of one session to one id.  The source
    carries two live listeners for the session; the subscription map holds
    one handle, the second, and nothing in the map holds the first listener's
    token; each update is then sent twice. *)
Theorem resubscribe_orphans_listener :
  live_listeners twice_subscribed 0 =
    [{| callback := OnValue 0 (VStr "temperature"); token := 0 |};
     {| callback := OnValue 0 (VStr "temperature"); token := 1 |}] /\
  subscriptions (client twice_subscribed 0) = {[ "temperature" := 1 ]} /\
  holds_token (subscriptions (client twice_subscribed 0)) 0 = false /\
  connection (client twice_subscribed 0) =
    [update_frame (VStr "temperature") (VNum 20);
     update_frame (VStr "temperature") (VNum 20)] /\
  connection (client (update 0 (VNum 21) twice_subscribed) 0) =
    [update_frame (VStr "temperature") (VNum 20);
     update_frame (VStr "temperature") (VNum 20);
     update_frame (VStr "temperature") (VNum 21);
     update_frame (VStr "temperature") (VNum 21)].
Proof.
  split; [vm_compute; reflexivity|]. split; [vm_compute; reflexivity|].
  split; [vm_compute; reflexivity|]. split; vm_compute; reflexivity.
Qed.

(** ** Closing a connection *)

Lemma foldr_cancel_frame (ts : list Token) (st : State) :
  sources (foldr CancellationToken_cancel st ts) = sources st /\
  clients (foldr CancellationToken_cancel st ts) = clients st /\
  server (foldr CancellationToken_cancel st ts) = server st /\
  (forall t, t ∈ ts -> is_cancelled (foldr CancellationToken_cancel st ts) t = true) /\
  (forall t, is_cancelled st t = true ->
             is_cancelled (foldr CancellationToken_cancel st ts) t = true).
Proof.
  induction ts as [|t0 ts (Hsrc & Hcl & Hsrv & Hin & Hkeep)]; cbn [foldr].
  - repeat split; [intros t Ht; by apply elem_of_nil in Ht | auto].
  - split; [exact Hsrc|]. split; [exact Hcl|]. split; [exact Hsrv|].
    unfold is_cancelled, CancellationToken_cancel in *. cbn [tokens with_tokens].
    split; intros t Ht.
    + apply bool_decide_eq_true_2.
      destruct (decide (t0 = t)) as [->|Hne]; [by rewrite lookup_insert_eq|].
      rewrite lookup_insert_ne by done.
      apply elem_of_cons in Ht as [->|Ht]; [done|].
      specialize (Hin t Ht). by apply bool_decide_eq_true_1 in Hin.
    + apply bool_decide_eq_true_2.
      destruct (decide (t0 = t)) as [->|Hne]; [by rewrite lookup_insert_eq|].
      rewrite lookup_insert_ne by done.
      specialize (Hkeep t Ht). by apply bool_decide_eq_true_1 in Hkeep.
Qed.

Lemma dispose_frame c st :
  sources (dispose c st) = sources st /\
  server (dispose c st) = server st /\
  subscriptions (client (dispose c st) c) = ∅ /\
  connection (client (dispose c st) c) = connection (client st c) /\
  (forall id t, subscriptions (client st c) !! id = Some t -> is_cancelled (dispose c st) t = true) /\
  (forall t, is_cancelled st t = true -> is_cancelled (dispose c st) t = true).
Proof.
  unfold dispose.
  set (ts := (map_to_list (subscriptions (client st c))).*2).
  destruct (foldr_cancel_frame ts st) as (Hsrc & Hcl & Hsrv & Hin & Hkeep).
  split; [exact Hsrc|]. split; [exact Hsrv|].
  rewrite client_update_client_eq. cbn [subscriptions connection].
  split; [reflexivity|].
  split; [unfold client; by rewrite Hcl|].
  split.
  - intros id t Hsub.
    change (is_cancelled (update_client ?c' ?f ?s) t) with (is_cancelled s t).
    apply Hin. unfold ts. apply list_elem_of_fmap. exists (id, t). split; [done|].
    by apply elem_of_map_to_list.
  - intros t Ht.
    change (is_cancelled (update_client ?c' ?f ?s) t) with (is_cancelled s t).
    by apply Hkeep.
Qed.

(** After the close handler, a session all of whose live listeners were
    covered by its subscription map is silenced. *)
Lemma on_close_silences c st : covered c st -> silenced c (on_close c st).
Proof.
  intros Hcov r. unfold on_close.
  set (st0 := with_server _ st).
  destruct (dispose_frame c st0) as (Hsrc & _ & _ & _ & Hin & Hkeep).
  assert (Hgoal : Forall (fun l => cb_sender (callback l) <> c \/
                                   is_cancelled (dispose c st0) (token l) = true)
                         (listeners (the_source st r))).
  { apply Forall_forall. intros l Hl.
    destruct (decide (cb_sender (callback l) = c)) as [Heq|Hne]; [right|by left].
    destruct (Hcov r l Hl Heq) as [Hc|[id Hid]]; [by apply Hkeep|].
    by apply (Hin id). }
  destruct (onClientDisconnected (create_config (dispose c st0)));
    [change (the_source (log_entry ?e ?s) r) with (the_source s r)|];
    rewrite (the_source_sources st0 (dispose c st0) r Hsrc); exact Hgoal.
Qed.

Lemma silenced_update c r v st :
  silenced c st ->
  silenced c (update r v st) /\
  connection (client (update r v st) c) = connection (client st c).
Proof.
  intros Hsil. unfold update, emit.
  set (st0 := update_source r _ st).
  assert (Hls0 : forall r', listeners (the_source st0 r') = listeners (the_source st r')).
  { intros r'. unfold st0. destruct (decide (r = r')) as [->|Hne].
    - by rewrite the_source_update_source_eq.
    - by rewrite the_source_update_source_ne. }
  destruct (foldl_deliver_frame v (listeners (the_source st0 r)) st0)
    as (Hsrc & Htok & _ & Hconn).
  assert (Htok0 : tokens (foldl (deliver v) st0 (listeners (the_source st0 r))) = tokens st)
    by (rewrite Htok; reflexivity).
  split.
  - intros r'. rewrite (the_source_sources st0 _ r' Hsrc), (Hls0 r').
    eapply Forall_impl; [exact (Hsil r')|]. intros l [?|Hc]; [by left|right].
    by rewrite (is_cancelled_tokens st _ _ Htok0).
  - rewrite Hconn; [reflexivity|]. rewrite (Hls0 r). exact (Hsil r).
Qed.

(** Whatever the sources do after the close, nothing more is sent to a
    session that was covered when it closed. *)
Lemma close_then_updates c st (us : list (SourceRef * value)) :
  covered c st ->
  connection (client (run_updates us (on_close c st)) c) =
  connection (client (on_close c st) c).
Proof.
  intros Hcov. pose proof (on_close_silences c st Hcov) as Hsil.
  revert Hsil. generalize (on_close c st). unfold run_updates.
  induction us as [|[r v] us IH]; intros st' Hsil; cbn [foldl]; [reflexivity|].
  destruct (silenced_update c r v st' Hsil) as [Hsil' Hconn].
  cbn [fst snd]. rewrite (IH _ Hsil'). exact Hconn.
Qed.

Lemma foldr_cancel_others (ts : list Token) (st : State) t :
  t ∉ ts -> is_cancelled (foldr CancellationToken_cancel st ts) t = is_cancelled st t.
Proof.
  induction ts as [|t0 ts IH]; cbn [foldr]; [reflexivity|].
  intros Hnot. apply not_elem_of_cons in Hnot as [Hne Hnot].
  rewrite <- (IH Hnot). unfold is_cancelled, CancellationToken_cancel.
  cbn [tokens with_tokens]. by rewrite lookup_insert_ne.
Qed.

(** The close handler reaches only the tokens that the session's map holds: a
    live listener whose token is in no entry of the map is still on its
    source, and still live, after the close. *)
Lemma close_leaves_uncovered c st r l :
  l ∈ listeners (the_source st r) ->
  is_cancelled st (token l) = false ->
  (forall id, subscriptions (client st c) !! id <> Some (token l)) ->
  l ∈ listeners (the_source (on_close c st) r) /\
  is_cancelled (on_close c st) (token l) = false.
Proof.
  intros Hl Hlive Hnone. unfold on_close.
  set (st0 := with_server _ st).
  destruct (dispose_frame c st0) as (Hsrc & _).
  assert (Hkept : is_cancelled (dispose c st0) (token l) = false).
  { unfold dispose.
    change (is_cancelled (update_client ?c' ?f ?s) ?t) with (is_cancelled s t).
    rewrite foldr_cancel_others; [exact Hlive|].
    intros Hin. apply list_elem_of_fmap in Hin as ([id t] & Heq & Hin).
    apply elem_of_map_to_list in Hin. cbn in Heq. subst t. by apply (Hnone id). }
  destruct (onClientDisconnected (create_config (dispose c st0)));
    [change (the_source (log_entry ?e ?s) r) with (the_source s r);
     change (is_cancelled (log_entry ?e ?s) ?t) with (is_cancelled s t)|];
    rewrite (the_source_sources st0 (dispose c st0) r Hsrc); split; assumption.
Qed.

(** C3, the code on a close that follows two subscribes of the session to one
    id.  The close handler removes the session from the live list and
    [dispose] empties its subscription map, cancelling the one handle the map
    held; the first listener stays live on the source, and the next update of
    the source is sent to the closed session.  After a single subscribe the
    same close leaves nothing live and the update sends nothing. *)
Theorem closed_session_still_notified :
  wsServerClients (server (on_close 0 twice_subscribed)) = [] /\
  subscriptions (client (on_close 0 twice_subscribed) 0) = ∅ /\
  live_listeners (on_close 0 twice_subscribed) 0 =
    [{| callback := OnValue 0 (VStr "temperature"); token := 0 |}] /\
  connection (client (update 0 (VNum 21) (on_close 0 twice_subscribed)) 0) =
    connection (client (on_close 0 twice_subscribed) 0) ++
      [update_frame (VStr "temperature") (VNum 21)] /\
  live_listeners (on_close 0 once_subscribed) 0 = [] /\
  connection (client (update 0 (VNum 21) (on_close 0 once_subscribed)) 0) =
    connection (client (on_close 0 once_subscribed) 0).
Proof.
  split; [vm_compute; reflexivity|]. split; [vm_compute; reflexivity|].
  split; [vm_compute; reflexivity|]. split; [vm_compute; reflexivity|].
  split; vm_compute; reflexivity.
Qed.

(** ** The size limit and the error observer *)

Lemma create_forgets_onError cfg : onError (config (server (create cfg))) = false.
Proof. reflexivity. Qed.

Lemma create_maxMessageSize cfg :
  maxMessageSize (config (server (create cfg))) =
    Some (match maxMessageSize cfg with
          | Some n => if (n =? 0)%Z then 1048576%Z else n
          | None => 1048576%Z
          end).
Proof. reflexivity. Qed.

Lemma length_ge_spec text m :
  length_ge text (Some m) = true <-> (m <= Z.of_nat (String.length text))%Z.
Proof. unfold length_ge. apply Z.leb_le. Qed.

(** A frame at or above the limit is dropped before [JSON.parse] is reached;
    without an observer in the server's configuration nothing at all
    happens. *)
Lemma oversized_frame_dropped JSON_parse code sender text now st :
  length_ge text (maxMessageSize (config (server st))) = true ->
  onError (config (server st)) = false ->
  processMessage JSON_parse code sender (DataString text) now st = st.
Proof. intros Hsize Hobs. unfold processMessage. by rewrite Hsize, Hobs. Qed.

Lemma foldl_deliver_server arg (ls : list Listener) : forall st,
  server (foldl (deliver arg) st ls) = server st.
Proof.
  induction ls as [|l ls IH]; intros st; cbn [foldl]; [reflexivity|].
  rewrite IH. unfold deliver. destruct (is_cancelled st (token l)); [reflexivity|].
  by destruct (callback l).
Qed.

Lemma server_listenAndRepeat r cb t st : server (listenAndRepeat r cb t st) = server st.
Proof.
  unfold listenAndRepeat, listen. by destruct cb.
Qed.

Lemma server_ArrayDataSource_listenAndRepeat r cb t st :
  server (ArrayDataSource_listenAndRepeat r cb t st) = server st.
Proof.
  unfold ArrayDataSource_listenAndRepeat, listen.
  destruct (getData st r); [reflexivity | by destruct cb].
Qed.

Lemma server_listenDataSource message sender st :
  server (listenDataSource message sender st) = server st.
Proof.
  unfold listenDataSource. destruct (Map_get _ _) as [[key endpoint]|]; [|reflexivity].
  new_token_step. destruct (authenticator _ _ _); [|reflexivity].
  by rewrite server_listenAndRepeat.
Qed.

Lemma server_listenDuplexDataSource message sender st :
  server (listenDuplexDataSource message sender st) = server st.
Proof.
  unfold listenDuplexDataSource. destruct (Map_get _ _) as [[key endpoint]|]; [|reflexivity].
  new_token_step. destruct (authenticator _ _ _); [|reflexivity].
  by rewrite server_listenAndRepeat.
Qed.

Lemma server_listenArrayDataSource message sender st :
  server (listenArrayDataSource message sender st) = server st.
Proof.
  unfold listenArrayDataSource. destruct (Map_get _ _) as [[key endpoint]|]; [|reflexivity].
  new_token_step. destruct (authenticator _ _ _); [|reflexivity].
  by rewrite server_ArrayDataSource_listenAndRepeat.
Qed.

Lemma server_updateDuplexDataSource message sender st :
  server (updateDuplexDataSource message sender st) = server st.
Proof.
  unfold updateDuplexDataSource. destruct (Map_get _ _) as [[key endpoint]|]; [|reflexivity].
  destruct (authenticator _ _ _); [|reflexivity].
  unfold updateUpstream, emit. by rewrite foldl_deliver_server.
Qed.

Lemma server_processMessage JSON_parse code sender data now st :
  server (processMessage JSON_parse code sender data now st) = server st.
Proof.
  unfold processMessage. destruct data as [text|]; [|reflexivity].
  destruct (length_ge _ _); [by destruct (onError _)|].
  destruct (JSON_parse text) as [message|]; [|reflexivity].
  destruct (member message "type") as [type|]; [|reflexivity].
  repeat case_match;
    rewrite ?server_listenDataSource, ?server_listenDuplexDataSource,
            ?server_listenArrayDataSource, ?server_updateDuplexDataSource;
    reflexivity.
Qed.

Lemma config_step JSON_parse code st e :
  config (server (step JSON_parse code st e)) = config (server st).
Proof.
  destruct e; cbn [step]; try reflexivity.
  - unfold update, emit. by rewrite foldl_deliver_server.
  - unfold ArrayDataSource_change, emit. by rewrite foldl_deliver_server.
  - unfold on_connection. by destruct (onClientConnected _).
  - by rewrite server_processMessage.
  - unfold on_close.
    set (st0 := with_server _ st).
    destruct (dispose_frame c st0) as (_ & Hsrv & _).
    destruct (onClientDisconnected _);
      [change (server (log_entry ?e ?s)) with (server s)|]; by rewrite Hsrv.
Qed.

(** In every state the server can reach, its configuration is the one built
    by [create]: the limit that was computed there, and no error observer,
    whatever the application passed. *)
Lemma config_run JSON_parse code cfg (es : list Event) :
  config (server (run JSON_parse code cfg es)) = config (server (create cfg)).
Proof.
  unfold run. generalize (create cfg) as st.
  induction es as [|e es IH]; intros st; cbn [foldl]; [reflexivity|].
  by rewrite IH, config_step.
Qed.

(** Hence a frame at or above the limit leaves every reachable state exactly
    as it was: the observer is never told. *)
Lemma oversized_frame_unobserved JSON_parse code cfg es sender text now :
  length_ge text (maxMessageSize (config (server (create cfg)))) = true ->
  processMessage JSON_parse code sender (DataString text) now (run JSON_parse code cfg es) =
  run JSON_parse code cfg es.
Proof.
  intros Hsize. apply oversized_frame_dropped; rewrite config_run; [exact Hsize | reflexivity].
Qed.

(** C7, the code at the limit and above it.  The application configured a
    limit of 8 and an error observer.  A frame of exactly 8 characters, which
    does not exceed the limit and which [JSON.parse] accepts, is rejected
    all the same; a frame of 9 characters is rejected and the observer is not
    told (the log is untouched): [create] does not copy [onError] into the
    server's configuration.  A frame of 7 characters passes the check. *)
Theorem limit_frame_rejected_and_observer_silent :
  onError sample_config = true /\
  maxMessageSize sample_config = Some 8%Z /\
  onError (config (server sample_state)) = false /\
  String.length "12345678" = 8 /\
  JSON_parse_atoms "12345678" = Some (VNum 12345678) /\
  processMessage JSON_parse_atoms sample_code 0 (DataString "12345678") 99 sample_state =
    sample_state /\
  String.length "123456789" = 9 /\
  processMessage JSON_parse_atoms sample_code 0 (DataString "123456789") 99 sample_state =
    sample_state /\
  timeSinceLastMessage
    (client (processMessage JSON_parse_atoms sample_code 0 (DataString "1234567") 99
               sample_state) 0) = Some 99%Z.
Proof.
  assert (Hobs : onError (config (server sample_state)) = false) by (vm_compute; reflexivity).
  split; [reflexivity|]. split; [reflexivity|]. split; [exact Hobs|].
  split; [reflexivity|]. split; [vm_compute; reflexivity|].
  split; [apply oversized_frame_dropped; [vm_compute; reflexivity | exact Hobs]|].
  split; [reflexivity|].
  split; [apply oversized_frame_dropped; [vm_compute; reflexivity | exact Hobs]|].
  vm_compute; reflexivity.
Qed.

(** ** Default authenticators *)

Lemma exposeDataSource_default id src st :
  Map_get (exposedDataSources (server (exposeDataSource id src None st))) (VStr id) =
    Some (id, {| source := src; authenticator := allow_all |}).
Proof. cbn. by rewrite lookup_insert_eq. Qed.

Lemma exposeArrayDataSource_default id src st :
  Map_get (exposedArrayDataSources (server (exposeArrayDataSource id src None st))) (VStr id) =
    Some (id, {| source := src; authenticator := allow_all |}).
Proof. cbn. by rewrite lookup_insert_eq. Qed.

Lemma exposeDuplexDataSource_default id src st :
  Map_get (exposedDuplexDataSources (server (exposeDuplexDataSource id src None st))) (VStr id) =
    Some (id, {| source := src; authenticator := allow_all |}).
Proof. cbn. by rewrite lookup_insert_eq. Qed.

Lemma Router_exposeDataSource_default id src r :
  Router.getExposedDataSource (Router.exposeDataSource id src None r) id =
    Some {| Router.source := src; Router.authenticator := Some allow_all |}.
Proof. unfold Router.getExposedDataSource. cbn. by rewrite lookup_insert_eq. Qed.

Lemma Router_exposeArrayDataSource_omitted id src r :
  Router.getExposedArrayDataSource (Router.exposeArrayDataSource id src None r) id =
    Some {| Router.source := src; Router.authenticator := None |}.
Proof. unfold Router.getExposedArrayDataSource. cbn. by rewrite lookup_insert_eq. Qed.

Lemma Router_exposeDuplexDataSource_omitted id src r :
  Router.getExposedDuplexDataSource (Router.exposeDuplexDataSource id src None r) id =
    Some {| Router.source := src; Router.authenticator := None |}.
Proof. unfold Router.getExposedDuplexDataSource. cbn. by rewrite lookup_insert_eq. Qed.

(** C9, the code when the authenticator argument is omitted.  The three expose
    methods of [AurumServer] and [Router.exposeDataSource] store the allow-all
    default.  [Router.exposeArrayDataSource] and
    [Router.exposeDuplexDataSource] store [undefined]: the entry has no
    authenticator, and calling it faults. *)
Theorem router_omitted_authenticator_is_undefined :
  Map_get (exposedDataSources (server (exposeDataSource "temperature" 0 None (create sample_config))))
    (VStr "temperature") = Some ("temperature", {| source := 0; authenticator := allow_all |}) /\
  Map_get (exposedArrayDataSources (server (exposeArrayDataSource "items" 2 None (create sample_config))))
    (VStr "items") = Some ("items", {| source := 2; authenticator := allow_all |}) /\
  Map_get (exposedDuplexDataSources (server (exposeDuplexDataSource "knob" 4 None (create sample_config))))
    (VStr "knob") = Some ("knob", {| source := 4; authenticator := allow_all |}) /\
  Router.getExposedDataSource
    (Router.exposeDataSource "temperature" 0 None Router.new_Router) "temperature" =
    Some {| Router.source := 0; Router.authenticator := Some allow_all |} /\
  Router.getExposedArrayDataSource
    (Router.exposeArrayDataSource "items" 2 None Router.new_Router) "items" =
    Some {| Router.source := 2; Router.authenticator := None |} /\
  Router.call_authenticator {| Router.source := 2; Router.authenticator := None |}
    (VStr "t") Read = None /\
  Router.getExposedDuplexDataSource
    (Router.exposeDuplexDataSource "knob" 4 None Router.new_Router) "knob" =
    Some {| Router.source := 4; Router.authenticator := None |} /\
  Router.call_authenticator {| Router.source := 4; Router.authenticator := None |}
    (VStr "t") Write = None.
Proof.
  split; [apply exposeDataSource_default|].
  split; [apply exposeArrayDataSource_default|].
  split; [apply exposeDuplexDataSource_default|].
  split; [apply Router_exposeDataSource_default|].
  split; [apply Router_exposeArrayDataSource_omitted|].
  split; [reflexivity|].
  split; [apply Router_exposeDuplexDataSource_omitted|].
  reflexivity.
Qed.


(** * Further properties of the code *)

(** ** Fan-out of an emission *)

Lemma run_callback_frame cb arg st :
  run_callback cb arg st =
    sendMessage (cb_sender cb) (frame_type (frame_of cb arg))
      (frame_payload (frame_of cb arg)) st.
Proof. by destruct cb. Qed.

Lemma delivered_to_tokens c arg st st' (ls : list Listener) :
  tokens st' = tokens st -> delivered_to c arg st' ls = delivered_to c arg st ls.
Proof.
  intros Htok. unfold delivered_to. induction ls as [|l ls IH]; [reflexivity|].
  cbn [flat_map]. by rewrite IH, (is_cancelled_tokens st st' _ Htok).
Qed.

Lemma delivered_to_quiet c arg st (ls : list Listener) :
  Forall (fun l => cb_sender (callback l) <> c \/ is_cancelled st (token l) = true) ls ->
  delivered_to c arg st ls = [].
Proof.
  unfold delivered_to. induction 1 as [|l ls Hl _ IH]; [reflexivity|].
  cbn [flat_map]. rewrite IH, app_nil_r.
  destruct Hl as [Hne| ->]; [|reflexivity].
  destruct (is_cancelled st (token l)); [reflexivity|]. by rewrite decide_False.
Qed.

Lemma delivered_to_updates c arg st (ls : list Listener) :
  Forall (fun f => is_update (frame_type f) = true) (delivered_to c arg st ls).
Proof.
  unfold delivered_to. induction ls as [|l ls IH]; [constructor|].
  cbn [flat_map]. apply Forall_app. split; [|exact IH].
  destruct (is_cancelled st (token l)); [constructor|].
  destruct (decide (cb_sender (callback l) = c)); [|constructor].
  apply Forall_singleton. by destruct (callback l).
Qed.

Lemma deliver_connection c arg st l :
  connection (client (deliver arg st l) c) =
    connection (client st c) ++ delivered_to c arg st [l].
Proof.
  unfold delivered_to, deliver. cbn [flat_map]. rewrite app_nil_r.
  destruct (is_cancelled st (token l)); [by rewrite app_nil_r|].
  rewrite run_callback_frame. unfold sendMessage.
  destruct (decide (cb_sender (callback l) = c)) as [<-|Hne].
  - rewrite client_update_client_eq. cbn [connection]. by destruct (frame_of _ _).
  - rewrite client_update_client_ne by done. by rewrite app_nil_r.
Qed.

Lemma foldl_deliver_connection c arg (ls : list Listener) : forall st,
  connection (client (foldl (deliver arg) st ls) c) =
    connection (client st c) ++ delivered_to c arg st ls.
Proof.
  induction ls as [|l ls IH]; intros st; cbn [foldl].
  - unfold delivered_to. cbn. by rewrite app_nil_r.
  - rewrite IH, deliver_connection.
    destruct (deliver_frame arg st l) as (_ & Htok & _).
    rewrite (delivered_to_tokens c arg st _ ls Htok), <- app_assoc.
    unfold delivered_to. cbn [flat_map]. by rewrite app_nil_r.
Qed.

Lemma foldl_deliver_counters arg (ls : list Listener) : forall st,
  nextToken (foldl (deliver arg) st ls) = nextToken st /\
  nextClient (foldl (deliver arg) st ls) = nextClient st /\
  create_config (foldl (deliver arg) st ls) = create_config st /\
  log (foldl (deliver arg) st ls) = log st.
Proof.
  induction ls as [|l ls IH]; intros st; cbn [foldl]; [done|].
  destruct (IH (deliver arg st l)) as (-> & -> & -> & ->).
  unfold deliver. destruct (is_cancelled st (token l)); [done|].
  by destruct (callback l).
Qed.

(** What an emission of [arg] by source [r] does, from the state [st0] in
    which the source already holds its new value. *)
Lemma emit_effect r arg st0 c :
  connection (client (emit r arg st0) c) =
    connection (client st0 c) ++ delivered_to c arg st0 (listeners (the_source st0 r)) /\
  subscriptions (client (emit r arg st0) c) = subscriptions (client st0 c) /\
  timeSinceLastMessage (client (emit r arg st0) c) = timeSinceLastMessage (client st0 c) /\
  sources (emit r arg st0) = sources st0 /\
  tokens (emit r arg st0) = tokens st0 /\
  server (emit r arg st0) = server st0.
Proof.
  unfold emit.
  destruct (foldl_deliver_frame arg (listeners (the_source st0 r)) st0)
    as (Hsrc & Htok & Hsubs & _).
  split; [apply foldl_deliver_connection|]. split; [apply Hsubs|].
  split; [apply foldl_deliver_times|]. split; [exact Hsrc|]. split; [exact Htok|].
  apply foldl_deliver_server.
Qed.

(** What a push does: the source takes the value, its upstream side is
    handed the value, and the listeners are told it. *)
Lemma updateUpstream_effect r v st :
  upstream (the_source (updateUpstream r v st) r) = upstream (the_source st r) ++ [v] /\
  src_value (the_source (updateUpstream r v st) r) = v /\
  (forall r', listeners (the_source (updateUpstream r v st) r') =
              listeners (the_source st r')) /\
  (forall r', r' <> r -> the_source (updateUpstream r v st) r' = the_source st r') /\
  (forall c, connection (client (updateUpstream r v st) c) =
     connection (client st c) ++ delivered_to c v st (listeners (the_source st r))) /\
  (forall c, subscriptions (client (updateUpstream r v st) c) =
             subscriptions (client st c)) /\
  (forall c, timeSinceLastMessage (client (updateUpstream r v st) c) =
             timeSinceLastMessage (client st c)) /\
  server (updateUpstream r v st) = server st /\
  tokens (updateUpstream r v st) = tokens st.
Proof.
  unfold updateUpstream. set (st0 := update_source r _ st).
  destruct (emit_effect r v st0 0) as (_ & _ & _ & Hsrc & Htok & Hsrv).
  assert (Hr : the_source st0 r =
            {| src_value := v; listeners := listeners (the_source st r);
               upstream := upstream (the_source st r) ++ [v] |})
    by (unfold st0; by rewrite the_source_update_source_eq).
  rewrite !(the_source_sources st0 _ r Hsrc), Hr. cbn [upstream src_value].
  split; [reflexivity|]. split; [reflexivity|]. split.
  { intros r'. rewrite (the_source_sources st0 _ r' Hsrc).
    destruct (decide (r = r')) as [<-|Hne]; [by rewrite Hr|].
    unfold st0. by rewrite the_source_update_source_ne. }
  split.
  { intros r' Hne. rewrite (the_source_sources st0 _ r' Hsrc).
    unfold st0. by rewrite the_source_update_source_ne. }
  split.
  { intros c. destruct (emit_effect r v st0 c) as (-> & _). by rewrite Hr. }
  split; [intros c; by destruct (emit_effect r v st0 c) as (_ & -> & _)|].
  split; [intros c; by destruct (emit_effect r v st0 c) as (_ & _ & -> & _)|].
  split; [exact Hsrv | exact Htok].
Qed.

Lemma updateUpstream_counters r v st :
  nextToken (updateUpstream r v st) = nextToken st /\
  nextClient (updateUpstream r v st) = nextClient st /\
  create_config (updateUpstream r v st) = create_config st /\
  log (updateUpstream r v st) = log st.
Proof.
  unfold updateUpstream, emit. set (st0 := update_source r _ st).
  by destruct (foldl_deliver_counters v (listeners (the_source st0 r)) st0)
    as (-> & -> & -> & ->).
Qed.

(** X1.  An update of a scalar or duplex source, and a mutation of a
    collection, is forwarded to each session as exactly one frame for each
    of its listeners on that source whose token is not cancelled, in the order
    in which the listeners registered: [UPDATE_DATASOURCE],
    [UPDATE_DUPLEX_DATASOURCE] or [UPDATE_ARRAY_DATASOURCE] with the id the
    session subscribed under.  Nothing else changes for any session:
    subscription maps, timestamps, tokens, registries and the listeners of
    every source are as before. *)
Theorem update_fans_out (r : SourceRef) (v : value) (newData : list value) (change : obj)
    (st : State) (c : ClientRef) (r' : SourceRef) :
  (connection (client (update r v st) c) =
     connection (client st c) ++ delivered_to c v st (listeners (the_source st r)) /\
   subscriptions (client (update r v st) c) = subscriptions (client st c) /\
   timeSinceLastMessage (client (update r v st) c) = timeSinceLastMessage (client st c) /\
   listeners (the_source (update r v st) r') = listeners (the_source st r') /\
   tokens (update r v st) = tokens st /\
   server (update r v st) = server st /\
   src_value (the_source (update r v st) r) = v) /\
  (connection (client (ArrayDataSource_change r newData change st) c) =
     connection (client st c) ++
       delivered_to c (VObj change) st (listeners (the_source st r)) /\
   subscriptions (client (ArrayDataSource_change r newData change st) c) =
     subscriptions (client st c) /\
   timeSinceLastMessage (client (ArrayDataSource_change r newData change st) c) =
     timeSinceLastMessage (client st c) /\
   listeners (the_source (ArrayDataSource_change r newData change st) r') =
     listeners (the_source st r') /\
   tokens (ArrayDataSource_change r newData change st) = tokens st /\
   server (ArrayDataSource_change r newData change st) = server st /\
   getData (ArrayDataSource_change r newData change st) r = newData).
Proof.
  split.
  - unfold update. set (st0 := update_source r _ st).
    destruct (emit_effect r v st0 c) as (Hconn & Hsubs & Htime & Hsrc & Htok & Hsrv).
    assert (Hls : forall r1, listeners (the_source st0 r1) = listeners (the_source st r1)).
    { intros r1. unfold st0. destruct (decide (r = r1)) as [->|Hne].
      - by rewrite the_source_update_source_eq.
      - by rewrite the_source_update_source_ne. }
    rewrite Hconn, (Hls r), Hsubs, Htime, Htok, Hsrv,
      !(the_source_sources st0 _ _ Hsrc), (Hls r').
    repeat split. unfold st0. by rewrite the_source_update_source_eq.
  - unfold ArrayDataSource_change. set (st0 := update_source r _ st).
    destruct (emit_effect r (VObj change) st0 c)
      as (Hconn & Hsubs & Htime & Hsrc & Htok & Hsrv).
    assert (Hls : forall r1, listeners (the_source st0 r1) = listeners (the_source st r1)).
    { intros r1. unfold st0. destruct (decide (r = r1)) as [->|Hne].
      - by rewrite the_source_update_source_eq.
      - by rewrite the_source_update_source_ne. }
    unfold getData.
    rewrite Hconn, (Hls r), Hsubs, Htime, Htok, Hsrv,
      !(the_source_sources st0 _ _ Hsrc), (Hls r').
    repeat split. unfold st0. by rewrite the_source_update_source_eq.
Qed.

(** ** Writes to a duplex source *)

(** C5.  A write to a duplex source that is registered under the request's id:
    when the authenticator grants (token, write), the handler is exactly one
    [updateUpstream] call with the request's value - the source's upstream
    log grows by that one value and no other source is touched - and the
    handler sends no frame of its own: no subscription map changes, and the
    connection of each session grows by exactly the frames that its own live
    listeners on the source produce for the pushed value - frames of the
    update stream, never an acknowledgment or an error - so a requester
    without a live listener on the source is sent nothing; when the
    authenticator refuses, nothing is pushed (the sources are as before) and
    the only effect is one [UPDATE_DUPLEX_DATASOURCE_ERR] frame with error
    code 401 sent to the requester. *)
Theorem write_duplex_is_gated
    (message : value) (sender : ClientRef) (st : State)
    (key : string) (endpoint : Endpoint) :
  Map_get (exposedDuplexDataSources (server st)) (prop message "id") = Some (key, endpoint) ->
  if authenticator endpoint (prop message "token") Write then
    updateDuplexDataSource message sender st =
      updateUpstream (source endpoint) (prop message "value") st /\
    upstream (the_source (updateDuplexDataSource message sender st) (source endpoint)) =
      upstream (the_source st (source endpoint)) ++ [prop message "value"] /\
    (forall r, r <> source endpoint ->
       the_source (updateDuplexDataSource message sender st) r = the_source st r) /\
    (forall c, subscriptions (client (updateDuplexDataSource message sender st) c) =
               subscriptions (client st c)) /\
    (forall c, connection (client (updateDuplexDataSource message sender st) c) =
       connection (client st c) ++
         delivered_to c (prop message "value") st
           (listeners (the_source st (source endpoint))) /\
       Forall (fun f => is_update (frame_type f) = true)
         (delivered_to c (prop message "value") st
            (listeners (the_source st (source endpoint))))) /\
    (Forall (fun l => cb_sender (callback l) <> sender \/ is_cancelled st (token l) = true)
            (listeners (the_source st (source endpoint))) ->
     connection (client (updateDuplexDataSource message sender st) sender) =
       connection (client st sender))
  else
    sent_only sender
      [{| frame_type := UPDATE_DUPLEX_DATASOURCE_ERR;
          frame_payload := [("id", prop message "id"); ("errorCode", VNum 401);
                            ("error", VStr "Unauthorized")] |}]
      st (updateDuplexDataSource message sender st).
Proof.
  intros Hhit. unfold updateDuplexDataSource. rewrite Hhit.
  destruct (authenticator endpoint (prop message "token") Write).
  - destruct (updateUpstream_effect (source endpoint) (prop message "value") st)
      as (Hup & _ & _ & Hothers & Hconn & Hsubs & _).
    split; [reflexivity|]. split; [exact Hup|]. split; [exact Hothers|].
    split; [exact Hsubs|].
    split; [intros c; split; [apply Hconn | apply delivered_to_updates]|].
    intros Hquiet. by rewrite Hconn, (delivered_to_quiet _ _ _ _ Hquiet), app_nil_r.
  - apply error_answer.
Qed.

Lemma write_duplex_is_gated_witness :
  (exists endpoint,
     Map_get (exposedDuplexDataSources (server sample_state))
       (prop (write_request "knob" "t" (VNum 9)) "id") = Some ("knob", endpoint) /\
     authenticator endpoint (VStr "t") Write = true /\ source endpoint = 4) /\
  listeners (the_source sample_state 4) = [] /\
  upstream (the_source (updateDuplexDataSource (write_request "knob" "t" (VNum 9)) 0 sample_state) 4) =
    [VNum 9] /\
  connection (client (updateDuplexDataSource (write_request "knob" "t" (VNum 9)) 0 sample_state) 0) =
    connection (client sample_state 0) /\
  connection (client (updateDuplexDataSource (write_request "knob" "t" (VNum 9)) 0
                        knob_subscribed) 0) =
    [{| frame_type := UPDATE_DUPLEX_DATASOURCE;
        frame_payload := [("id", VStr "knob"); ("value", VNum 5)] |};
     {| frame_type := UPDATE_DUPLEX_DATASOURCE;
        frame_payload := [("id", VStr "knob"); ("value", VNum 9)] |}] /\
  (exists endpoint,
     Map_get (exposedDuplexDataSources (server sample_state))
       (prop (write_request "lock" "t" (VNum 9)) "id") = Some ("lock", endpoint) /\
     authenticator endpoint (VStr "t") Write = false) /\
  sent_only 0
    [{| frame_type := UPDATE_DUPLEX_DATASOURCE_ERR;
        frame_payload := [("id", VStr "lock"); ("errorCode", VNum 401);
                          ("error", VStr "Unauthorized")] |}]
    sample_state (updateDuplexDataSource (write_request "lock" "t" (VNum 9)) 0 sample_state).
Proof.
  pose (knob := {| source := 4; authenticator := allow_all |}).
  pose (lock := {| source := 5; authenticator := deny_all |}).
  assert (Hknob : Map_get (exposedDuplexDataSources (server sample_state))
            (prop (write_request "knob" "t" (VNum 9)) "id") = Some ("knob", knob))
    by (vm_compute; reflexivity).
  assert (Hknob' : Map_get (exposedDuplexDataSources (server knob_subscribed))
            (prop (write_request "knob" "t" (VNum 9)) "id") = Some ("knob", knob))
    by (vm_compute; reflexivity).
  assert (Hlock : Map_get (exposedDuplexDataSources (server sample_state))
            (prop (write_request "lock" "t" (VNum 9)) "id") = Some ("lock", lock))
    by (vm_compute; reflexivity).
  assert (Hempty : listeners (the_source sample_state 4) = [])
    by (vm_compute; reflexivity).
  assert (Hupstream : upstream (the_source sample_state 4) = [])
    by (vm_compute; reflexivity).
  assert (Hecho : connection (client knob_subscribed 0) ++
            delivered_to 0 (prop (write_request "knob" "t" (VNum 9)) "value") knob_subscribed
              (listeners (the_source knob_subscribed (source knob))) =
            [{| frame_type := UPDATE_DUPLEX_DATASOURCE;
                frame_payload := [("id", VStr "knob"); ("value", VNum 5)] |};
             {| frame_type := UPDATE_DUPLEX_DATASOURCE;
                frame_payload := [("id", VStr "knob"); ("value", VNum 9)] |}])
    by (vm_compute; reflexivity).
  pose proof (write_duplex_is_gated (write_request "knob" "t" (VNum 9)) 0 sample_state
                "knob" knob Hknob) as Hgrant.
  pose proof (write_duplex_is_gated (write_request "knob" "t" (VNum 9)) 0 knob_subscribed
                "knob" knob Hknob') as Hgrant'.
  pose proof (write_duplex_is_gated (write_request "lock" "t" (VNum 9)) 0 sample_state
                "lock" lock Hlock) as Hdeny.
  change (authenticator knob (prop (write_request "knob" "t" (VNum 9)) "token") Write)
    with true in Hgrant, Hgrant'.
  change (authenticator lock (prop (write_request "lock" "t" (VNum 9)) "token") Write)
    with false in Hdeny.
  cbv beta iota in Hgrant, Hgrant', Hdeny.
  destruct Hgrant as (_ & Hup & _ & _ & _ & Hquiet).
  destruct Hgrant' as (_ & _ & _ & _ & Hconn' & _).
  change (source knob) with 4 in Hup, Hquiet.
  rewrite Hupstream in Hup. rewrite Hempty in Hquiet.
  split; [exists knob; split; [exact Hknob|]; split; reflexivity|].
  split; [exact Hempty|]. split; [exact Hup|].
  split; [apply Hquiet; constructor|].
  split; [destruct (Hconn' 0) as [-> _]; exact Hecho|].
  split; [exists lock; split; [exact Hlock | reflexivity]|].
  exact Hdeny.
Defined.

(** ** The footprint of a client request *)

Lemma answered_nothing sender st : answered sender st st.
Proof.
  repeat split; try done.
  - exists []. split; [cbn; lia | by rewrite app_nil_r].
  - by left.
Qed.

Lemma answered_answer sender type payload st :
  answered sender st (sendMessage sender type payload st).
Proof.
  destruct (sendMessage_sent_only sender type payload st)
    as (Hsrv & Hsrc & Htok & Hnext & _ & Hsubs & _ & Hconn & Hothers).
  unfold answered. split; [exact Hsrv|]. split; [reflexivity|]. split; [reflexivity|].
  split; [intros c Hne; unfold sendMessage; by rewrite client_update_client_ne|].
  split; [eexists; split; [|exact Hconn]; cbn; lia|].
  left. split; [exact Hnext|]. split; [exact Htok|]. split; [apply Hsubs|].
  intros r. by rewrite (the_source_sources st _ r Hsrc).
Qed.

(** The state after [new CancellationToken()] and [subscriptions.set]. *)
Lemma stored_handle_client sender key st c :
  client (subscriptions_set sender key (nextToken st)
            (with_tokens (<[nextToken st := false]> (tokens st)) (S (nextToken st)) st)) c =
    if decide (sender = c)
    then {| subscriptions := <[key := nextToken st]> (subscriptions (client st c));
            timeSinceLastMessage := timeSinceLastMessage (client st c);
            connection := connection (client st c) |}
    else client st c.
Proof.
  unfold subscriptions_set. destruct (decide (sender = c)) as [->|Hne].
  - by rewrite client_update_client_eq.
  - by rewrite client_update_client_ne.
Qed.

Lemma answered_refusal sender key type payload st :
  answered sender st
    (sendMessage sender type payload
       (subscriptions_set sender key (nextToken st)
          (with_tokens (<[nextToken st := false]> (tokens st)) (S (nextToken st)) st))).
Proof.
  set (stS := subscriptions_set _ _ _ _).
  pose proof (stored_handle_client sender key st) as Hcl. fold stS in Hcl.
  unfold answered. split; [reflexivity|]. split; [reflexivity|]. split; [reflexivity|].
  split.
  { intros c Hne. unfold sendMessage. rewrite client_update_client_ne by done.
    rewrite Hcl. by rewrite decide_False. }
  split.
  { eexists [_]. split; [cbn; lia|]. unfold sendMessage.
    rewrite client_update_client_eq, Hcl, decide_True by done. reflexivity. }
  right. split; [reflexivity|]. split; [reflexivity|]. split.
  { exists key. unfold sendMessage.
    rewrite client_update_client_eq, Hcl, decide_True by done. reflexivity. }
  exists 0, []. split; [by left|]. intros r. rewrite app_nil_r.
  by destruct (decide (r = 0)).
Qed.

Lemma answered_subscribe sender key r cb (replay : option value) st :
  cb_sender cb = sender ->
  answered sender st
    (listen r cb (nextToken st)
       (match replay with
        | Some arg =>
            run_callback cb arg
              (subscriptions_set sender key (nextToken st)
                 (with_tokens (<[nextToken st := false]> (tokens st)) (S (nextToken st)) st))
        | None =>
            subscriptions_set sender key (nextToken st)
              (with_tokens (<[nextToken st := false]> (tokens st)) (S (nextToken st)) st)
        end)).
Proof.
  intros Hcb.
  set (stS := subscriptions_set _ _ _ _).
  pose proof (stored_handle_client sender key st) as Hcl. fold stS in Hcl.
  set (stR := match replay with Some arg => run_callback cb arg stS | None => stS end).
  assert (HR : server stR = server st /\ create_config stR = create_config st /\
               nextClient stR = nextClient st /\ nextToken stR = S (nextToken st) /\
               tokens stR = <[nextToken st := false]> (tokens st) /\
               sources stR = sources st /\
               (forall c, c <> sender -> client stR c = client st c) /\
               subscriptions (client stR sender) =
                 <[key := nextToken st]> (subscriptions (client st sender)) /\
               exists fs, length fs <= 1 /\
                 connection (client stR sender) = connection (client st sender) ++ fs).
  { unfold stR. destruct replay as [arg|].
    - rewrite run_callback_frame, Hcb. unfold sendMessage.
      repeat (split; [reflexivity|]).
      split; [intros c Hne; rewrite client_update_client_ne, Hcl by done;
              by rewrite decide_False|].
      rewrite client_update_client_eq, Hcl, decide_True by done. cbn.
      split; [reflexivity|]. eexists [_]. split; [cbn; lia | reflexivity].
    - repeat (split; [reflexivity|]).
      split; [intros c Hne; rewrite Hcl; by rewrite decide_False|].
      rewrite Hcl, decide_True by done. cbn.
      split; [reflexivity|]. exists []. split; [cbn; lia | by rewrite app_nil_r]. }
  destruct HR as (Hsrv & Hcfg & Hnc & Hnt & Htok & Hsrc & Hothers & Hsubs & Hfs).
  unfold answered, listen.
  change (client (update_source ?r1 ?f ?s) ?c) with (client s c).
  split; [exact Hsrv|]. split; [exact Hcfg|]. split; [exact Hnc|].
  split; [exact Hothers|]. split; [exact Hfs|].
  right. split; [exact Hnt|]. split; [exact Htok|]. split; [by exists key|].
  exists r, [{| callback := cb; token := nextToken st |}].
  split; [right; by exists cb|].
  intros r1. destruct (decide (r1 = r)) as [->|Hne].
  - rewrite the_source_update_source_eq. cbn [listeners].
    by rewrite (the_source_sources st stR r Hsrc).
  - rewrite the_source_update_source_ne by done.
    by rewrite (the_source_sources st stR r1 Hsrc).
Qed.

Lemma answered_listenDataSource message sender st :
  answered sender st (listenDataSource message sender st).
Proof.
  unfold listenDataSource.
  destruct (Map_get _ _) as [[key endpoint]|]; [|apply answered_answer].
  new_token_step. destruct (authenticator _ _ _); [|apply answered_refusal].
  unfold listenAndRepeat.
  set (stS := subscriptions_set _ _ _ _).
  change (the_source stS (source endpoint)) with (the_source st (source endpoint)).
  by apply (answered_subscribe sender key (source endpoint) _ (Some _)).
Qed.

Lemma answered_listenDuplexDataSource message sender st :
  answered sender st (listenDuplexDataSource message sender st).
Proof.
  unfold listenDuplexDataSource.
  destruct (Map_get _ _) as [[key endpoint]|]; [|apply answered_answer].
  new_token_step. destruct (authenticator _ _ _); [|apply answered_refusal].
  unfold listenAndRepeat.
  set (stS := subscriptions_set _ _ _ _).
  change (the_source stS (source endpoint)) with (the_source st (source endpoint)).
  by apply (answered_subscribe sender key (source endpoint) _ (Some _)).
Qed.

Lemma answered_listenArrayDataSource message sender st :
  answered sender st (listenArrayDataSource message sender st).
Proof.
  unfold listenArrayDataSource.
  destruct (Map_get _ _) as [[key endpoint]|]; [|apply answered_answer].
  new_token_step. destruct (authenticator _ _ _); [|apply answered_refusal].
  unfold ArrayDataSource_listenAndRepeat.
  set (stS := subscriptions_set _ _ _ _).
  change (getData stS (source endpoint)) with (getData st (source endpoint)).
  destruct (getData st (source endpoint)).
  - by apply (answered_subscribe sender key (source endpoint) _ None).
  - by apply (answered_subscribe sender key (source endpoint) _ (Some _)).
Qed.

Lemma pushed_updateUpstream sender r v st :
  pushed sender r v st (updateUpstream r v st).
Proof.
  destruct (updateUpstream_effect r v st)
    as (_ & _ & Hls & _ & Hconn & Hsubs & Htime & Hsrv & Htok).
  destruct (updateUpstream_counters r v st) as (Hnt & Hnc & Hcfg & _).
  unfold pushed. split; [exact Hsrv|]. split; [exact Hcfg|]. split; [exact Hnc|].
  split; [exact Hnt|]. split; [exact Htok|]. split; [exact Hsubs|].
  split; [intros c _; apply Htime|]. split; [exact Hconn | exact Hls].
Qed.

Lemma handled_updateDuplexDataSource message sender st :
  handled sender st (updateDuplexDataSource message sender st).
Proof.
  unfold updateDuplexDataSource.
  destruct (Map_get _ _) as [[key endpoint]|]; [|left; apply answered_answer].
  destruct (authenticator _ _ _); [|left; apply answered_answer].
  right. exists (source endpoint), (prop message "value"). apply pushed_updateUpstream.
Qed.

(** The timestamp assignment and the log touch nothing that [handled]
    observes. *)
Lemma answered_after_stamp sender now st st' :
  answered sender (set_timeSinceLastMessage sender now st) st' -> answered sender st st'.
Proof.
  unfold answered, set_timeSinceLastMessage.
  intros (Hsrv & Hcfg & Hnc & Hothers & Hfs & Hrest).
  split; [exact Hsrv|]. split; [exact Hcfg|]. split; [exact Hnc|].
  split; [intros c Hne; rewrite (Hothers c Hne); by rewrite client_update_client_ne|].
  rewrite client_update_client_eq in Hfs, Hrest. cbn in Hfs, Hrest.
  split; [exact Hfs|]. exact Hrest.
Qed.

Lemma pushed_after_stamp sender now r v st st' :
  pushed sender r v (set_timeSinceLastMessage sender now st) st' -> pushed sender r v st st'.
Proof.
  set (st0 := set_timeSinceLastMessage sender now st).
  assert (Hcl : forall c, subscriptions (client st0 c) = subscriptions (client st c) /\
                          connection (client st0 c) = connection (client st c)).
  { intros c. unfold st0, set_timeSinceLastMessage.
    destruct (decide (sender = c)) as [->|Hne].
    - by rewrite client_update_client_eq.
    - by rewrite client_update_client_ne. }
  intros (Hsrv & Hcfg & Hnc & Hnt & Htok & Hsubs & Htime & Hconn & Hls).
  unfold pushed.
  split; [exact Hsrv|]. split; [exact Hcfg|]. split; [exact Hnc|].
  split; [exact Hnt|]. split; [exact Htok|].
  split; [intros c; rewrite Hsubs; apply Hcl|].
  split.
  { intros c Hne. rewrite (Htime c Hne). unfold st0, set_timeSinceLastMessage.
    by rewrite client_update_client_ne. }
  split; [|exact Hls].
  intros c. rewrite Hconn. destruct (Hcl c) as [_ ->].
  change (the_source st0 r) with (the_source st r).
  by rewrite (delivered_to_tokens c v st st0).
Qed.

Lemma handled_after_stamp sender now st st' :
  handled sender (set_timeSinceLastMessage sender now st) st' -> handled sender st st'.
Proof.
  intros [H|(r & v & H)].
  - left. by apply (answered_after_stamp sender now).
  - right. exists r, v. by apply (pushed_after_stamp sender now).
Qed.


(** ** Ownership of tokens *)

Lemma processMessage_handled JSON_parse code sender data now st :
  handled sender st (processMessage JSON_parse code sender data now st).
Proof.
  destruct data as [text|]; [|left; apply answered_nothing].
  cbn [processMessage].
  destruct (length_ge text _);
    [left; destruct (onError _); exact (answered_nothing sender st)|].
  destruct (JSON_parse text) as [message|]; [|left; exact (answered_nothing sender st)].
  destruct (member message "type") as [type|]; [|left; exact (answered_nothing sender st)].
  apply (handled_after_stamp sender now).
  destruct (is_case code type LISTEN_DATASOURCE); [left; apply answered_listenDataSource|].
  destruct (is_case code type LISTEN_DUPLEX_DATASOURCE);
    [left; apply answered_listenDuplexDataSource|].
  destruct (is_case code type LISTEN_ARRAY_DATASOURCE);
    [left; apply answered_listenArrayDataSource|].
  destruct (is_case code type UPDATE_DUPLEX_DATASOURCE);
    [apply handled_updateDuplexDataSource | left; apply answered_nothing].
Qed.

Lemma client_create cfg c : client (create cfg) c = new_Client.
Proof. unfold client, create. cbn [clients]. by rewrite lookup_empty. Qed.

Lemma the_source_create cfg r : the_source (create cfg) r = new_Source.
Proof. unfold the_source, create. cbn [sources]. by rewrite lookup_empty. Qed.

Lemma owned_create cfg : tokens_owned (create cfg).
Proof.
  split; [|split].
  - intros c id t H. rewrite client_create in H. cbn [subscriptions new_Client] in H.
    by rewrite lookup_empty in H.
  - intros r l H. rewrite the_source_create in H. by apply elem_of_nil in H.
  - intros r l c id H. rewrite the_source_create in H. by apply elem_of_nil in H.
Qed.

(** Ownership survives every transition that creates no token, keeps the
    listeners and adds no entry to a subscription map. *)
Lemma owned_shrink st st' :
  nextToken st <= nextToken st' ->
  (forall r, listeners (the_source st' r) = listeners (the_source st r)) ->
  (forall c id t, subscriptions (client st' c) !! id = Some t ->
                  subscriptions (client st c) !! id = Some t) ->
  tokens_owned st -> tokens_owned st'.
Proof.
  intros Hnext Hls Hsubs (Hmap & Hlis & Hown). split; [|split].
  - intros c id t H. apply Hsubs, Hmap in H. lia.
  - intros r l H. rewrite Hls in H. apply Hlis in H. lia.
  - intros r l c id Hl H. rewrite Hls in Hl. apply Hsubs in H. by eapply Hown.
Qed.

Lemma owned_handled sender st st' :
  handled sender st st' -> tokens_owned st -> tokens_owned st'.
Proof.
  intros [(_ & _ & _ & Hothers & _ & Hcase)|(r & v & Hpush)] Hinv; cycle 1.
  { destruct Hpush as (_ & _ & _ & Hnt & _ & Hsubs & _ & _ & Hls).
    apply (owned_shrink st st'); [lia | exact Hls | | exact Hinv].
    intros c id t H. by rewrite Hsubs in H. }
  assert (Hsubs_other : forall c, c <> sender ->
            subscriptions (client st' c) = subscriptions (client st c))
    by (intros c Hne; by rewrite (Hothers c Hne)).
  destruct Hcase as [(Hnext & _ & Hsubs & Hls)|(Hnext & _ & (key & Hsubs) & r0 & news & Hnews & Hls)].
  - apply (owned_shrink st st'); [lia | exact Hls | | exact Hinv].
    intros c id t H. destruct (decide (c = sender)) as [->|Hne].
    + by rewrite Hsubs in H.
    + by rewrite (Hsubs_other c Hne) in H.
  - destruct Hinv as (Hmap & Hlis & Hown).
    assert (Hmap' : forall c id t, subscriptions (client st' c) !! id = Some t ->
              subscriptions (client st c) !! id = Some t \/ (c = sender /\ t = nextToken st)).
    { intros c id t H. destruct (decide (c = sender)) as [->|Hne].
      - rewrite Hsubs in H. destruct (decide (key = id)) as [->|Hk].
        + rewrite lookup_insert_eq in H. injection H as <-. by right.
        + rewrite lookup_insert_ne in H by done. by left.
      - rewrite (Hsubs_other c Hne) in H. by left. }
    assert (Hlis' : forall r l, l ∈ listeners (the_source st' r) ->
              l ∈ listeners (the_source st r) \/
              (cb_sender (callback l) = sender /\ token l = nextToken st)).
    { intros r l H. rewrite Hls in H. destruct (decide (r = r0)) as [->|Hr]; [|by left].
      apply elem_of_app in H as [H|H]; [by left|right].
      destruct Hnews as [->|(cb & Hcb & ->)]; [by apply elem_of_nil in H|].
      apply list_elem_of_singleton in H. by subst l. }
    split; [|split].
    + intros c id t H. destruct (Hmap' c id t H) as [Hold|[_ ->]]; [|lia].
      apply Hmap in Hold. lia.
    + intros r l H. destruct (Hlis' r l H) as [Hold|[_ Ht]]; [|lia].
      apply Hlis in Hold. lia.
    + intros r l c id Hl H.
      destruct (Hlis' r l Hl) as [Hold|[Hcb Ht]], (Hmap' c id _ H) as [Hmold|[-> Hmt]].
      * by eapply Hown.
      * apply Hlis in Hold. lia.
      * apply Hmap in Hmold. lia.
      * exact Hcb.
Qed.

Lemma foldr_cancel_exact (ts : list Token) (st : State) :
  nextToken (foldr CancellationToken_cancel st ts) = nextToken st /\
  nextClient (foldr CancellationToken_cancel st ts) = nextClient st /\
  create_config (foldr CancellationToken_cancel st ts) = create_config st /\
  log (foldr CancellationToken_cancel st ts) = log st /\
  forall t, is_cancelled (foldr CancellationToken_cancel st ts) t =
            is_cancelled st t || bool_decide (t ∈ ts).
Proof.
  induction ts as [|t0 ts (Hnt & Hnc & Hcfg & Hlog & Hcan)]; cbn [foldr].
  - repeat split. intros t. rewrite bool_decide_eq_false_2; [by rewrite orb_false_r|].
    apply not_elem_of_nil.
  - split; [exact Hnt|]. split; [exact Hnc|]. split; [exact Hcfg|]. split; [exact Hlog|].
    intros t. destruct (decide (t0 = t)) as [->|Hne].
    + rewrite (bool_decide_eq_true_2 (t ∈ t :: ts)) by (apply elem_of_cons; by left).
      rewrite orb_true_r. unfold is_cancelled, CancellationToken_cancel.
      cbn [tokens with_tokens]. rewrite lookup_insert_eq. by apply bool_decide_eq_true_2.
    + transitivity (is_cancelled (foldr CancellationToken_cancel st ts) t).
      { unfold is_cancelled, CancellationToken_cancel. cbn [tokens with_tokens].
        by rewrite lookup_insert_ne. }
      rewrite Hcan. f_equal. apply bool_decide_ext.
      rewrite elem_of_cons. split; [by right | by intros [->|Ht]].
Qed.

(** The close handler, observed: it cancels exactly the handles that the
    closing session's map holds, empties that map, and leaves sources, other
    client records and counters alone. *)
Lemma on_close_effect c st :
  sources (on_close c st) = sources st /\
  nextToken (on_close c st) = nextToken st /\
  nextClient (on_close c st) = nextClient st /\
  create_config (on_close c st) = create_config st /\
  (forall c', c' <> c -> client (on_close c st) c' = client st c') /\
  subscriptions (client (on_close c st) c) = ∅ /\
  timeSinceLastMessage (client (on_close c st) c) = timeSinceLastMessage (client st c) /\
  connection (client (on_close c st) c) = connection (client st c) /\
  (forall t, is_cancelled (on_close c st) t =
             is_cancelled st t || holds_token (subscriptions (client st c)) t).
Proof.
  unfold on_close. set (st0 := with_server _ st).
  assert (Hd : sources (dispose c st0) = sources st /\
               nextToken (dispose c st0) = nextToken st /\
               nextClient (dispose c st0) = nextClient st /\
               create_config (dispose c st0) = create_config st /\
               (forall c', c' <> c -> client (dispose c st0) c' = client st c') /\
               client (dispose c st0) c =
                 {| subscriptions := ∅;
                    timeSinceLastMessage := timeSinceLastMessage (client st c);
                    connection := connection (client st c) |} /\
               (forall t, is_cancelled (dispose c st0) t =
                          is_cancelled st t || holds_token (subscriptions (client st c)) t)).
  { unfold dispose.
    set (ts := (map_to_list (subscriptions (client st0 c))).*2).
    destruct (foldr_cancel_frame ts st0) as (Hsrc & Hcl & _).
    destruct (foldr_cancel_exact ts st0) as (Hnt & Hnc & Hcfg & _ & Hcan).
    assert (Hclient : forall c', client (foldr CancellationToken_cancel st0 ts) c' = client st c')
      by (intros c'; unfold client; by rewrite Hcl).
    split; [exact Hsrc|]. split; [exact Hnt|]. split; [exact Hnc|]. split; [exact Hcfg|].
    split; [intros c' Hne; by rewrite client_update_client_ne, Hclient|].
    split; [by rewrite client_update_client_eq, Hclient|].
    intros t.
    change (is_cancelled (update_client ?c' ?f ?s) t) with (is_cancelled s t).
    apply Hcan. }
  destruct Hd as (Hsrc & Hnt & Hnc & Hcfg & Hothers & Hself & Hcan).
  destruct (onClientDisconnected (create_config (dispose c st0)));
    [change (client (log_entry ?e ?s) ?x) with (client s x);
     change (is_cancelled (log_entry ?e ?s) ?t) with (is_cancelled s t)|];
    rewrite Hself; repeat split; assumption.
Qed.

Lemma owned_step JSON_parse code st e :
  tokens_owned st -> tokens_owned (step JSON_parse code st e).
Proof.
  intros Hinv. destruct e; cbn [step].
  - exact Hinv.
  - exact Hinv.
  - exact Hinv.
  - apply (owned_shrink st); [| | |exact Hinv].
    + unfold update, emit. by destruct (foldl_deliver_counters v
        (listeners (the_source (update_source src (fun s =>
           {| src_value := v; listeners := listeners s;
              upstream := upstream s |}) st) src))
        (update_source src (fun s =>
           {| src_value := v; listeners := listeners s;
              upstream := upstream s |}) st)) as (-> & _).
    + intros r. unfold update. set (st0 := update_source src _ st).
      destruct (emit_effect src v st0 0) as (_ & _ & _ & Hsrc & _).
      rewrite (the_source_sources st0 _ r Hsrc). unfold st0.
      destruct (decide (src = r)) as [->|Hne].
      * by rewrite the_source_update_source_eq.
      * by rewrite the_source_update_source_ne.
    + intros c id t H. unfold update in H. set (st0 := update_source src _ st) in H.
      destruct (emit_effect src v st0 c) as (_ & Hsubs & _). by rewrite Hsubs in H.
  - apply (owned_shrink st); [| | |exact Hinv].
    + unfold ArrayDataSource_change, emit. by destruct (foldl_deliver_counters (VObj change)
        (listeners (the_source (update_source src (fun s =>
           {| src_value := VArr newData; listeners := listeners s;
              upstream := upstream s |}) st) src))
        (update_source src (fun s =>
           {| src_value := VArr newData; listeners := listeners s;
              upstream := upstream s |}) st)) as (-> & _).
    + intros r. unfold ArrayDataSource_change. set (st0 := update_source src _ st).
      destruct (emit_effect src (VObj change) st0 0) as (_ & _ & _ & Hsrc & _).
      rewrite (the_source_sources st0 _ r Hsrc). unfold st0.
      destruct (decide (src = r)) as [->|Hne].
      * by rewrite the_source_update_source_eq.
      * by rewrite the_source_update_source_ne.
    + intros c id t H. unfold ArrayDataSource_change in H.
      set (st0 := update_source src _ st) in H.
      destruct (emit_effect src (VObj change) st0 c) as (_ & Hsubs & _).
      by rewrite Hsubs in H.
  - apply (owned_shrink st); [| | |exact Hinv].
    + unfold on_connection. by destruct (onClientConnected _).
    + intros r. unfold on_connection. by destruct (onClientConnected _).
    + intros c id t. unfold on_connection.
      assert (Hc : forall s', clients s' = <[nextClient st := new_Client]> (clients st) ->
                 subscriptions (client s' c) !! id = Some t ->
                 subscriptions (client st c) !! id = Some t).
      { intros s' Hcl. unfold client at 1. rewrite Hcl.
        destruct (decide (nextClient st = c)) as [->|Hne].
        - rewrite lookup_insert_eq. cbn. by rewrite lookup_empty.
        - by rewrite lookup_insert_ne. }
      destruct (onClientConnected _); by apply Hc.
  - eapply owned_handled; [|exact Hinv].
    apply processMessage_handled.
  - destruct (on_close_effect c st) as (Hsrc & Hnt & _ & _ & Hothers & Hself & _).
    apply (owned_shrink st); [lia | | | exact Hinv].
    + intros r. by rewrite (the_source_sources st _ r Hsrc).
    + intros c' id t H. destruct (decide (c' = c)) as [->|Hne].
      * rewrite Hself in H. by rewrite lookup_empty in H.
      * by rewrite (Hothers c' Hne) in H.
Qed.

Lemma owned_fold JSON_parse code (es : list Event) : forall st,
  tokens_owned st -> tokens_owned (foldl (step JSON_parse code) st es).
Proof.
  induction es as [|e es IH]; intros st Hinv; cbn [foldl]; [exact Hinv|].
  by apply IH, owned_step.
Qed.

(** X3.  In every state that the server reaches from [create], tokens are
    owned: a token found in a subscription map or on a listener was created by
    an earlier subscribe, and a token that a session's map holds is carried
    only by listeners that send to that same session - no session ever holds
    the handle of another session's subscription. *)
Theorem tokens_owned_invariant
    (JSON_parse : string -> option value) (code : RemoteProtocol -> Z)
    (cfg : AurumServerConfig) (es : list Event) :
  tokens_owned (run JSON_parse code cfg es).
Proof.
  unfold run. generalize (owned_create cfg). generalize (create cfg).
  induction es as [|e es IH]; intros st Hinv; cbn [foldl].
  - exact Hinv.
  - apply IH. by apply owned_step.
Qed.

(** ** Sessions are independent *)

Lemma delivered_to_ext c arg st st' (ls : list Listener) :
  (forall l, l ∈ ls -> cb_sender (callback l) = c ->
             is_cancelled st' (token l) = is_cancelled st (token l)) ->
  delivered_to c arg st' ls = delivered_to c arg st ls.
Proof.
  unfold delivered_to. induction ls as [|l ls IH]; intros Hsame; [reflexivity|].
  cbn [flat_map]. rewrite IH by (intros l' Hl'; apply Hsame; by right).
  f_equal. destruct (decide (cb_sender (callback l) = c)) as [Heq|Hne].
  - rewrite (Hsame l); [reflexivity | by left | exact Heq].
  - by destruct (is_cancelled st' (token l)), (is_cancelled st (token l)).
Qed.

Lemma update_connection r v st c :
  connection (client (update r v st) c) =
    connection (client st c) ++ delivered_to c v st (listeners (the_source st r)).
Proof.
  unfold update. set (st0 := update_source r _ st).
  destruct (emit_effect r v st0 c) as (-> & _).
  unfold st0 at 3. rewrite the_source_update_source_eq. reflexivity.
Qed.

Lemma ArrayDataSource_change_connection r newData change st c :
  connection (client (ArrayDataSource_change r newData change st) c) =
    connection (client st c) ++
      delivered_to c (VObj change) st (listeners (the_source st r)).
Proof.
  unfold ArrayDataSource_change. set (st0 := update_source r _ st).
  destruct (emit_effect r (VObj change) st0 c) as (-> & _).
  unfold st0 at 3. rewrite the_source_update_source_eq. reflexivity.
Qed.

Lemma holds_token_lookup (m : gmap string Token) t :
  holds_token m t = true <-> exists id, m !! id = Some t.
Proof.
  unfold holds_token. rewrite bool_decide_eq_true, list_elem_of_fmap. split.
  - intros ([id t'] & -> & Hin). exists id. by apply elem_of_map_to_list.
  - intros [id Hid]. exists (id, t). split; [done|]. by apply elem_of_map_to_list.
Qed.

(** In a state where tokens are owned, the close of one session changes
    nothing in what an emission delivers to another. *)
Lemma close_spares_deliveries c1 c2 arg st r :
  tokens_owned st -> c1 <> c2 ->
  delivered_to c2 arg (on_close c1 st) (listeners (the_source (on_close c1 st) r)) =
  delivered_to c2 arg st (listeners (the_source st r)).
Proof.
  intros (_ & _ & Hown) Hne.
  destruct (on_close_effect c1 st) as (Hsrc & _ & _ & _ & _ & _ & _ & _ & Hcan).
  rewrite (the_source_sources st _ r Hsrc).
  apply delivered_to_ext. intros l Hl Hcb. rewrite Hcan.
  destruct (holds_token (subscriptions (client st c1)) (token l)) eqn:Hheld;
    [|by rewrite orb_false_r].
  apply holds_token_lookup in Hheld as [id Hid].
  pose proof (Hown r l c1 id Hl Hid). congruence.
Qed.

(** X4.  In every reachable state, closing the connection of one session
    changes nothing for any other session: its record is untouched, and each
    later update of a scalar source or mutation of a collection sends it
    exactly the frames it would have received without the close. *)
Theorem close_spares_other_sessions
    (JSON_parse : string -> option value) (code : RemoteProtocol -> Z)
    (cfg : AurumServerConfig) (es : list Event)
    (c1 c2 : ClientRef) (r : SourceRef) (v : value) (newData : list value) (change : obj) :
  c1 <> c2 ->
  client (on_close c1 (run JSON_parse code cfg es)) c2 =
    client (run JSON_parse code cfg es) c2 /\
  connection (client (update r v (on_close c1 (run JSON_parse code cfg es))) c2) =
    connection (client (update r v (run JSON_parse code cfg es)) c2) /\
  connection (client (ArrayDataSource_change r newData change
                        (on_close c1 (run JSON_parse code cfg es))) c2) =
    connection (client (ArrayDataSource_change r newData change
                          (run JSON_parse code cfg es)) c2).
Proof.
  intros Hne.
  pose proof (owned_fold JSON_parse code es (create cfg) (owned_create cfg)) as Hinv.
  fold (run JSON_parse code cfg es) in Hinv.
  destruct (on_close_effect c1 (run JSON_parse code cfg es)) as (_ & _ & _ & _ & Hothers & _).
  assert (Hc2 : client (on_close c1 (run JSON_parse code cfg es)) c2 =
                client (run JSON_parse code cfg es) c2) by (apply Hothers; congruence).
  split; [exact Hc2|]. split.
  - rewrite !update_connection, Hc2.
    by rewrite (close_spares_deliveries c1 c2 v _ r Hinv Hne).
  - rewrite !ArrayDataSource_change_connection, Hc2.
    by rewrite (close_spares_deliveries c1 c2 (VObj change) _ r Hinv Hne).
Qed.

Lemma close_spares_other_sessions_witness :
  0 <> 1 /\
  connection (client two_sessions_state 1) = [update_frame (VStr "temperature") (VNum 20)] /\
  connection (client (update 0 (VNum 21) (on_close 0 two_sessions_state)) 1) =
    connection (client (update 0 (VNum 21) two_sessions_state) 1) /\
  connection (client (update 0 (VNum 21) two_sessions_state) 1) =
    [update_frame (VStr "temperature") (VNum 20);
     update_frame (VStr "temperature") (VNum 21)].
Proof.
  assert (Hne : 0 <> 1) by discriminate.
  destruct (close_spares_other_sessions JSON_parse_sample sample_code default_config
              two_sessions 0 1 0 (VNum 21) [] [] Hne) as (_ & Hupd & _).
  split; [exact Hne|]. split; [vm_compute; reflexivity|].
  split; [exact Hupd|]. vm_compute; reflexivity.
Defined.

(** ** Unsubscribing *)

Lemma update_keeps r v st :
  tokens (update r v st) = tokens st /\
  forall r', listeners (the_source (update r v st) r') = listeners (the_source st r').
Proof.
  unfold update. set (st0 := update_source r _ st).
  destruct (emit_effect r v st0 0) as (_ & _ & _ & Hsrc & Htok & _).
  split; [exact Htok|]. intros r'. rewrite (the_source_sources st0 _ r' Hsrc).
  unfold st0. destruct (decide (r = r')) as [->|Hne].
  - by rewrite the_source_update_source_eq.
  - by rewrite the_source_update_source_ne.
Qed.

(** A session none of whose listeners on a source is live hears nothing of
    that source's updates. *)
Lemma updates_quiet c r (vs : list value) : forall st,
  Forall (fun l => cb_sender (callback l) <> c \/ is_cancelled st (token l) = true)
         (listeners (the_source st r)) ->
  connection (client (updates r vs st) c) = connection (client st c).
Proof.
  unfold updates. induction vs as [|v vs IH]; intros st Hquiet; cbn [foldl]; [reflexivity|].
  destruct (update_keeps r v st) as [Htok Hls].
  rewrite IH.
  - by rewrite update_connection, (delivered_to_quiet c v st _ Hquiet), app_nil_r.
  - rewrite (Hls r). eapply Forall_impl; [exact Hquiet|].
    intros l [?|Hc]; [by left|right]. by rewrite (is_cancelled_tokens st _ _ Htok).
Qed.

Lemma unsubscribe_found sender message st url t :
  Map_get (subscriptions (client st sender)) (prop message "url") = Some (url, t) ->
  cancelSubscriptionToExposedSource sender message st =
    update_client sender (fun c =>
      {| subscriptions := delete url (subscriptions c);
         timeSinceLastMessage := timeSinceLastMessage c;
         connection := connection c |}) (CancellationToken_cancel t st).
Proof. intros Hfound. unfold cancelSubscriptionToExposedSource. by rewrite Hfound. Qed.

(** X5.  Unsubscribing is idempotent: a second
    [cancelSubscriptionToExposedSource] with the same message leaves the state
    exactly as the first one left it, whether or not the session held a handle
    under the message's [url]. *)
Theorem unsubscribe_idempotent (sender : ClientRef) (message : value) (st : State) :
  cancelSubscriptionToExposedSource sender message
    (cancelSubscriptionToExposedSource sender message st) =
  cancelSubscriptionToExposedSource sender message st.
Proof.
  destruct (Map_get (subscriptions (client st sender)) (prop message "url"))
    as [[url t]|] eqn:Hfound.
  - rewrite (unsubscribe_found sender message st url t Hfound).
    apply Map_get_Some in Hfound as [Hurl _].
    unfold cancelSubscriptionToExposedSource at 1.
    rewrite client_update_client_eq, Hurl. cbn [subscriptions Map_get].
    by rewrite lookup_delete_eq.
  - unfold cancelSubscriptionToExposedSource. rewrite Hfound. cbn. by rewrite Hfound.
Qed.

(** X6.  A granted scalar subscribe of a session that had no listener on the
    source, followed by an unsubscribe whose [url] is the subscribed id: the
    session has received its one frame with the current value, the entry the
    subscribe stored is gone from its map, the handle is cancelled, and no
    later update of the source sends the session anything. *)
Theorem subscribe_then_unsubscribe
    (message unsub : value) (sender : ClientRef) (st : State)
    (key : string) (endpoint : Endpoint) (vs : list value) :
  Map_get (exposedDataSources (server st)) (prop message "id") = Some (key, endpoint) ->
  authenticator endpoint (prop message "token") Read = true ->
  Forall (fun l => cb_sender (callback l) <> sender)
         (listeners (the_source st (source endpoint))) ->
  prop unsub "url" = prop message "id" ->
  subscriptions (client (cancelSubscriptionToExposedSource sender unsub
                           (listenDataSource message sender st)) sender) =
    delete key (subscriptions (client st sender)) /\
  is_cancelled (cancelSubscriptionToExposedSource sender unsub
                  (listenDataSource message sender st)) (nextToken st) = true /\
  connection (client (updates (source endpoint) vs
                        (cancelSubscriptionToExposedSource sender unsub
                           (listenDataSource message sender st))) sender) =
    connection (client st sender) ++
      [update_frame (prop message "id") (src_value (the_source st (source endpoint)))].
Proof.
  intros Hhit Hauth Hnone Hurl.
  destruct (listenDataSource_granted message sender st key endpoint Hhit Hauth Hnone)
    as ((others & Hls & Hothers & _) & Hconn & Hsubs).
  set (st1 := listenDataSource message sender st) in *.
  assert (Hfound : Map_get (subscriptions (client st1 sender)) (prop unsub "url") =
                   Some (key, nextToken st)).
  { rewrite Hurl. apply Map_get_Some in Hhit as [-> _]. cbn [Map_get].
    by rewrite Hsubs, lookup_insert_eq. }
  rewrite (unsubscribe_found sender unsub st1 key (nextToken st) Hfound).
  set (st2 := update_client sender _ _).
  assert (Hcan : forall t, is_cancelled st2 t =
                           is_cancelled st1 t || bool_decide (t = nextToken st)).
  { intros t. unfold st2, is_cancelled, CancellationToken_cancel.
    cbn [update_client with_clients tokens with_tokens].
    destruct (decide (t = nextToken st)) as [->|Hne].
    - rewrite lookup_insert_eq, (bool_decide_eq_true_2 (nextToken st = nextToken st)) by done.
      rewrite orb_true_r. by apply bool_decide_eq_true_2.
    - rewrite lookup_insert_ne, (bool_decide_eq_false_2 (t = nextToken st)) by done.
      by rewrite orb_false_r. }
  split; [|split].
  - unfold st2. rewrite client_update_client_eq. cbn [subscriptions].
    change (client (CancellationToken_cancel ?t ?s) ?c) with (client s c).
    by rewrite Hsubs, delete_insert_eq.
  - rewrite Hcan, (bool_decide_eq_true_2 (nextToken st = nextToken st)) by done.
    by rewrite orb_true_r.
  - rewrite updates_quiet.
    + unfold st2. rewrite client_update_client_eq. cbn [connection].
      change (client (CancellationToken_cancel ?t ?s) ?c) with (client s c).
      exact Hconn.
    + change (the_source st2 (source endpoint)) with (the_source st1 (source endpoint)).
      rewrite Hls. apply Forall_app. split.
      * eapply Forall_impl; [exact Hothers|]. intros l [?|Hc]; [by left|right].
        by rewrite Hcan, Hc.
      * apply Forall_singleton. right. cbn [token].
        rewrite Hcan, (bool_decide_eq_true_2 (nextToken st = nextToken st)) by done.
        by rewrite orb_true_r.
Qed.

Lemma subscribe_then_unsubscribe_witness :
  Map_get (exposedDataSources (server sample_state)) (prop (request "temperature" "t") "id") =
    Some ("temperature", {| source := 0; authenticator := allow_all |}) /\
  allow_all (prop (request "temperature" "t") "token") Read = true /\
  listeners (the_source sample_state 0) = [] /\
  prop (unsubscribe_request "temperature") "url" = prop (request "temperature" "t") "id" /\
  subscriptions (client (cancelSubscriptionToExposedSource 0 (unsubscribe_request "temperature")
                           (listenDataSource (request "temperature" "t") 0 sample_state)) 0) =
    delete "temperature" (subscriptions (client sample_state 0)) /\
  connection (client (updates 0 [VNum 21; VNum 22]
                        (cancelSubscriptionToExposedSource 0 (unsubscribe_request "temperature")
                           (listenDataSource (request "temperature" "t") 0 sample_state))) 0) =
    connection (client sample_state 0) ++
      [update_frame (VStr "temperature") (src_value (the_source sample_state 0))].
Proof.
  pose (temp := {| source := 0; authenticator := allow_all |}).
  assert (Hhit : Map_get (exposedDataSources (server sample_state))
            (prop (request "temperature" "t") "id") = Some ("temperature", temp))
    by (vm_compute; reflexivity).
  assert (Hempty : listeners (the_source sample_state 0) = [])
    by (vm_compute; reflexivity).
  assert (Hnone : Forall (fun l => cb_sender (callback l) <> 0)
                    (listeners (the_source sample_state (source temp))))
    by (cbn [source temp]; rewrite Hempty; constructor).
  assert (Hurl : prop (unsubscribe_request "temperature") "url" =
                 prop (request "temperature" "t") "id") by reflexivity.
  destruct (subscribe_then_unsubscribe (request "temperature" "t")
              (unsubscribe_request "temperature") 0 sample_state "temperature" temp
              [VNum 21; VNum 22] Hhit eq_refl Hnone Hurl) as (Hsubs & _ & Hconn).
  split; [exact Hhit|]. split; [reflexivity|].
  split; [exact Hempty|]. split; [exact Hurl|]. split; [exact Hsubs | exact Hconn].
Defined.

(** ** Exposing sources *)

Lemma run_callback_with_server s cb arg st :
  run_callback cb arg (with_server s st) = with_server s (run_callback cb arg st).
Proof. by destruct cb. Qed.

Lemma listenAndRepeat_with_server s r cb t st :
  listenAndRepeat r cb t (with_server s st) = with_server s (listenAndRepeat r cb t st).
Proof.
  unfold listenAndRepeat.
  change (the_source (with_server s st) r) with (the_source st r).
  by rewrite run_callback_with_server.
Qed.

Lemma ArrayDataSource_listenAndRepeat_with_server s r cb t st :
  ArrayDataSource_listenAndRepeat r cb t (with_server s st) =
  with_server s (ArrayDataSource_listenAndRepeat r cb t st).
Proof.
  unfold ArrayDataSource_listenAndRepeat.
  change (getData (with_server s st) r) with (getData st r).
  destruct (getData st r); [reflexivity | by rewrite run_callback_with_server].
Qed.

Lemma foldl_deliver_with_server s arg (ls : list Listener) : forall st,
  foldl (deliver arg) (with_server s st) ls = with_server s (foldl (deliver arg) st ls).
Proof.
  induction ls as [|l ls IH]; intros st; cbn [foldl]; [reflexivity|].
  rewrite <- IH. f_equal. unfold deliver.
  change (is_cancelled (with_server s st) (token l)) with (is_cancelled st (token l)).
  destruct (is_cancelled st (token l)); [reflexivity | apply run_callback_with_server].
Qed.

Lemma update_with_server s r v st :
  update r v (with_server s st) = with_server s (update r v st).
Proof.
  unfold update, emit.
  change (update_source r ?f (with_server s st)) with (with_server s (update_source r f st)).
  change (the_source (with_server s ?x) r) with (the_source x r).
  apply foldl_deliver_with_server.
Qed.

Lemma ArrayDataSource_change_with_server s r newData change st :
  ArrayDataSource_change r newData change (with_server s st) =
  with_server s (ArrayDataSource_change r newData change st).
Proof.
  unfold ArrayDataSource_change, emit.
  change (update_source r ?f (with_server s st)) with (with_server s (update_source r f st)).
  change (the_source (with_server s ?x) r) with (the_source x r).
  apply foldl_deliver_with_server.
Qed.

Lemma updateUpstream_with_server s r v st :
  updateUpstream r v (with_server s st) = with_server s (updateUpstream r v st).
Proof.
  unfold updateUpstream, emit.
  change (update_source r ?f (with_server s st)) with (with_server s (update_source r f st)).
  change (the_source (with_server s ?x) r) with (the_source x r).
  apply foldl_deliver_with_server.
Qed.

(** A handler reads the server only through the registry entry of its kind
    under the message's id. *)
Lemma listenDataSource_with_server s message sender st :
  Map_get (exposedDataSources s) (prop message "id") =
    Map_get (exposedDataSources (server st)) (prop message "id") ->
  listenDataSource message sender (with_server s st) =
    with_server s (listenDataSource message sender st).
Proof.
  intros Hsame. unfold listenDataSource. change (server (with_server s st)) with s. rewrite Hsame. clear Hsame.
  destruct (Map_get _ _) as [[key endpoint]|]; [|reflexivity].
  new_token_step. destruct (authenticator _ _ _); [|reflexivity].
  rewrite <- listenAndRepeat_with_server. reflexivity.
Qed.

Lemma listenDuplexDataSource_with_server s message sender st :
  Map_get (exposedDuplexDataSources s) (prop message "id") =
    Map_get (exposedDuplexDataSources (server st)) (prop message "id") ->
  listenDuplexDataSource message sender (with_server s st) =
    with_server s (listenDuplexDataSource message sender st).
Proof.
  intros Hsame. unfold listenDuplexDataSource. change (server (with_server s st)) with s. rewrite Hsame. clear Hsame.
  destruct (Map_get _ _) as [[key endpoint]|]; [|reflexivity].
  new_token_step. destruct (authenticator _ _ _); [|reflexivity].
  rewrite <- listenAndRepeat_with_server. reflexivity.
Qed.

Lemma listenArrayDataSource_with_server s message sender st :
  Map_get (exposedArrayDataSources s) (prop message "id") =
    Map_get (exposedArrayDataSources (server st)) (prop message "id") ->
  listenArrayDataSource message sender (with_server s st) =
    with_server s (listenArrayDataSource message sender st).
Proof.
  intros Hsame. unfold listenArrayDataSource. change (server (with_server s st)) with s. rewrite Hsame. clear Hsame.
  destruct (Map_get _ _) as [[key endpoint]|]; [|reflexivity].
  new_token_step. destruct (authenticator _ _ _); [|reflexivity].
  rewrite <- ArrayDataSource_listenAndRepeat_with_server. reflexivity.
Qed.

Lemma updateDuplexDataSource_with_server s message sender st :
  Map_get (exposedDuplexDataSources s) (prop message "id") =
    Map_get (exposedDuplexDataSources (server st)) (prop message "id") ->
  updateDuplexDataSource message sender (with_server s st) =
    with_server s (updateDuplexDataSource message sender st).
Proof.
  intros Hsame. unfold updateDuplexDataSource. change (server (with_server s st)) with s. rewrite Hsame. clear Hsame.
  destruct (Map_get _ _) as [[key endpoint]|]; [|reflexivity].
  destruct (authenticator _ _ _); [|reflexivity].
  apply updateUpstream_with_server.
Qed.

Lemma Map_get_insert_other {V : Type} (m : gmap string V) id e key :
  key <> VStr id -> Map_get (<[id := e]> m) key = Map_get m key.
Proof.
  intros Hne. destruct key; try reflexivity. cbn [Map_get].
  rewrite lookup_insert_ne; [reflexivity | congruence].
Qed.

Lemma server_update r v st : server (update r v st) = server st.
Proof. unfold update, emit. by rewrite foldl_deliver_server. Qed.

Lemma server_ArrayDataSource_change r newData change st :
  server (ArrayDataSource_change r newData change st) = server st.
Proof. unfold ArrayDataSource_change, emit. by rewrite foldl_deliver_server. Qed.

(** X7.  Exposing an id in one registry changes the handling of no request
    except those of that kind that name that id: the handlers of the other
    two kinds, and the handler of the same kind on a message with another id,
    do exactly what they did before (the expose and the request commute).
    This holds for [exposeDataSource], [exposeArrayDataSource] and
    [exposeDuplexDataSource]; the duplex registry serves both the duplex
    subscribe and the duplex write. *)
Theorem expose_leaves_other_requests
    (id : string) (src : SourceRef) (a : option Authenticator)
    (message : value) (sender : ClientRef) (st : State) :
  ((prop message "id" <> VStr id ->
    listenDataSource message sender (exposeDataSource id src a st) =
      exposeDataSource id src a (listenDataSource message sender st)) /\
   listenArrayDataSource message sender (exposeDataSource id src a st) =
     exposeDataSource id src a (listenArrayDataSource message sender st) /\
   listenDuplexDataSource message sender (exposeDataSource id src a st) =
     exposeDataSource id src a (listenDuplexDataSource message sender st) /\
   updateDuplexDataSource message sender (exposeDataSource id src a st) =
     exposeDataSource id src a (updateDuplexDataSource message sender st)) /\
  (listenDataSource message sender (exposeArrayDataSource id src a st) =
     exposeArrayDataSource id src a (listenDataSource message sender st) /\
   (prop message "id" <> VStr id ->
    listenArrayDataSource message sender (exposeArrayDataSource id src a st) =
      exposeArrayDataSource id src a (listenArrayDataSource message sender st)) /\
   listenDuplexDataSource message sender (exposeArrayDataSource id src a st) =
     exposeArrayDataSource id src a (listenDuplexDataSource message sender st) /\
   updateDuplexDataSource message sender (exposeArrayDataSource id src a st) =
     exposeArrayDataSource id src a (updateDuplexDataSource message sender st)) /\
  (listenDataSource message sender (exposeDuplexDataSource id src a st) =
     exposeDuplexDataSource id src a (listenDataSource message sender st) /\
   listenArrayDataSource message sender (exposeDuplexDataSource id src a st) =
     exposeDuplexDataSource id src a (listenArrayDataSource message sender st) /\
   (prop message "id" <> VStr id ->
    listenDuplexDataSource message sender (exposeDuplexDataSource id src a st) =
      exposeDuplexDataSource id src a (listenDuplexDataSource message sender st)) /\
   (prop message "id" <> VStr id ->
    updateDuplexDataSource message sender (exposeDuplexDataSource id src a st) =
      exposeDuplexDataSource id src a (updateDuplexDataSource message sender st))).
Proof.
  unfold exposeDataSource, exposeArrayDataSource, exposeDuplexDataSource.
  rewrite !server_listenDataSource, !server_listenArrayDataSource,
    !server_listenDuplexDataSource, !server_updateDuplexDataSource.
  split; [|split].
  - split; [intros Hne; apply listenDataSource_with_server;
            cbn [exposedDataSources with_exposedDataSources];
            by apply Map_get_insert_other|].
    split; [by apply listenArrayDataSource_with_server|].
    split; [by apply listenDuplexDataSource_with_server|].
    by apply updateDuplexDataSource_with_server.
  - split; [by apply listenDataSource_with_server|].
    split; [intros Hne; apply listenArrayDataSource_with_server;
            cbn [exposedArrayDataSources with_exposedArrayDataSources];
            by apply Map_get_insert_other|].
    split; [by apply listenDuplexDataSource_with_server|].
    by apply updateDuplexDataSource_with_server.
  - split; [by apply listenDataSource_with_server|].
    split; [by apply listenArrayDataSource_with_server|].
    split; intros Hne;
      [apply listenDuplexDataSource_with_server | apply updateDuplexDataSource_with_server];
      cbn [exposedDuplexDataSources with_exposedDuplexDataSources];
      by apply Map_get_insert_other.
Qed.

Lemma expose_leaves_other_requests_witness :
  prop (request "temperature" "t") "id" <> VStr "pressure" /\
  listenDataSource (request "temperature" "t") 0
      (exposeDataSource "pressure" 6 (Some deny_all) sample_state) =
    exposeDataSource "pressure" 6 (Some deny_all)
      (listenDataSource (request "temperature" "t") 0 sample_state) /\
  connection (client (listenDataSource (request "temperature" "t") 0
                        (exposeDataSource "pressure" 6 (Some deny_all) sample_state)) 0) =
    [update_frame (VStr "temperature") (VNum 20)].
Proof.
  assert (Hne : prop (request "temperature" "t") "id" <> VStr "pressure") by discriminate.
  destruct (expose_leaves_other_requests "pressure" 6 (Some deny_all)
              (request "temperature" "t") 0 sample_state) as ((Hscalar & _) & _).
  split; [exact Hne|]. split; [exact (Hscalar Hne)|]. vm_compute; reflexivity.
Defined.

(** X8.  Re-exposing an id replaces the entry: after two exposes of one id
    in one registry the state is exactly the state after the second alone
    (last write wins, no trace of the first source or authenticator). *)
Theorem expose_last_write_wins
    (id : string) (src1 src2 : SourceRef) (a1 a2 : option Authenticator) (st : State) :
  exposeDataSource id src2 a2 (exposeDataSource id src1 a1 st) =
    exposeDataSource id src2 a2 st /\
  exposeArrayDataSource id src2 a2 (exposeArrayDataSource id src1 a1 st) =
    exposeArrayDataSource id src2 a2 st /\
  exposeDuplexDataSource id src2 a2 (exposeDuplexDataSource id src1 a1 st) =
    exposeDuplexDataSource id src2 a2 st.
Proof.
  unfold exposeDataSource, exposeArrayDataSource, exposeDuplexDataSource.
  cbn [server with_server exposedDataSources exposedArrayDataSources
       exposedDuplexDataSources with_exposedDataSources with_exposedArrayDataSources
       with_exposedDuplexDataSources].
  rewrite !insert_insert_eq. repeat split.
Qed.

(** X9.  Exposing never disturbs a subscription that exists: an expose (a
    first one, or one that replaces the entry or its authenticator) commutes
    with every update of a source and every mutation of a collection, so the
    sessions that listen to a source keep receiving from it, whatever the
    registry says afterwards. *)
Theorem expose_commutes_with_updates
    (id : string) (src : SourceRef) (a : option Authenticator)
    (r : SourceRef) (v : value) (newData : list value) (change : obj) (st : State) :
  (update r v (exposeDataSource id src a st) = exposeDataSource id src a (update r v st) /\
   update r v (exposeArrayDataSource id src a st) =
     exposeArrayDataSource id src a (update r v st) /\
   update r v (exposeDuplexDataSource id src a st) =
     exposeDuplexDataSource id src a (update r v st)) /\
  (ArrayDataSource_change r newData change (exposeDataSource id src a st) =
     exposeDataSource id src a (ArrayDataSource_change r newData change st) /\
   ArrayDataSource_change r newData change (exposeArrayDataSource id src a st) =
     exposeArrayDataSource id src a (ArrayDataSource_change r newData change st) /\
   ArrayDataSource_change r newData change (exposeDuplexDataSource id src a st) =
     exposeDuplexDataSource id src a (ArrayDataSource_change r newData change st)).
Proof.
  unfold exposeDataSource, exposeArrayDataSource, exposeDuplexDataSource.
  rewrite !server_update, !server_ArrayDataSource_change.
  split.
  - repeat split; apply update_with_server.
  - repeat split; apply ArrayDataSource_change_with_server.
Qed.

(** ** The list of live clients *)

Lemma indexOf_None (l : list ClientRef) c : indexOf l c = None <-> c ∉ l.
Proof.
  induction l as [|x l IH]; cbn [indexOf].
  - split; [intros _; apply not_elem_of_nil | done].
  - destruct (decide (x = c)) as [->|Hne].
    + split; [discriminate|]. intros Hnot. exfalso. apply Hnot. by left.
    + rewrite not_elem_of_cons, <- IH. destruct (indexOf l c); cbn.
      * split; [discriminate | intros [_ ?]; discriminate].
      * split; [intros _; split; congruence | done].
Qed.

Lemma removelast_sublist (l : list ClientRef) : removelast l `sublist_of` l.
Proof.
  induction l as [|x l IH]; [constructor|].
  cbn [removelast]. destruct l as [|y l]; [by apply sublist_nil_l|].
  by constructor.
Qed.

Lemma splice_indexOf_sublist (l : list ClientRef) c : splice_indexOf l c `sublist_of` l.
Proof.
  unfold splice_indexOf. destruct (indexOf l c); [apply sublist_delete | apply removelast_sublist].
Qed.

Lemma splice_indexOf_missing (l : list ClientRef) c :
  c ∉ l -> splice_indexOf l c = removelast l.
Proof. intros Hnot. unfold splice_indexOf. by rewrite (proj2 (indexOf_None l c) Hnot). Qed.

Lemma filter_other_id (l : list ClientRef) c : c ∉ l -> filter (fun x => x <> c) l = l.
Proof.
  induction l as [|x l IH]; [reflexivity|].
  rewrite not_elem_of_cons. intros [Hne Hnot].
  rewrite filter_cons_True by congruence. by rewrite IH.
Qed.

Lemma splice_indexOf_listed (l : list ClientRef) c :
  NoDup l -> c ∈ l -> splice_indexOf l c = filter (fun x => x <> c) l.
Proof.
  unfold splice_indexOf. induction l as [|x l IH]; intros Hnd Hin.
  - by apply elem_of_nil in Hin.
  - apply NoDup_cons in Hnd as [Hx Hnd]. cbn [indexOf].
    destruct (decide (x = c)) as [->|Hne].
    + rewrite filter_cons_False by (intros H; by apply H).
      by rewrite filter_other_id.
    + apply elem_of_cons in Hin as [->|Hin]; [done|].
      specialize (IH Hnd Hin).
      rewrite filter_cons_True by done.
      destruct (indexOf l c) as [i|] eqn:Hi.
      * rewrite <- IH. reflexivity.
      * apply indexOf_None in Hi. done.
Qed.

Lemma getClients_on_close c st :
  getClients (on_close c st) = splice_indexOf (getClients st) c.
Proof.
  unfold getClients, on_close. set (st0 := with_server _ st).
  destruct (dispose_frame c st0) as (_ & Hsrv & _).
  destruct (onClientDisconnected _);
    [change (server (log_entry ?e ?s)) with (server s)|]; by rewrite Hsrv.
Qed.

Lemma log_on_close c st :
  log (on_close c st) =
    log st ++ (if onClientDisconnected (create_config st)
               then [HookClientDisconnected c] else []).
Proof.
  unfold on_close. set (st0 := with_server _ st).
  assert (Hlog : log (dispose c st0) = log st /\
                 create_config (dispose c st0) = create_config st).
  { unfold dispose.
    destruct (foldr_cancel_exact ((map_to_list (subscriptions (client st0 c))).*2) st0)
      as (_ & _ & Hcfg & Hlog & _).
    split; [exact Hlog | exact Hcfg]. }
  destruct Hlog as [Hlog Hcfg]. rewrite Hcfg.
  destruct (onClientDisconnected (create_config st)).
  - unfold log_entry. cbn [log with_log]. by rewrite Hlog.
  - by rewrite Hlog, app_nil_r.
Qed.

Lemma on_connection_effect st :
  getClients (on_connection st) = getClients st ++ [nextClient st] /\
  nextClient (on_connection st) = S (nextClient st) /\
  client (on_connection st) (nextClient st) = new_Client /\
  (forall c, c <> nextClient st -> client (on_connection st) c = client st c) /\
  create_config (on_connection st) = create_config st /\
  log (on_connection st) =
    log st ++ (if onClientConnected (create_config st)
               then [HookClientConnected (nextClient st)] else []).
Proof.
  unfold on_connection, getClients.
  destruct (onClientConnected (create_config st)) eqn:Hhook; cbn; rewrite Hhook; cbn.
  - repeat split.
    + unfold client. cbn. by rewrite lookup_insert_eq.
    + intros c Hne. unfold client. cbn. by rewrite lookup_insert_ne.
  - repeat split.
    + unfold client. cbn. by rewrite lookup_insert_eq.
    + intros c Hne. unfold client. cbn. by rewrite lookup_insert_ne.
    + by rewrite app_nil_r.
Qed.

Lemma fresh_create cfg : clients_fresh (create cfg).
Proof. split; constructor. Qed.

Lemma fresh_same st st' :
  server st' = server st -> nextClient st' = nextClient st ->
  clients_fresh st -> clients_fresh st'.
Proof. unfold clients_fresh, getClients. by intros -> ->. Qed.

Lemma fresh_step JSON_parse code st e :
  clients_fresh st -> clients_fresh (step JSON_parse code st e).
Proof.
  intros Hinv. destruct e; cbn [step]; try exact Hinv.
  - apply (fresh_same st); [apply server_update | | exact Hinv].
    unfold update, emit. by destruct (foldl_deliver_counters v
      (listeners (the_source (update_source src (fun s =>
         {| src_value := v; listeners := listeners s;
            upstream := upstream s |}) st) src))
      (update_source src (fun s =>
         {| src_value := v; listeners := listeners s;
            upstream := upstream s |}) st)) as (_ & -> & _).
  - apply (fresh_same st); [apply server_ArrayDataSource_change | | exact Hinv].
    unfold ArrayDataSource_change, emit. by destruct (foldl_deliver_counters (VObj change)
      (listeners (the_source (update_source src (fun s =>
         {| src_value := VArr newData; listeners := listeners s;
            upstream := upstream s |}) st) src))
      (update_source src (fun s =>
         {| src_value := VArr newData; listeners := listeners s;
            upstream := upstream s |}) st)) as (_ & -> & _).
  - destruct Hinv as [Hnd Hlt].
    destruct (on_connection_effect st) as (Hlist & Hnext & _).
    unfold clients_fresh. rewrite Hlist, Hnext. split.
    + apply NoDup_app. split; [exact Hnd|]. split; [|apply NoDup_singleton].
      intros c Hc Hc'. apply list_elem_of_singleton in Hc'. subst c.
      rewrite Forall_forall in Hlt. specialize (Hlt _ Hc). lia.
    + apply Forall_app. split; [|apply Forall_singleton; lia].
      eapply Forall_impl; [exact Hlt|]. intros c Hc. cbn in Hc. lia.
  - destruct (processMessage_handled JSON_parse code sender data now st)
      as [(Hsrv & _ & Hnc & _)|(r & v & Hsrv & _ & Hnc & _)];
      by apply (fresh_same st).
  - destruct Hinv as [Hnd Hlt].
    destruct (on_close_effect c st) as (_ & _ & Hnc & _).
    unfold clients_fresh. rewrite getClients_on_close, Hnc.
    pose proof (splice_indexOf_sublist (getClients st) c) as Hsub. split.
    + by eapply sublist_NoDup.
    + apply Forall_forall. intros x Hx. rewrite Forall_forall in Hlt.
      apply Hlt. by eapply elem_of_sublist.
Qed.

(** X10.  In every reachable state the list that [getClients] returns names
    no client twice, and names only clients that have connected. *)
Theorem live_list_has_no_duplicates
    (JSON_parse : string -> option value) (code : RemoteProtocol -> Z)
    (cfg : AurumServerConfig) (es : list Event) :
  clients_fresh (run JSON_parse code cfg es).
Proof.
  unfold run. generalize (fresh_create cfg). generalize (create cfg).
  induction es as [|e es IH]; intros st Hinv; cbn [foldl].
  - exact Hinv.
  - apply IH. by apply fresh_step.
Qed.

Lemma server_on_close c st :
  server (on_close c st) =
    with_wsServerClients (splice_indexOf (getClients st) c) (server st).
Proof.
  unfold on_close. set (st0 := with_server _ st).
  destruct (dispose_frame c st0) as (_ & Hsrv & _).
  destruct (onClientDisconnected _);
    [change (server (log_entry ?e ?s)) with (server s)|]; by rewrite Hsrv.
Qed.

(** X11.  What the close handler does for a client that is in the live list
    (a list without duplicates): exactly that client leaves the list, the
    others keep their order; its subscription map is emptied and exactly the
    handles the map held are cancelled; registries and sources are untouched;
    the disconnect hook is called once, if the application supplied one. *)
Theorem close_removes_the_session (c : ClientRef) (st : State) :
  NoDup (getClients st) -> c ∈ getClients st ->
  getClients (on_close c st) = filter (fun x => x <> c) (getClients st) /\
  (c ∉ getClients (on_close c st)) /\
  subscriptions (client (on_close c st) c) = ∅ /\
  (forall t, is_cancelled (on_close c st) t =
             is_cancelled st t || holds_token (subscriptions (client st c)) t) /\
  exposedDataSources (server (on_close c st)) = exposedDataSources (server st) /\
  exposedArrayDataSources (server (on_close c st)) = exposedArrayDataSources (server st) /\
  exposedDuplexDataSources (server (on_close c st)) = exposedDuplexDataSources (server st) /\
  sources (on_close c st) = sources st /\
  log (on_close c st) =
    log st ++ (if onClientDisconnected (create_config st)
               then [HookClientDisconnected c] else []).
Proof.
  intros Hnd Hin.
  destruct (on_close_effect c st) as (Hsrc & _ & _ & _ & _ & Hsubs & _ & _ & Hcan).
  assert (Hlist : getClients (on_close c st) = filter (fun x => x <> c) (getClients st))
    by (rewrite getClients_on_close; by apply splice_indexOf_listed).
  split; [exact Hlist|].
  split; [rewrite Hlist; intros Hc; apply list_elem_of_filter in Hc as [Hc _]; by apply Hc|].
  split; [exact Hsubs|]. split; [exact Hcan|].
  rewrite server_on_close.
  split; [reflexivity|]. split; [reflexivity|]. split; [reflexivity|].
  split; [exact Hsrc | apply log_on_close].
Qed.

Lemma close_removes_the_session_witness :
  getClients two_sessions_state = [0; 1] /\
  subscriptions (client two_sessions_state 0) = {[ "temperature" := 0 ]} /\
  getClients (on_close 0 two_sessions_state) =
    filter (fun x => x <> 0) (getClients two_sessions_state) /\
  getClients (on_close 0 two_sessions_state) = [1] /\
  subscriptions (client (on_close 0 two_sessions_state) 0) = ∅ /\
  is_cancelled (on_close 0 two_sessions_state) 0 = true /\
  is_cancelled (on_close 0 two_sessions_state) 1 = false.
Proof.
  assert (Hlist : getClients two_sessions_state = [0; 1]) by (vm_compute; reflexivity).
  assert (Hnd : NoDup (getClients two_sessions_state)).
  { rewrite Hlist. apply NoDup_cons. split; [|apply NoDup_singleton].
    intros H. apply list_elem_of_singleton in H. discriminate. }
  assert (Hin : 0 ∈ getClients two_sessions_state) by (rewrite Hlist; by left).
  destruct (close_removes_the_session 0 two_sessions_state Hnd Hin)
    as (Hfilter & _ & Hsubs & _).
  split; [exact Hlist|]. split; [vm_compute; reflexivity|]. split; [exact Hfilter|].
  split; [vm_compute; reflexivity|]. split; [exact Hsubs|].
  split; vm_compute; reflexivity.
Defined.

(** X12.  A second close event for the same client finds it absent from the
    list: [indexOf] answers -1 and [splice(-1, 1)] removes the last element,
    so after the two closes the list has lost the client and also whoever was
    last among the others. *)
Theorem second_close_removes_last (c : ClientRef) (st : State) :
  NoDup (getClients st) -> c ∈ getClients st ->
  getClients (on_close c (on_close c st)) =
    removelast (filter (fun x => x <> c) (getClients st)).
Proof.
  intros Hnd Hin.
  rewrite !getClients_on_close, (splice_indexOf_listed _ c Hnd Hin).
  apply splice_indexOf_missing.
  intros Hc. apply list_elem_of_filter in Hc as [Hc _]. by apply Hc.
Qed.

Lemma second_close_removes_last_witness :
  getClients two_sessions_state = [0; 1] /\
  getClients (on_close 0 (on_close 0 two_sessions_state)) =
    removelast (filter (fun x => x <> 0) (getClients two_sessions_state)) /\
  getClients (on_close 0 (on_close 0 two_sessions_state)) = [].
Proof.
  assert (Hlist : getClients two_sessions_state = [0; 1]) by (vm_compute; reflexivity).
  assert (Hnd : NoDup (getClients two_sessions_state)).
  { rewrite Hlist. apply NoDup_cons. split; [|apply NoDup_singleton].
    intros H. apply list_elem_of_singleton in H. discriminate. }
  assert (Hin : 0 ∈ getClients two_sessions_state) by (rewrite Hlist; by left).
  split; [exact Hlist|].
  split; [exact (second_close_removes_last 0 two_sessions_state Hnd Hin)|].
  vm_compute; reflexivity.
Defined.

(** X13.  A connection followed by its close, from a state whose live list is
    duplicate-free and below the client counter: the new client gets the next
    reference and a fresh record (no subscription, no timestamp, nothing
    sent), the list is back to what it was, no other client record has
    changed, and the connect and disconnect hooks were called once each, in
    that order, if supplied. *)
Theorem connect_then_close (st : State) :
  clients_fresh st ->
  client (on_connection st) (nextClient st) = new_Client /\
  getClients (on_connection st) = getClients st ++ [nextClient st] /\
  getClients (on_close (nextClient st) (on_connection st)) = getClients st /\
  (forall c, c <> nextClient st ->
     client (on_close (nextClient st) (on_connection st)) c = client st c) /\
  log (on_close (nextClient st) (on_connection st)) =
    log st ++
    (if onClientConnected (create_config st)
     then [HookClientConnected (nextClient st)] else []) ++
    (if onClientDisconnected (create_config st)
     then [HookClientDisconnected (nextClient st)] else []).
Proof.
  intros [Hnd Hlt].
  destruct (on_connection_effect st) as (Hlist & _ & Hnew & Hothers & Hcfg & Hlog).
  assert (Hfresh : nextClient st ∉ getClients st).
  { intros Hin. rewrite Forall_forall in Hlt. specialize (Hlt _ Hin). lia. }
  split; [exact Hnew|]. split; [exact Hlist|]. split; [|split].
  - rewrite getClients_on_close, Hlist, splice_indexOf_listed.
    + rewrite filter_app, (filter_other_id _ _ Hfresh).
      rewrite filter_cons_False by (intros H; by apply H).
      by rewrite filter_nil, app_nil_r.
    + apply NoDup_app. split; [exact Hnd|]. split; [|apply NoDup_singleton].
      intros c Hc Hc'. apply list_elem_of_singleton in Hc'. by subst c.
    + apply elem_of_app. right. by apply list_elem_of_singleton.
  - intros c Hne.
    destruct (on_close_effect (nextClient st) (on_connection st)) as (_ & _ & _ & _ & Hoth & _).
    by rewrite (Hoth c Hne), (Hothers c Hne).
  - by rewrite log_on_close, Hcfg, Hlog, <- app_assoc.
Qed.

Lemma connect_then_close_witness :
  getClients two_sessions_state = [0; 1] /\
  nextClient two_sessions_state = 2 /\
  getClients (on_connection two_sessions_state) = getClients two_sessions_state ++ [2] /\
  getClients (on_close 2 (on_connection two_sessions_state)) = getClients two_sessions_state.
Proof.
  assert (Hlist : getClients two_sessions_state = [0; 1]) by (vm_compute; reflexivity).
  assert (Hnext : nextClient two_sessions_state = 2) by (vm_compute; reflexivity).
  assert (Hfresh : clients_fresh two_sessions_state).
  { unfold clients_fresh. rewrite Hlist, Hnext. split.
    - apply NoDup_cons. split; [|apply NoDup_singleton].
      intros H. apply list_elem_of_singleton in H. discriminate.
    - repeat constructor. }
  destruct (connect_then_close two_sessions_state Hfresh) as (_ & Hconn & Hback & _).
  rewrite Hnext in Hconn, Hback.
  split; [exact Hlist|]. split; [exact Hnext|]. split; [exact Hconn | exact Hback].
Defined.

(** ** Dispatch of a frame, end to end *)

Lemma sample_code_injective (p q : RemoteProtocol) : sample_code p = sample_code q -> p = q.
Proof. destruct p, q; cbn; intros H; first [reflexivity | discriminate H]. Qed.

(** X14.  Dispatch of a text frame.  When the protocol numbers are pairwise
    distinct, a text frame shorter than the limit whose text parses to a
    message with [type] the number of a protocol member sets the session's
    timestamp and then runs exactly the handler of that member:
    [listenDataSource], [listenDuplexDataSource], [listenArrayDataSource] or
    [updateDuplexDataSource] for the four request kinds, and nothing more
    than the timestamp for every other member (a heartbeat or any answer
    kind). *)
Theorem frame_dispatch JSON_parse code sender text now st message kind :
  (forall p q, code p = code q -> p = q) ->
  length_ge text (maxMessageSize (config (server st))) = false ->
  JSON_parse text = Some message ->
  member message "type" = Some (VNum (code kind)) ->
  processMessage JSON_parse code sender (DataString text) now st =
    match kind with
    | LISTEN_DATASOURCE =>
        listenDataSource message sender (set_timeSinceLastMessage sender now st)
    | LISTEN_DUPLEX_DATASOURCE =>
        listenDuplexDataSource message sender (set_timeSinceLastMessage sender now st)
    | LISTEN_ARRAY_DATASOURCE =>
        listenArrayDataSource message sender (set_timeSinceLastMessage sender now st)
    | UPDATE_DUPLEX_DATASOURCE =>
        updateDuplexDataSource message sender (set_timeSinceLastMessage sender now st)
    | _ => set_timeSinceLastMessage sender now st
    end.
Proof.
  intros Hinj Hsize Hparse Htype.
  unfold processMessage. rewrite Hsize, Hparse, Htype. unfold is_case.
  destruct kind;
    repeat match goal with
           | |- context [(code ?p =? code ?p)%Z] => rewrite (Z.eqb_refl (code p))
           | |- context [(code ?p =? code ?q)%Z] =>
               destruct (Z.eqb_spec (code p) (code q)) as [E|_];
               [apply Hinj in E; discriminate E|]
           end;
    reflexivity.
Qed.

Lemma frame_dispatch_witness :
  (forall p q, sample_code p = sample_code q -> p = q) /\
  length_ge subscribe_text (maxMessageSize (config (server default_state))) = false /\
  JSON_parse_sample subscribe_text =
    Some (VObj [("type", VNum 1); ("id", VStr "temperature"); ("token", VStr "t")]) /\
  member (VObj [("type", VNum 1); ("id", VStr "temperature"); ("token", VStr "t")]) "type" =
    Some (VNum (sample_code LISTEN_DATASOURCE)) /\
  processMessage JSON_parse_sample sample_code 0 (DataString subscribe_text) 100 default_state =
    listenDataSource (VObj [("type", VNum 1); ("id", VStr "temperature"); ("token", VStr "t")])
      0 (set_timeSinceLastMessage 0 100 default_state) /\
  length_ge heartbeat_text (maxMessageSize (config (server default_state))) = false /\
  JSON_parse_sample heartbeat_text = Some (VObj [("type", VNum 0)]) /\
  processMessage JSON_parse_sample sample_code 0 (DataString heartbeat_text) 100 default_state =
    set_timeSinceLastMessage 0 100 default_state.
Proof.
  assert (H1 : length_ge subscribe_text (maxMessageSize (config (server default_state))) = false)
    by (vm_compute; reflexivity).
  assert (H2 : JSON_parse_sample subscribe_text =
    Some (VObj [("type", VNum 1); ("id", VStr "temperature"); ("token", VStr "t")]))
    by (vm_compute; reflexivity).
  assert (H3 : member (VObj [("type", VNum 1); ("id", VStr "temperature");
                             ("token", VStr "t")]) "type" =
               Some (VNum (sample_code LISTEN_DATASOURCE))) by reflexivity.
  assert (H4 : length_ge heartbeat_text (maxMessageSize (config (server default_state))) = false)
    by (vm_compute; reflexivity).
  assert (H5 : JSON_parse_sample heartbeat_text = Some (VObj [("type", VNum 0)]))
    by (vm_compute; reflexivity).
  assert (H6 : member (VObj [("type", VNum 0)]) "type" = Some (VNum (sample_code HEARTBEAT)))
    by reflexivity.
  split; [exact sample_code_injective|].
  split; [exact H1|]. split; [exact H2|]. split; [exact H3|].
  split; [exact (frame_dispatch JSON_parse_sample sample_code 0 subscribe_text 100
                   default_state _ LISTEN_DATASOURCE sample_code_injective H1 H2 H3)|].
  split; [exact H4|]. split; [exact H5|].
  exact (frame_dispatch JSON_parse_sample sample_code 0 heartbeat_text 100
           default_state _ HEARTBEAT sample_code_injective H4 H5 H6).
Defined.

(** ** class [Router] *)

(** X15.  The three registries of a [Router] are separate name spaces with
    last-write-wins entries: a get after an expose of the same kind finds the
    exposed source under the exposed id (with the default authenticator for an
    omitted one in [exposeDataSource], with the authenticator as given in the
    other two) and finds what it found before under every other id; gets of
    the other two kinds are unaffected; an expose over an existing id leaves
    the router as the second expose alone would; a new router finds
    nothing. *)
Theorem router_expose_get
    (id id' : string) (src src' : SourceRef) (a a' : option Authenticator)
    (r : Router.Router) :
  (Router.getExposedDataSource (Router.exposeDataSource id src a r) id' =
     (if decide (id = id')
      then Some {| Router.source := src; Router.authenticator := Some (default allow_all a) |}
      else Router.getExposedDataSource r id') /\
   Router.getExposedArrayDataSource (Router.exposeDataSource id src a r) id' =
     Router.getExposedArrayDataSource r id' /\
   Router.getExposedDuplexDataSource (Router.exposeDataSource id src a r) id' =
     Router.getExposedDuplexDataSource r id' /\
   Router.exposeDataSource id src' a' (Router.exposeDataSource id src a r) =
     Router.exposeDataSource id src' a' r) /\
  (Router.getExposedArrayDataSource (Router.exposeArrayDataSource id src a r) id' =
     (if decide (id = id')
      then Some {| Router.source := src; Router.authenticator := a |}
      else Router.getExposedArrayDataSource r id') /\
   Router.getExposedDataSource (Router.exposeArrayDataSource id src a r) id' =
     Router.getExposedDataSource r id' /\
   Router.getExposedDuplexDataSource (Router.exposeArrayDataSource id src a r) id' =
     Router.getExposedDuplexDataSource r id' /\
   Router.exposeArrayDataSource id src' a' (Router.exposeArrayDataSource id src a r) =
     Router.exposeArrayDataSource id src' a' r) /\
  (Router.getExposedDuplexDataSource (Router.exposeDuplexDataSource id src a r) id' =
     (if decide (id = id')
      then Some {| Router.source := src; Router.authenticator := a |}
      else Router.getExposedDuplexDataSource r id') /\
   Router.getExposedDataSource (Router.exposeDuplexDataSource id src a r) id' =
     Router.getExposedDataSource r id' /\
   Router.getExposedArrayDataSource (Router.exposeDuplexDataSource id src a r) id' =
     Router.getExposedArrayDataSource r id' /\
   Router.exposeDuplexDataSource id src' a' (Router.exposeDuplexDataSource id src a r) =
     Router.exposeDuplexDataSource id src' a' r) /\
  (Router.getExposedDataSource Router.new_Router id' = None /\
   Router.getExposedArrayDataSource Router.new_Router id' = None /\
   Router.getExposedDuplexDataSource Router.new_Router id' = None).
Proof.
  unfold Router.getExposedDataSource, Router.getExposedArrayDataSource,
    Router.getExposedDuplexDataSource, Router.exposeDataSource,
    Router.exposeArrayDataSource, Router.exposeDuplexDataSource, Router.new_Router.
  cbn [Router.exposedDataSources Router.exposedArrayDataSources
       Router.exposedDuplexDataSources].
  rewrite !lookup_insert, !insert_insert_eq, !lookup_empty.
  split; [|split; [|split]]; repeat split.
Qed.

(** ** Read and write permission on a duplex source *)

(** X16.  The two requests on a duplex source ask the entry's authenticator
    about different operations: the subscribe about (token, read), the write
    about (token, write).  With a token that may read and not write, the
    subscribe attaches a live listener for the requester while the write is
    answered with the 401 frame and pushes nothing; with a token that may
    write and not read, the subscribe is answered with the 401 frame and
    attaches no listener while the write is pushed upstream and answered by
    no frame of its own: each session is sent exactly what its live
    listeners on the source produce for the pushed value. *)
Theorem duplex_operations_are_separate
    (message : value) (sender : ClientRef) (st : State)
    (key : string) (endpoint : Endpoint) :
  Map_get (exposedDuplexDataSources (server st)) (prop message "id") = Some (key, endpoint) ->
  (authenticator endpoint (prop message "token") Read = true ->
   authenticator endpoint (prop message "token") Write = false ->
   listeners (the_source (listenDuplexDataSource message sender st) (source endpoint)) =
     listeners (the_source st (source endpoint)) ++
       [{| callback := OnDuplexValue sender (prop message "id"); token := nextToken st |}] /\
   is_cancelled (listenDuplexDataSource message sender st) (nextToken st) = false /\
   sources (updateDuplexDataSource message sender st) = sources st /\
   connection (client (updateDuplexDataSource message sender st) sender) =
     connection (client st sender) ++
       [{| frame_type := UPDATE_DUPLEX_DATASOURCE_ERR;
           frame_payload := error_payload (prop message "id") 401 "Unauthorized" |}]) /\
  (authenticator endpoint (prop message "token") Read = false ->
   authenticator endpoint (prop message "token") Write = true ->
   (forall r, listeners (the_source (listenDuplexDataSource message sender st) r) =
              listeners (the_source st r)) /\
   connection (client (listenDuplexDataSource message sender st) sender) =
     connection (client st sender) ++
       [{| frame_type := LISTEN_DUPLEX_DATASOURCE_ERR;
           frame_payload := error_payload (prop message "id") 401 "Unauthorized" |}] /\
   upstream (the_source (updateDuplexDataSource message sender st) (source endpoint)) =
     upstream (the_source st (source endpoint)) ++ [prop message "value"] /\
   (forall c, connection (client (updateDuplexDataSource message sender st) c) =
      connection (client st c) ++
        delivered_to c (prop message "value") st
          (listeners (the_source st (source endpoint))))).
Proof.
  intros Hhit. split; intros Hread Hwrite.
  - split; [|split; [|split]].
    + unfold listenDuplexDataSource. rewrite Hhit. new_token_step. rewrite Hread.
      unfold listenAndRepeat.
      set (stS := subscriptions_set sender key (nextToken st) _).
      change (the_source stS (source endpoint)) with (the_source st (source endpoint)).
      unfold listen. rewrite the_source_update_source_eq. reflexivity.
    + unfold listenDuplexDataSource. rewrite Hhit. new_token_step. rewrite Hread.
      unfold listenAndRepeat.
      set (stS := subscriptions_set sender key (nextToken st) _).
      change (the_source stS (source endpoint)) with (the_source st (source endpoint)).
      by apply (fresh_token_live st).
    + unfold updateDuplexDataSource. rewrite Hhit, Hwrite. reflexivity.
    + unfold updateDuplexDataSource. rewrite Hhit, Hwrite.
      unfold sendMessage. by rewrite client_update_client_eq.
  - destruct (listenDuplexDataSource_denied message sender st key endpoint Hhit Hread)
      as (Hconn & Hsources & _).
    split; [|split; [exact Hconn|]].
    + intros r. unfold the_source. by rewrite Hsources.
    + unfold updateDuplexDataSource. rewrite Hhit, Hwrite.
      destruct (updateUpstream_effect (source endpoint) (prop message "value") st)
        as (Hup & _ & _ & _ & Hclients & _).
      split; [exact Hup | exact Hclients].
Qed.

Lemma duplex_operations_are_separate_witness :
  (exists endpoint,
     Map_get (exposedDuplexDataSources (server gated_state))
       (prop (write_request "dial" "t" (VNum 9)) "id") = Some ("dial", endpoint) /\
     source endpoint = 6 /\
     authenticator endpoint (VStr "t") Read = true /\
     authenticator endpoint (VStr "t") Write = false) /\
  listeners (the_source (listenDuplexDataSource (write_request "dial" "t" (VNum 9)) 0
                           gated_state) 6) =
    [{| callback := OnDuplexValue 0 (VStr "dial"); token := nextToken gated_state |}] /\
  sources (updateDuplexDataSource (write_request "dial" "t" (VNum 9)) 0 gated_state) =
    sources gated_state /\
  (exists endpoint,
     Map_get (exposedDuplexDataSources (server gated_state))
       (prop (write_request "inbox" "t" (VNum 9)) "id") = Some ("inbox", endpoint) /\
     source endpoint = 7 /\
     authenticator endpoint (VStr "t") Read = false /\
     authenticator endpoint (VStr "t") Write = true) /\
  listeners (the_source (listenDuplexDataSource (write_request "inbox" "t" (VNum 9)) 0
                           gated_state) 7) = [] /\
  upstream (the_source (updateDuplexDataSource (write_request "inbox" "t" (VNum 9)) 0
                          gated_state) 7) = [VNum 9].
Proof.
  set (dial := {| source := 6; authenticator := read_only |}).
  set (inbox := {| source := 7; authenticator := write_only |}).
  assert (Hdial : Map_get (exposedDuplexDataSources (server gated_state))
            (prop (write_request "dial" "t" (VNum 9)) "id") = Some ("dial", dial))
    by (vm_compute; reflexivity).
  assert (Hinbox : Map_get (exposedDuplexDataSources (server gated_state))
            (prop (write_request "inbox" "t" (VNum 9)) "id") = Some ("inbox", inbox))
    by (vm_compute; reflexivity).
  assert (Hr : authenticator dial (prop (write_request "dial" "t" (VNum 9)) "token") Read = true)
    by reflexivity.
  assert (Hw : authenticator dial (prop (write_request "dial" "t" (VNum 9)) "token") Write = false)
    by reflexivity.
  assert (Hr' : authenticator inbox (prop (write_request "inbox" "t" (VNum 9)) "token") Read
                = false) by reflexivity.
  assert (Hw' : authenticator inbox (prop (write_request "inbox" "t" (VNum 9)) "token") Write
                = true) by reflexivity.
  assert (Hl6 : listeners (the_source gated_state 6) = []) by (vm_compute; reflexivity).
  assert (Hl7 : listeners (the_source gated_state 7) = []) by (vm_compute; reflexivity).
  assert (Hu7 : upstream (the_source gated_state 7) = []) by (vm_compute; reflexivity).
  destruct (duplex_operations_are_separate (write_request "dial" "t" (VNum 9)) 0 gated_state
              "dial" dial Hdial) as [Hgrant _].
  destruct (Hgrant Hr Hw) as (Hls & _ & Hsrc & _).
  destruct (duplex_operations_are_separate (write_request "inbox" "t" (VNum 9)) 0 gated_state
              "inbox" inbox Hinbox) as [_ Hdeny].
  destruct (Hdeny Hr' Hw') as (Hls' & _ & Hup & _).
  change (source dial) with 6 in Hls. change (source inbox) with 7 in Hup.
  rewrite Hl6 in Hls. rewrite Hu7 in Hup. specialize (Hls' 7). rewrite Hl7 in Hls'.
  split; [exists dial; split; [exact Hdial|]; split; [reflexivity|]; split; reflexivity|].
  split; [exact Hls|]. split; [exact Hsrc|].
  split; [exists inbox; split; [exact Hinbox|]; split; [reflexivity|]; split; reflexivity|].
  split; [exact Hls'|exact Hup].
Defined.

(** ** The earlier revision *)

(** X17.  The earlier revision's scalar subscribe consults no authenticator:
    whenever the requested id is registered, the requester gets a live
    listener appended to the source, the handle stored under the id, and one
    [LISTEN_DATASOURCE_OK] frame carrying the source's current value -
    whatever the entry's authenticator would say.  On the same state and
    request, the current revision answers a refusing authenticator with the
    401 frame and leaves the sources alone. *)
Theorem legacy_subscribe_is_unguarded
    (message : value) (sender : ClientRef) (st : State)
    (key : string) (endpoint : Endpoint) :
  Map_get (exposedDataSources (server st)) (prop message "id") = Some (key, endpoint) ->
  (listeners (the_source (Legacy.listenDataSource message sender st) (source endpoint)) =
     listeners (the_source st (source endpoint)) ++
       [{| callback := OnValue sender (prop message "id"); token := nextToken st |}] /\
   is_cancelled (Legacy.listenDataSource message sender st) (nextToken st) = false /\
   subscriptions (client (Legacy.listenDataSource message sender st) sender) =
     <[key := nextToken st]> (subscriptions (client st sender)) /\
   connection (client (Legacy.listenDataSource message sender st) sender) =
     connection (client st sender) ++
       [ack_frame (prop message "id") (src_value (the_source st (source endpoint)))]) /\
  (authenticator endpoint (prop message "token") Read = false ->
   sources (listenDataSource message sender st) = sources st /\
   connection (client (listenDataSource message sender st) sender) =
     connection (client st sender) ++
       [{| frame_type := LISTEN_DATASOURCE_ERR;
           frame_payload := error_payload (prop message "id") 401 "Unauthorized" |}]).
Proof.
  intros Hhit. split.
  - unfold Legacy.listenDataSource. rewrite Hhit. new_token_step.
    set (stS := subscriptions_set sender key (nextToken st) _).
    set (stL := listen _ _ _ stS).
    assert (Hsrc : the_source stL (source endpoint) =
      {| src_value := src_value (the_source st (source endpoint));
         listeners := listeners (the_source st (source endpoint)) ++
           [{| callback := OnValue sender (prop message "id"); token := nextToken st |}];
         upstream := upstream (the_source st (source endpoint)) |})
      by (unfold stL, listen; by rewrite the_source_update_source_eq).
    rewrite Hsrc. cbn [src_value].
    set (st1 := sendMessage _ _ _ stL).
    split; [|split; [by apply (fresh_token_live st)|]].
    + change (the_source st1 (source endpoint)) with (the_source stL (source endpoint)).
      by rewrite Hsrc.
    + unfold st1, sendMessage. rewrite client_update_client_eq. cbn [subscriptions connection].
      change (client stL sender) with (client stS sender).
      unfold stS, subscriptions_set. rewrite client_update_client_eq. by split.
  - intros Hdeny.
    destruct (listenDataSource_denied message sender st key endpoint Hhit Hdeny)
      as (Hconn & Hsources & _).
    by split.
Qed.

Lemma legacy_subscribe_is_unguarded_witness :
  (exists endpoint,
     Map_get (exposedDataSources (server sample_state))
       (prop (request "secret" "t") "id") = Some ("secret", endpoint) /\
     source endpoint = 1 /\
     authenticator endpoint (VStr "t") Read = false) /\
  listeners (the_source (Legacy.listenDataSource (request "secret" "t") 0 sample_state) 1) =
    [{| callback := OnValue 0 (VStr "secret"); token := nextToken sample_state |}] /\
  connection (client (Legacy.listenDataSource (request "secret" "t") 0 sample_state) 0) =
    [ack_frame (VStr "secret") (VNum 7)] /\
  sources (listenDataSource (request "secret" "t") 0 sample_state) = sources sample_state.
Proof.
  set (secret := {| source := 1; authenticator := deny_all |}).
  assert (Hhit : Map_get (exposedDataSources (server sample_state))
            (prop (request "secret" "t") "id") = Some ("secret", secret))
    by (vm_compute; reflexivity).
  assert (Hdeny : authenticator secret (prop (request "secret" "t") "token") Read = false)
    by reflexivity.
  assert (Hl : listeners (the_source sample_state 1) = []) by (vm_compute; reflexivity).
  assert (Hc : connection (client sample_state 0) = []) by (vm_compute; reflexivity).
  assert (Hv : src_value (the_source sample_state 1) = VNum 7) by (vm_compute; reflexivity).
  destruct (legacy_subscribe_is_unguarded (request "secret" "t") 0 sample_state
              "secret" secret Hhit) as [(Hls & _ & _ & Hconn) Hcur].
  destruct (Hcur Hdeny) as [Hsources _].
  change (source secret) with 1 in Hls, Hconn.
  rewrite Hl in Hls. rewrite Hc, Hv in Hconn.
  split; [exists secret; split; [exact Hhit|]; split; reflexivity|].
  split; [exact Hls|]. split; [exact Hconn | exact Hsources].
Defined.

(** X18.  The earlier revision's close handler only takes the client off the
    list (and runs the hook): no token is cancelled, no subscription map and
    no source changes.  Hence an update of any source after the close
    appends to every connection, the closed one included, exactly the frames
    it would have appended without the close. *)
Theorem legacy_close_cancels_nothing (c : ClientRef) (st : State) :
  getClients (Legacy.on_close c st) = splice_indexOf (getClients st) c /\
  tokens (Legacy.on_close c st) = tokens st /\
  clients (Legacy.on_close c st) = clients st /\
  sources (Legacy.on_close c st) = sources st /\
  (forall r v c',
     connection (client (update r v (Legacy.on_close c st)) c') =
       connection (client (update r v st) c')) /\
  (forall r newData change c',
     connection (client (ArrayDataSource_change r newData change (Legacy.on_close c st)) c') =
       connection (client (ArrayDataSource_change r newData change st) c')).
Proof.
  assert (Hg : getClients (Legacy.on_close c st) = splice_indexOf (getClients st) c)
    by (unfold Legacy.on_close; cbn; by destruct (onClientDisconnected (create_config st))).
  assert (Ht : tokens (Legacy.on_close c st) = tokens st)
    by (unfold Legacy.on_close; cbn; by destruct (onClientDisconnected (create_config st))).
  assert (Hc : clients (Legacy.on_close c st) = clients st)
    by (unfold Legacy.on_close; cbn; by destruct (onClientDisconnected (create_config st))).
  assert (Hs : sources (Legacy.on_close c st) = sources st)
    by (unfold Legacy.on_close; cbn; by destruct (onClientDisconnected (create_config st))).
  assert (Hcl : forall c', client (Legacy.on_close c st) c' = client st c')
    by (intros c'; unfold client; by rewrite Hc).
  assert (Hsrc : forall r, the_source (Legacy.on_close c st) r = the_source st r)
    by (intros r; unfold the_source; by rewrite Hs).
  split; [exact Hg|]. split; [exact Ht|]. split; [exact Hc|]. split; [exact Hs|].
  split.
  - intros r v c'. rewrite !update_connection, Hcl, Hsrc.
    by rewrite (delivered_to_tokens c' v st (Legacy.on_close c st) _ Ht).
  - intros r newData change c'. rewrite !ArrayDataSource_change_connection, Hcl, Hsrc.
    by rewrite (delivered_to_tokens c' _ st (Legacy.on_close c st) _ Ht).
Qed.

(** X19.  The earlier revision's [listenArrayDataSource] reads the registry
    without a [has] test: for an id that is not registered it throws a
    [TypeError] - after it has created a token and stored it in the
    requester's subscription map.  No frame is sent, no source and no
    registry changes. *)
Theorem legacy_array_subscribe_missing_throws (id : string) (sender : ClientRef) (st : State) :
  exposedArrayDataSources (server st) !! id = None ->
  exists st',
    Legacy.listenArrayDataSource id sender st = Legacy.Thrown "TypeError" st' /\
    subscriptions (client st' sender) = <[id := nextToken st]> (subscriptions (client st sender)) /\
    is_cancelled st' (nextToken st) = false /\
    nextToken st' = S (nextToken st) /\
    connection (client st' sender) = connection (client st sender) /\
    (forall c, c <> sender -> client st' c = client st c) /\
    sources st' = sources st /\
    server st' = server st.
Proof.
  intros Hmiss. unfold Legacy.listenArrayDataSource. rewrite Hmiss. new_token_step.
  eexists. split; [reflexivity|].
  set (stS := subscriptions_set sender id (nextToken st) _).
  split; [|split; [by apply (fresh_token_live st)|]; split; [reflexivity|]; split;
           [|split; [|by split]]].
  - unfold stS, subscriptions_set. by rewrite client_update_client_eq.
  - unfold stS, subscriptions_set. by rewrite client_update_client_eq.
  - intros c Hne. unfold stS, subscriptions_set. by rewrite client_update_client_ne.
Qed.

Lemma legacy_array_subscribe_missing_throws_witness :
  exposedArrayDataSources (server sample_state) !! "nothing" = None /\
  exists st',
    Legacy.listenArrayDataSource "nothing" 0 sample_state = Legacy.Thrown "TypeError" st' /\
    subscriptions (client st' 0) !! "nothing" = Some (nextToken sample_state) /\
    connection (client st' 0) = [].
Proof.
  assert (Hmiss : exposedArrayDataSources (server sample_state) !! "nothing" = None)
    by (vm_compute; reflexivity).
  assert (Hc : connection (client sample_state 0) = []) by (vm_compute; reflexivity).
  destruct (legacy_array_subscribe_missing_throws "nothing" 0 sample_state Hmiss)
    as (st' & Hthrow & Hsubs & _ & _ & Hconn & _).
  split; [exact Hmiss|]. exists st'. split; [exact Hthrow|]. split.
  - rewrite Hsubs. apply lookup_insert_eq.
  - by rewrite Hconn.
Defined.

(** X20.  Dispatch in the earlier revision.  When the protocol numbers are
    pairwise distinct, a text frame shorter than the limit whose text parses
    to a message with [type] the number of a protocol member sets the
    session's timestamp and runs [listenDataSource] for
    [LISTEN_DATASOURCE]; for every other member - the duplex and array
    requests included - the timestamp is the only effect. *)
Theorem legacy_frame_dispatch JSON_parse code sender text now st message kind :
  (forall p q, code p = code q -> p = q) ->
  length_ge text (maxMessageSize (config (server st))) = false ->
  JSON_parse text = Some message ->
  member message "type" = Some (VNum (code kind)) ->
  Legacy.processMessage JSON_parse code sender (DataString text) now st =
    match kind with
    | LISTEN_DATASOURCE =>
        Legacy.listenDataSource message sender (set_timeSinceLastMessage sender now st)
    | _ => set_timeSinceLastMessage sender now st
    end.
Proof.
  intros Hinj Hsize Hparse Htype.
  unfold Legacy.processMessage. rewrite Hsize, Hparse, Htype. unfold is_case.
  destruct kind;
    repeat match goal with
           | |- context [(code ?p =? code ?p)%Z] => rewrite (Z.eqb_refl (code p))
           | |- context [(code ?p =? code ?q)%Z] =>
               destruct (Z.eqb_spec (code p) (code q)) as [E|_];
               [apply Hinj in E; discriminate E|]
           end;
    reflexivity.
Qed.

Lemma legacy_frame_dispatch_witness :
  (forall p q, sample_code p = sample_code q -> p = q) /\
  length_ge write_text (maxMessageSize (config (server default_state))) = false /\
  JSON_parse_sample write_text =
    Some (VObj [("type", VNum 7); ("id", VStr "knob"); ("token", VStr "t");
                ("value", VNum 9)]) /\
  Legacy.processMessage JSON_parse_sample sample_code 0 (DataString write_text) 100
    default_state = set_timeSinceLastMessage 0 100 default_state /\
  length_ge subscribe_text (maxMessageSize (config (server default_state))) = false /\
  JSON_parse_sample subscribe_text =
    Some (VObj [("type", VNum 1); ("id", VStr "temperature"); ("token", VStr "t")]) /\
  Legacy.processMessage JSON_parse_sample sample_code 0 (DataString subscribe_text) 100
    default_state =
    Legacy.listenDataSource
      (VObj [("type", VNum 1); ("id", VStr "temperature"); ("token", VStr "t")])
      0 (set_timeSinceLastMessage 0 100 default_state).
Proof.
  assert (H1 : length_ge write_text (maxMessageSize (config (server default_state))) = false)
    by (vm_compute; reflexivity).
  assert (H2 : JSON_parse_sample write_text =
    Some (VObj [("type", VNum 7); ("id", VStr "knob"); ("token", VStr "t");
                ("value", VNum 9)])) by (vm_compute; reflexivity).
  assert (H3 : member (VObj [("type", VNum 7); ("id", VStr "knob"); ("token", VStr "t");
                             ("value", VNum 9)]) "type" =
               Some (VNum (sample_code UPDATE_DUPLEX_DATASOURCE))) by reflexivity.
  assert (H4 : length_ge subscribe_text (maxMessageSize (config (server default_state))) = false)
    by (vm_compute; reflexivity).
  assert (H5 : JSON_parse_sample subscribe_text =
    Some (VObj [("type", VNum 1); ("id", VStr "temperature"); ("token", VStr "t")]))
    by (vm_compute; reflexivity).
  assert (H6 : member (VObj [("type", VNum 1); ("id", VStr "temperature");
                             ("token", VStr "t")]) "type" =
               Some (VNum (sample_code LISTEN_DATASOURCE))) by reflexivity.
  split; [exact sample_code_injective|].
  split; [exact H1|]. split; [exact H2|].
  split; [exact (legacy_frame_dispatch JSON_parse_sample sample_code 0 write_text 100
                   default_state _ UPDATE_DUPLEX_DATASOURCE sample_code_injective H1 H2 H3)|].
  split; [exact H4|]. split; [exact H5|].
  exact (legacy_frame_dispatch JSON_parse_sample sample_code 0 subscribe_text 100
           default_state _ LISTEN_DATASOURCE sample_code_injective H4 H5 H6).
Defined.
